(** * The telemetry gateway of the temperature monitor

    A shallow embedding of the WebSocket ingestion and fan-out path of
    [server/routes.ts]: the [message], [close] and [error] handlers that
    [registerRoutes] installs on every accepted socket, the helper
    [broadcastToClients], and the two REST endpoints that read the device
    registry and inject alerts.

    JavaScript values are modelled as far as the handlers look at them,
    numbers are IEEE doubles (Rocq's primitive floats), the process-wide
    [Map] and [Set] keep their insertion order, and the handlers run in a
    state-and-exception monad so that a [throw] leaves the effects that
    preceded it in place, as it does in the source.

    The later parts embed what the gateway stands next to: the in-memory
    store of [server/storage.ts] with the alert service and the REST
    routes that go through it, the SMS providers, and the message handler
    of the dashboard that reads what the gateway broadcasts. *)

From Stdlib Require Import ZArith String Bool List Lia Sorted.
From Stdlib Require Import Ascii Floats.PrimFloat Floats.SpecFloat Floats.FloatOps Floats.FloatAxioms.
From stdpp Require Import base tactics option list functions pretty.

Import ListNotations.
Local Open Scope string_scope.
Local Open Scope list_scope.
Set Warnings "-register-all,-inexact-float".

(** ** JavaScript values *)

(** What [JSON.parse] can return, plus [undefined], which a property read
    yields for a missing property.  An object is the list of its own
    properties. *)
Inductive JValue : Type :=
| JUndefined
| JNull
| JBool (b : bool)
| JNum (x : float)
| JStr (s : string)
| JArr (items : list JValue)
| JObj (props : list (string * JValue)).

(** Own-property lookup in the property list of an object. *)
Fixpoint lookupProp (name : string) (props : list (string * JValue)) : JValue :=
  match props with
  | [] => JUndefined
  | (k, v) :: rest => if String.eqb k name then v else lookupProp name rest
  end.

(** Exceptions the handlers can meet. *)
Inductive Exn : Type :=
| SyntaxError                 (* JSON.parse on text that is not JSON *)
| TypeError                   (* property read on null or undefined *)
| TransportError (msg : string). (* thrown by a socket's send *)

Inductive Completion (A : Type) : Type :=
| Normal (a : A)
| Throw (e : Exn).
Arguments Normal {A} a.
Arguments Throw {A} e.

(** [v.name] for the property names the handlers read ([type], [deviceId],
    [ambientTemp], [objectTemp], [timestamp], [deviceName]): none of them
    is inherited from a prototype, so primitives and arrays give
    [undefined]; reading a property of [null] or [undefined] throws. *)
Definition getProp (v : JValue) (name : string) : Completion JValue :=
  match v with
  | JUndefined | JNull => Throw TypeError
  | JObj props => Normal (lookupProp name props)
  | JBool _ | JNum _ | JStr _ | JArr _ => Normal JUndefined
  end.

(** ToBoolean. *)
Definition truthy (v : JValue) : bool :=
  match v with
  | JUndefined | JNull => false
  | JBool b => b
  | JNum x => negb (is_zero x || is_nan x)
  | JStr s => negb (String.eqb s EmptyString)
  | JArr _ | JObj _ => true
  end.

(** [v === 'lit'] against a string literal. *)
Definition strictEqStr (v : JValue) (lit : string) : bool :=
  match v with
  | JStr s => String.eqb s lit
  | _ => false
  end.

(** ** The device registry: [Map<string, DeviceData>] *)

(** [interface DeviceData].  The fields are copied from the parsed frame
    without a run-time check, so each holds whatever the frame held. *)
Record DeviceData : Type := mkDeviceData {
  deviceId : JValue;
  ambientTemp : JValue;
  objectTemp : JValue;
  timestamp : JValue
}.

(** The object as [JSON.stringify] and [res.json] see it. *)
Definition DeviceData_toJS (d : DeviceData) : JValue :=
  JObj [("deviceId", deviceId d); ("ambientTemp", ambientTemp d);
        ("objectTemp", objectTemp d); ("timestamp", timestamp d)].

(** Key comparison of [Map] (SameValueZero).  Objects and arrays compare by
    identity; every object that reaches the registry is fresh from
    [JSON.parse], so it equals no key already there. *)
Definition sameValueZero (a b : JValue) : bool :=
  match a, b with
  | JUndefined, JUndefined => true
  | JNull, JNull => true
  | JBool x, JBool y => Bool.eqb x y
  | JNum x, JNum y => (x =? y)%float || (is_nan x && is_nan y)
  | JStr x, JStr y => String.eqb x y
  | _, _ => false
  end.

(** [Map.prototype.set] stores the key -0 as +0. *)
Definition canonKey (k : JValue) : JValue :=
  match k with
  | JNum x => if is_zero x then JNum zero else k
  | _ => k
  end.

Definition JSMap (V : Type) : Type := list (JValue * V).

Fixpoint Map_get {V} (k : JValue) (m : JSMap V) : option V :=
  match m with
  | [] => None
  | (k', v) :: rest => if sameValueZero k' k then Some v else Map_get k rest
  end.

(** An existing key keeps its place, a new one goes to the end. *)
Fixpoint Map_set {V} (k : JValue) (v : V) (m : JSMap V) : JSMap V :=
  match m with
  | [] => [(canonKey k, v)]
  | (k', v') :: rest =>
      if sameValueZero k' k then (k', v) :: rest
      else (k', v') :: Map_set k v rest
  end.

Definition Map_values {V} (m : JSMap V) : list V := map snd m.

(** ** Sockets and the subscriber set: [Set<any>] *)

(** A connection handle stands for the socket object. *)
Definition Conn : Type := nat.

(** What a call of [send] on a socket does.  The [ws] socket is not part of
    the repository; the gateway only calls [send] and reads [readyState],
    so a socket is modelled by those two and by the frames it was given. *)
Inductive SendBehaviour : Type :=
| Delivers                    (* the frame goes out *)
| Drops                       (* send returns, the frame is lost; the
                                 transport reports it by an 'error' event *)
| Raises (msg : string).      (* send throws *)

Record Socket : Type := mkSocket {
  readyState : Z;             (* 0 connecting, 1 open, 2 closing, 3 closed *)
  onSend : SendBehaviour;
  inbox : list string         (* frames delivered to the peer, oldest first *)
}.

Definition OPEN : Z := 1.

Definition Set_add (c : Conn) (s : list Conn) : list Conn :=
  if decide (c ∈ s) then s else s ++ [c].

Definition Set_delete (c : Conn) (s : list Conn) : list Conn :=
  filter (λ x, x ≠ c) s.

(** ** Gateway state and the handler monad *)

(** The lines the gateway writes to the console, with the values that are
    interpolated into them. *)
Inductive LogLine : Type :=
| LogNewConnection (clientId : float)
| LogTemperature (deviceId ambient object : JValue)
| LogDB (deviceId ambient object : JValue)
| LogHandshake (deviceId deviceName : JValue)
| LogParseError (e : Exn)
| LogDisconnected (clientId : float)
| LogClientError (message : string)
| LogAlertError (e : Exn).

(** What a handler does, in the order it does it. *)
Inductive Action : Type :=
| ConsoleLog (line : LogLine)
| ConsoleError (line : LogLine)
| Stringify (v : JValue)                    (* a call of JSON.stringify *)
| RegistrySet (k : JValue) (d : DeviceData) (* deviceLatestData.set *)
| SendCall (c : Conn) (payload : string).   (* a call of c.send *)

Record State : Type := mkState {
  deviceLatestData : JSMap DeviceData;  (* const deviceLatestData = new Map *)
  connectedClients : list Conn;         (* const connectedClients = new Set *)
  sockets : Conn -> Socket;             (* the socket objects, by handle *)
  clientIds : Conn -> float;            (* clientId captured by each socket's handlers *)
  clock : nat;                          (* calls of Date.now() so far *)
  trace : list Action                   (* actions so far, oldest first *)
}.

Definition with_registry (m : JSMap DeviceData) (st : State) : State :=
  mkState m (connectedClients st) (sockets st) (clientIds st) (clock st) (trace st).
Definition with_clients (s : list Conn) (st : State) : State :=
  mkState (deviceLatestData st) s (sockets st) (clientIds st) (clock st) (trace st).
Definition with_sockets (h : Conn -> Socket) (st : State) : State :=
  mkState (deviceLatestData st) (connectedClients st) h (clientIds st) (clock st) (trace st).
Definition with_clientIds (h : Conn -> float) (st : State) : State :=
  mkState (deviceLatestData st) (connectedClients st) (sockets st) h (clock st) (trace st).
Definition with_clock (n : nat) (st : State) : State :=
  mkState (deviceLatestData st) (connectedClients st) (sockets st) (clientIds st) n (trace st).
Definition with_trace (t : list Action) (st : State) : State :=
  mkState (deviceLatestData st) (connectedClients st) (sockets st) (clientIds st) (clock st) t.

(** A computation may read and change the state and ends normally or by a
    throw; the state it leaves is kept either way. *)
Definition Eff (A : Type) : Type := State -> Completion A * State.

Definition ret {A} (a : A) : Eff A := fun st => (Normal a, st).

Definition bind {A B} (m : Eff A) (k : A -> Eff B) : Eff B :=
  fun st =>
    match m st with
    | (Normal a, st') => k a st'
    | (Throw e, st') => (Throw e, st')
    end.

Notation "x <- m ;; k" := (bind m (fun x => k))
  (at level 100, m at next level, right associativity).
Notation "m ;;; k" := (bind m (fun _ => k))
  (at level 100, right associativity).

(** [try { body } catch (error) { handler error }] *)
Definition tryCatch {A} (body : Eff A) (handler : Exn -> Eff A) : Eff A :=
  fun st =>
    match body st with
    | (Normal a, st') => (Normal a, st')
    | (Throw e, st') => handler e st'
    end.

(** The state a computation leaves, and how it ended. *)
Definition exec {A} (m : Eff A) (st : State) : State := snd (m st).
Definition outcome {A} (m : Eff A) (st : State) : Completion A := fst (m st).

Definition liftC {A} (c : Completion A) : Eff A := fun st => (c, st).

Definition emit (a : Action) : Eff unit :=
  fun st => (Normal tt, with_trace (trace st ++ [a]) st).

Definition console_log (l : LogLine) : Eff unit := emit (ConsoleLog l).
Definition console_error (l : LogLine) : Eff unit := emit (ConsoleError l).

Definition deliver (payload : string) (s : Socket) : Socket :=
  mkSocket (readyState s) (onSend s) (inbox s ++ [payload]).

(** [c.send(payload)] *)
Definition ws_send (c : Conn) (payload : string) : Eff unit :=
  emit (SendCall c payload) ;;;
  fun st =>
    match onSend (sockets st c) with
    | Delivers => (Normal tt, with_sockets (<[c := deliver payload (sockets st c)]> (sockets st)) st)
    | Drops => (Normal tt, st)
    | Raises msg => (Throw (TransportError msg), st)
    end.

(** [set.forEach(f)] over the members in insertion order. *)
Fixpoint forEach {A} (f : A -> Eff unit) (l : list A) : Eff unit :=
  match l with
  | [] => ret tt
  | x :: rest => f x ;;; forEach f rest
  end.

(** ** String conversion in the log lines *)

(** The log lines are template literals, so each interpolated value goes
    through ToString before [console.log] is called.  For a primitive that
    always works.  For an object from [JSON.parse] it works through the
    inherited [toString], unless the object has an own property named
    [toString]: that one is never a function, the inherited [valueOf] hands
    the object back, and the conversion ends in a TypeError.  An array is
    joined from its elements, null and undefined giving the empty string. *)
Fixpoint hasOwn (name : string) (props : list (string * JValue)) : bool :=
  match props with
  | [] => false
  | (k, _) :: rest => String.eqb k name || hasOwn name rest
  end.

Fixpoint convertible (v : JValue) : bool :=
  match v with
  | JObj props => negb (hasOwn "toString" props)
  | JArr items => forallb convertible items
  | _ => true
  end.

Definition interpolate (vs : list JValue) : Eff unit :=
  if forallb convertible vs then ret tt else liftC (Throw TypeError).

(** ** The handlers of [registerRoutes] *)

Record Response : Type := mkResponse { status : Z; body : JValue }.

Module Gateway.
Section Handlers.

(** The three library functions the handlers call.  [JSON_parse] takes the
    text of the frame ([data.toString()]) and gives [None] where
    [JSON.parse] throws a SyntaxError; [Date_now n] is what the [n]-th
    call of [Date.now()] of the run returns. *)
Variable JSON_parse : string -> option JValue.
Variable JSON_stringify : JValue -> string.
Variable Date_now : nat -> float.

Definition now : Eff float :=
  fun st => (Normal (Date_now (clock st)), with_clock (S (clock st)) st).

Definition parse (text : string) : Eff JValue :=
  liftC (match JSON_parse text with
         | Some v => Normal v
         | None => Throw SyntaxError
         end).

Definition stringify (v : JValue) : Eff string :=
  emit (Stringify v) ;;; ret (JSON_stringify v).

Definition registry_set (k : JValue) (d : DeviceData) : Eff unit :=
  emit (RegistrySet k d) ;;;
  fun st => (Normal tt, with_registry (Map_set k d (deviceLatestData st)) st).

(** [function broadcastToClients(message)] *)
Definition sendIfOpen (json : string) (client : Conn) : Eff unit :=
  fun st =>
    if (readyState (sockets st client) =? OPEN)%Z
    then ws_send client json st
    else (Normal tt, st).

Definition broadcastToClients (message : JValue) : Eff unit :=
  json <- stringify message ;;
  fun st => forEach (sendIfOpen json) (connectedClients st) st.

(** [function storeTemperatureReading(deviceId, ambientTemp, objectTemp)] *)
Definition storeTemperatureReading (deviceId ambientTemp objectTemp : JValue) : Eff unit :=
  interpolate [deviceId; ambientTemp; objectTemp] ;;;
  console_log (LogDB deviceId ambientTemp objectTemp).

Definition temperature_update (deviceData : DeviceData) (t : float) : JValue :=
  JObj [("type", JStr "temperature-update");
        ("data", DeviceData_toJS deviceData);
        ("timestamp", JNum t)].

Definition handshake_ack (t : float) : JValue :=
  JObj [("type", JStr "handshake-ack");
        ("message", JStr "Welcome to Temperature Monitor");
        ("timestamp", JNum t)].

(** The branch [if (message.type === 'temperature') { ... }]. *)
Definition onTemperature (message : JValue) : Eff unit :=
  m_deviceId <- liftC (getProp message "deviceId") ;;
  m_ambientTemp <- liftC (getProp message "ambientTemp") ;;
  m_objectTemp <- liftC (getProp message "objectTemp") ;;
  m_timestamp <- liftC (getProp message "timestamp") ;;
  ts <- (if truthy m_timestamp then ret m_timestamp
         else (t <- now ;; ret (JNum t))) ;;
  let deviceData := mkDeviceData m_deviceId m_ambientTemp m_objectTemp ts in
  registry_set m_deviceId deviceData ;;;
  interpolate [m_deviceId; m_ambientTemp; m_objectTemp] ;;;
  console_log (LogTemperature m_deviceId m_ambientTemp m_objectTemp) ;;;
  t <- now ;;
  broadcastToClients (temperature_update deviceData t) ;;;
  storeTemperatureReading m_deviceId m_ambientTemp m_objectTemp.

(** The branch [else if (message.type === 'handshake') { ... }]. *)
Definition onHandshake (websocket : Conn) (message : JValue) : Eff unit :=
  m_deviceId <- liftC (getProp message "deviceId") ;;
  m_deviceName <- liftC (getProp message "deviceName") ;;
  interpolate [m_deviceId; m_deviceName] ;;;
  console_log (LogHandshake m_deviceId m_deviceName) ;;;
  t <- now ;;
  json <- stringify (handshake_ack t) ;;
  ws_send websocket json.

(** [websocket.on('message', (data) => { try { ... } catch (error) { ... } })]:
    [handleFrame] is the body of the [try]. *)
Definition handleFrame (websocket : Conn) (data : string) : Eff unit :=
  message <- parse data ;;
  type <- liftC (getProp message "type") ;;
  if strictEqStr type "temperature" then onTemperature message
  else if strictEqStr type "handshake" then onHandshake websocket message
  else ret tt.

Definition onMessage (websocket : Conn) (data : string) : Eff unit :=
  tryCatch (handleFrame websocket data)
           (fun error => console_error (LogParseError error)).

(** [wss.on('connection', (websocket, request) => { ... })] *)
Definition onConnection (websocket : Conn) : Eff unit :=
  t <- now ;;
  (fun st => (Normal tt, with_clientIds (<[websocket := t]> (clientIds st)) st)) ;;;
  console_log (LogNewConnection t) ;;;
  fun st => (Normal tt, with_clients (Set_add websocket (connectedClients st)) st).

(** [httpServer.on('upgrade', (request, socket, head) => { ... })], by
    [request.url]: on the path of the gateway the upgrade is handed to the
    [connection] handler with the new socket, anywhere else the TCP socket
    is destroyed and the gateway state is not touched. *)
Definition onUpgrade (url : option string) (websocket : Conn) : Eff unit :=
  let pathname := match url with Some u => u | None => EmptyString end in
  if String.eqb pathname "/ws/temperature" then onConnection websocket
  else ret tt.

(** [websocket.on('close', () => { ... })] *)
Definition onClose (websocket : Conn) : Eff unit :=
  (fun st => console_log (LogDisconnected (clientIds st websocket)) st) ;;;
  fun st => (Normal tt, with_clients (Set_delete websocket (connectedClients st)) st).

(** [websocket.on('error', (error) => { ... })] *)
Definition onError (websocket : Conn) (message : string) : Eff unit :=
  console_error (LogClientError message) ;;;
  fun st => (Normal tt, with_clients (Set_delete websocket (connectedClients st)) st).

(** [deviceLatestData.get(deviceId)], the registry read of
    [GET /api/temperature/latest]. *)
Definition GetLatest (deviceId : string) (st : State) : option DeviceData :=
  Map_get (JStr deviceId) (deviceLatestData st).

Definition GetAll (st : State) : list DeviceData :=
  Map_values (deviceLatestData st).

(** [app.get("/api/temperature/latest", ...)], by [req.query.deviceId]. *)
Definition api_temperature_latest (deviceId : JValue) : Eff Response :=
  fun st =>
    if truthy deviceId then
      match Map_get deviceId (deviceLatestData st) with
      | Some data => (Normal (mkResponse 200 (DeviceData_toJS data)), st)
      | None => (Normal (mkResponse 200 (JObj [("error", JStr "Device not found")])), st)
      end
    else (Normal (mkResponse 200 (JArr (map DeviceData_toJS (GetAll st)))), st).

(** [app.post("/api/temperature/alert", ...)], by [req.body]. *)
Definition api_temperature_alert (req_body : JValue) : Eff Response :=
  tryCatch
    (deviceId <- liftC (getProp req_body "deviceId") ;;
     alertMessage <- liftC (getProp req_body "alertMessage") ;;
     t <- now ;;
     broadcastToClients (JObj [("type", JStr "alert"); ("deviceId", deviceId);
                               ("message", alertMessage); ("timestamp", JNum t)]) ;;;
     ret (mkResponse 200 (JObj [("success", JBool true); ("message", JStr "Alert sent")])))
    (fun error =>
       console_error (LogAlertError error) ;;;
       ret (mkResponse 500 (JObj [("error", JStr "Internal server error")]))).

(** What the event loop hands to the gateway, one event at a time.
    [Transport] is the socket library changing a socket under the
    gateway: its ready state, and how its next [send] will go. *)
Inductive Event : Type :=
| Upgrade (url : option string) (c : Conn)
| Connected (c : Conn)
| Frame (c : Conn) (data : string)
| Closed (c : Conn)
| Errored (c : Conn) (message : string)
| Transport (c : Conn) (rs : Z) (b : SendBehaviour)
| HttpLatest (deviceId : JValue)
| HttpAlert (req_body : JValue).

Definition retarget (rs : Z) (b : SendBehaviour) (s : Socket) : Socket :=
  mkSocket rs b (inbox s).

Definition step (ev : Event) (st : State) : State :=
  match ev with
  | Upgrade url c => exec (onUpgrade url c) st
  | Connected c => exec (onConnection c) st
  | Frame c data => exec (onMessage c data) st
  | Closed c => exec (onClose c) st
  | Errored c message => exec (onError c message) st
  | Transport c rs b =>
      with_sockets (<[c := retarget rs b (sockets st c)]> (sockets st)) st
  | HttpLatest q => exec (api_temperature_latest q) st
  | HttpAlert b => exec (api_temperature_alert b) st
  end.

Definition run (evs : list Event) (st : State) : State :=
  fold_left (fun st ev => step ev st) evs st.

End Handlers.
End Gateway.
Import Gateway.

(** ** Vocabulary of the statements *)

Definition isOpen (st : State) (c : Conn) : bool :=
  (readyState (sockets st c) =? OPEN)%Z.

Definition raises (b : SendBehaviour) : bool :=
  match b with Raises _ => true | _ => false end.

(** No open socket among [l] has a [send] that throws. *)
Definition sends_return (st : State) (l : list Conn) : bool :=
  forallb (fun c => negb (isOpen st c && raises (onSend (sockets st c)))) l.

(** What one guarded [send] of [json] makes of a socket whose [send]
    returns. *)
Definition sent (json : string) (s : Socket) : Socket :=
  if (readyState s =? OPEN)%Z then
    match onSend s with Delivers => deliver json s | _ => s end
  else s.

(** The actions performed on the way from [st] to [st']. *)
Definition since (st st' : State) : list Action :=
  drop (length (trace st)) (trace st').

Definition is_stringify (a : Action) : bool :=
  match a with Stringify _ => true | _ => false end.

Definition is_send (a : Action) : bool :=
  match a with SendCall _ _ => true | _ => false end.

Definition is_send_to (c : Conn) (a : Action) : bool :=
  match a with SendCall c' _ => Nat.eqb c' c | _ => false end.

Definition is_registry_set (a : Action) : bool :=
  match a with RegistrySet _ _ => true | _ => false end.

(** The [send] calls of a broadcast of [json]: one per open member, in
    the order of the set. *)
Definition fanout (json : string) (st : State) (l : list Conn) : list Action :=
  map (fun c => SendCall c json) (List.filter (isOpen st) l).

(** The part of the state a frame cannot touch: who is subscribed, the
    captured client ids, and the transport side of every socket. *)
Definition same_wiring (st st' : State) : Prop :=
  connectedClients st' = connectedClients st
  /\ clientIds st' = clientIds st
  /\ forall c, readyState (sockets st' c) = readyState (sockets st c)
             /\ onSend (sockets st' c) = onSend (sockets st c).

(** [m] relates every state to the one it leaves by [R], however it ends. *)
Definition keeps {A} (R : State -> State -> Prop) (m : Eff A) : Prop :=
  forall st, R st (snd (m st)).

(** [m] never reads the trace: run from a state with another trace it
    ends the same way, in the same state, with the same actions added. *)
Definition trace_blind {A} (m : Eff A) : Prop :=
  forall st, exists acts,
    trace (snd (m st)) = trace st ++ acts
    /\ forall t, m (with_trace t st) = (fst (m st), with_trace (t ++ acts) (snd (m st))).

(** The fields of a frame as the handler reads them. *)
Definition field (name : string) (message : JValue) : JValue :=
  match getProp message name with
  | Normal v => v
  | Throw _ => JUndefined
  end.

(** [message.type === ty] holds (and the read of [type] does not throw). *)
Definition has_type (ty : string) (message : JValue) : bool :=
  match getProp message "type" with
  | Normal t => strictEqStr t ty
  | Throw _ => false
  end.

(** The reading the temperature branch builds from a frame when
    [Date.now()] would return [t]. *)
Definition readingAt (message : JValue) (t : float) : DeviceData :=
  mkDeviceData (field "deviceId" message)
               (field "ambientTemp" message)
               (field "objectTemp" message)
               (if truthy (field "timestamp" message)
                then field "timestamp" message else JNum t).

(** The reading of the clock that stamps the broadcast of a temperature
    frame: the one after the reading that a missing timestamp takes. *)
Definition broadcastTime (Date_now : nat -> float) (message : JValue) (st : State) : float :=
  Date_now (if truthy (field "timestamp" message) then clock st else S (clock st)).

(** The three fields of a temperature frame that go into its log line can
    be converted to a string. *)
Definition loggable (message : JValue) : bool :=
  forallb convertible
    [field "deviceId" message; field "ambientTemp" message; field "objectTemp" message].

(** The event takes [c] out of the subscriber set. *)
Definition closes (c : Conn) (ev : Event) : bool :=
  match ev with
  | Closed c' | Errored c' _ => Nat.eqb c' c
  | _ => false
  end.

(** A broadcast of [event] goes through although the [send] to [failing]
    fails: it ends normally and every other open subscriber whose socket
    delivers has the event added to what it received. *)
Definition failure_tolerated
    (JSON_stringify : JValue -> string) (event : JValue) (failing : Conn) (st : State) : Prop :=
  let st' := exec (broadcastToClients JSON_stringify event) st in
  outcome (broadcastToClients JSON_stringify event) st = Normal tt
  /\ forall c, c ∈ connectedClients st -> c <> failing ->
               isOpen st c = true -> onSend (sockets st c) = Delivers ->
               inbox (sockets st' c) = inbox (sockets st c) ++ [JSON_stringify event].

(** A broadcast of [event] that serves every open subscriber: the event is
    serialized once and every subscriber whose socket is open is sent that
    text exactly once. *)
Definition serves_every_open_subscriber
    (JSON_stringify : JValue -> string) (event : JValue) (st : State) : Prop :=
  let st' := exec (broadcastToClients JSON_stringify event) st in
  List.filter is_stringify (since st st') = [Stringify event]
  /\ forall c, c ∈ connectedClients st -> isOpen st c = true ->
               List.filter (is_send_to c) (since st st')
               = [SendCall c (JSON_stringify event)].

(** The subscriber [c] receives every broadcast made in [st]. *)
Definition receives_every_broadcast
    (JSON_stringify : JValue -> string) (c : Conn) (st : State) : Prop :=
  forall event,
    inbox (sockets (exec (broadcastToClients JSON_stringify event) st) c)
    = inbox (sockets st c) ++ [JSON_stringify event].

(** ** A concrete setting to run the model in *)

(** A socket as the upgrade hands it over: open and working. *)
Definition fresh : Socket := mkSocket OPEN Delivers [].

(** The state at the end of [registerRoutes]: empty registry, no client,
    every socket still as it will be handed over. *)
Definition initial : State :=
  mkState [] [] (fun _ => fresh) (fun _ => zero) 0 [].

(** JSON text is written with ' for the double quote. *)
Definition json_text (s : string) : string :=
  string_of_list_ascii
    (map (fun c => if Ascii.eqb c "'"%char then "034"%char else c)
         (list_ascii_of_string s)).

Definition frame_D1 : string :=
  json_text "{'type':'temperature','deviceId':'D1','ambientTemp':24.5,'objectTemp':32.1}".
Definition frame_D1_at (t : float) : JValue :=
  JObj [("type", JStr "temperature"); ("deviceId", JStr "D1");
        ("ambientTemp", JNum 24.5); ("objectTemp", JNum 32.1);
        ("timestamp", JNum t)].
Definition frame_D1_later : JValue :=
  JObj [("type", JStr "temperature"); ("deviceId", JStr "D1");
        ("ambientTemp", JNum 25); ("objectTemp", JNum 36.6);
        ("timestamp", JNum 2000)].
Definition frame_D1_t1000 : string :=
  json_text "{'type':'temperature','deviceId':'D1','ambientTemp':24.5,'objectTemp':32.1,'timestamp':1000}".
Definition frame_D1_t2000 : string :=
  json_text "{'type':'temperature','deviceId':'D1','ambientTemp':25,'objectTemp':36.6,'timestamp':2000}".
Definition frame_D1_t0 : string :=
  json_text "{'type':'temperature','deviceId':'D1','ambientTemp':24.5,'objectTemp':32.1,'timestamp':0}".
Definition frame_D2_missing : string :=
  json_text "{'type':'temperature','deviceId':'D2'}".
Definition frame_handshake : string :=
  json_text "{'type':'handshake','deviceId':'ESP32-MLX90614-01','deviceName':'ESP32 Temperature Sensor'}".
Definition frame_handshake_odd : string :=
  json_text "{'type':'handshake','deviceId':{'toString':1}}".
Definition frame_not_json : string := "not json".

(** [JSON.parse] on the frames above; any other text stands for one that
    is not JSON. *)
Definition sample_parse (text : string) : option JValue :=
  if String.eqb text frame_D1 then
    Some (JObj [("type", JStr "temperature"); ("deviceId", JStr "D1");
                ("ambientTemp", JNum 24.5); ("objectTemp", JNum 32.1)])
  else if String.eqb text frame_D1_t1000 then Some (frame_D1_at 1000)
  else if String.eqb text frame_D1_t2000 then Some frame_D1_later
  else if String.eqb text frame_D1_t0 then Some (frame_D1_at 0)
  else if String.eqb text frame_D2_missing then
    Some (JObj [("type", JStr "temperature"); ("deviceId", JStr "D2")])
  else if String.eqb text frame_handshake then
    Some (JObj [("type", JStr "handshake"); ("deviceId", JStr "ESP32-MLX90614-01");
                ("deviceName", JStr "ESP32 Temperature Sensor")])
  else if String.eqb text frame_handshake_odd then
    Some (JObj [("type", JStr "handshake");
                ("deviceId", JObj [("toString", JNum 1)])])
  else None.

(** A serializer in the format of [JSON.stringify]: properties whose value
    is undefined are left out, undefined in an array and the numbers that
    are not finite print as null.  A finite number prints by its exact
    decimal expansion, which can be longer than the shortest form
    [JSON.stringify] picks; control characters in strings are not escaped. *)
Definition quote (s : string) : string :=
  let dq := String "034"%char EmptyString in
  let esc c :=
    if Ascii.eqb c "034"%char || Ascii.eqb c "092"%char
    then ["092"%char; c] else [c] in
  dq +:+ string_of_list_ascii (concat (map esc (list_ascii_of_string s))) +:+ dq.

Fixpoint drop_zeros (l : list ascii) : list ascii :=
  match l with
  | c :: rest => if Ascii.eqb c "0"%char then drop_zeros rest else l
  | [] => []
  end.

Definition print_fraction (r : Z) (k : nat) : string :=
  let ds := list_ascii_of_string (pretty (r * 5 ^ Z.of_nat k)%Z) in
  let padded := repeat "0"%char (k - length ds) ++ ds in
  string_of_list_ascii (rev (drop_zeros (rev padded))).

Definition print_number (x : float) : string :=
  match Prim2SF x with
  | S754_zero _ => "0"
  | S754_infinity _ | S754_nan => "null"
  | S754_finite sign m e =>
      let sgn := if sign then "-" else EmptyString in
      if (0 <=? e)%Z then sgn +:+ pretty (Z.pos m * 2 ^ e)%Z
      else
        let k := Z.to_nat (- e) in
        let whole := (Z.pos m / 2 ^ (- e))%Z in
        let part := (Z.pos m mod 2 ^ (- e))%Z in
        if (part =? 0)%Z then sgn +:+ pretty whole
        else sgn +:+ pretty whole +:+ "." +:+ print_fraction part k
  end.

Fixpoint sample_stringify (v : JValue) : string :=
  match v with
  | JUndefined | JNull => "null"
  | JBool true => "true"
  | JBool false => "false"
  | JNum x => print_number x
  | JStr s => quote s
  | JArr items =>
      "[" +:+ (fix elements (l : list JValue) : string :=
                match l with
                | [] => EmptyString
                | [x] => sample_stringify x
                | x :: rest => sample_stringify x +:+ "," +:+ elements rest
                end) items +:+ "]"
  | JObj props =>
      "{" +:+ (fix members (first : bool) (l : list (string * JValue)) : string :=
                match l with
                | [] => EmptyString
                | (_, JUndefined) :: rest => members first rest
                | (k, x) :: rest =>
                    (if first then EmptyString else ",")
                    +:+ quote k +:+ ":" +:+ sample_stringify x +:+ members false rest
                end) true props +:+ "}"
  end.

(** A clock that starts at 1700000000000 ms and advances 1 ms per reading. *)
Definition sample_clock (n : nat) : float :=
  Nat.iter n (fun t => (t + 1)%float) 1700000000000%float.

Definition sample_step := step sample_parse sample_stringify sample_clock.
Definition sample_run := run sample_parse sample_stringify sample_clock.
Definition sample_onMessage := onMessage sample_parse sample_stringify sample_clock.
Definition sample_broadcast := broadcastToClients sample_stringify.

(** Two dashboards connected. *)
Definition two_subscribers : State :=
  sample_run [Connected 1; Connected 2] initial.

(** Three connections, the second already closing. *)
Definition three_one_closing : State :=
  sample_run [Connected 1; Connected 2; Connected 3; Transport 2 2 Delivers] initial.

(** Two connections, the [send] of the first one throws. *)
Definition first_send_throws : State :=
  sample_run [Connected 1; Connected 2; Transport 1 OPEN (Raises "EPIPE")] initial.

(** Two connections, the [send] of the first one loses the frame. *)
Definition first_send_drops : State :=
  sample_run [Connected 1; Connected 2; Transport 1 OPEN Drops] initial.

(** Three connections, the [send] of the second one throws. *)
Definition second_send_throws : State :=
  sample_run [Connected 1; Connected 2; Connected 3; Transport 2 OPEN (Raises "EPIPE")]
             initial.

(** The event of [POST /api/temperature/alert]. *)
Definition sample_alert : JValue :=
  JObj [("type", JStr "alert"); ("deviceId", JStr "D1");
        ("message", JStr "High temperature"); ("timestamp", JNum 1700000000010)].

(** ** Further vocabulary for the gateway *)

(** A computation that leaves the registry as it was. *)
Definition same_registry (st st' : State) : Prop :=
  deviceLatestData st' = deviceLatestData st.

(** Nothing is handed to the socket of [c], which is not subscribed and
    stays so. *)
Definition bypasses (c : Conn) (st st' : State) : Prop :=
  c ∉ connectedClients st ->
  connectedClients st' = connectedClients st /\ sockets st' c = sockets st c.

(** The event is about the connection [c] itself: it is accepted, sends a
    frame, or its socket changes. *)
Definition concerns (c : Conn) (ev : Event) : bool :=
  match ev with
  | Upgrade _ c' | Connected c' | Frame c' _ | Transport c' _ _ => Nat.eqb c' c
  | _ => false
  end.

(** [v] is the string [id]. *)
Definition is_id (id : string) (v : JValue) : bool := strictEqStr v id.

(** The registry holds a device id at most once, and what it holds under
    a device id is a reading of that device. *)
Definition one_per_device (m : JSMap DeviceData) : Prop :=
  forall id : string,
    length (List.filter (fun e => is_id id (fst e)) m) <= 1
    /\ forall k d, (k, d) ∈ m -> (k = JStr id <-> deviceId d = JStr id).

(** A temperature frame whose [ambientTemp] cannot be written to the log. *)
Definition frame_D3_unloggable : string :=
  json_text "{'type':'temperature','deviceId':'D3','ambientTemp':{'toString':null},'objectTemp':30}".
Definition frame_D3_message : JValue :=
  JObj [("type", JStr "temperature"); ("deviceId", JStr "D3");
        ("ambientTemp", JObj [("toString", JNull)]); ("objectTemp", JNum 30)].
Definition frame_ping : string := json_text "{'type':'ping'}".
Definition frame_number : string := "42".
Definition frame_null : string := "null".

(** [sample_parse] with the frames above added. *)
Definition sample_parse2 (text : string) : option JValue :=
  if String.eqb text frame_D3_unloggable then Some frame_D3_message
  else if String.eqb text frame_ping then Some (JObj [("type", JStr "ping")])
  else if String.eqb text frame_number then Some (JNum 42)
  else if String.eqb text frame_null then Some JNull
  else sample_parse text.

Definition sample_onMessage2 := onMessage sample_parse2 sample_stringify sample_clock.
Definition sample_run2 := run sample_parse2 sample_stringify sample_clock.

(** The body of an alert request, and the endpoint on the sample
    serializer and clock. *)
Definition sample_alert_request : JValue :=
  JObj [("deviceId", JStr "D1"); ("alertMessage", JStr "High temperature")].
Definition sample_api_alert := api_temperature_alert sample_stringify sample_clock.

(** * The patient store and its REST routes

    A shallow embedding of [server/storage.ts] (the class [MemStorage]),
    of [server/services/alert-service.ts] and of the REST routes of
    [server/routes.ts] that go through them.  The four collections are
    JavaScript [Map]s keyed by the record's id, so they are [JSMap]s with
    string keys; the methods thread the store explicitly.  Every [await]
    in these routes waits for a promise of [MemStorage] that is already
    settled, so a handler runs to its end before another one starts and
    is one state transformer.

    [randomUUID] and [new Date()] are read from the environment: they are
    parameters, indexed by the number of calls made so far.  A date is its
    time value in milliseconds. *)

Module Staff.
Record t : Type := mk {
  id : string; name : string; email : string;
  password : string; role : string; phone : string
}.
End Staff.

Module InsertStaff.
Record t : Type := mk {
  name : string; email : string; password : string; role : string; phone : string
}.
End InsertStaff.

(** A staff record without its [password]: [const { password, ...safe } = staff]. *)
Module SafeStaff.
Record t : Type := mk {
  id : string; name : string; email : string; role : string; phone : string
}.
End SafeStaff.

(** [doctorId] and [nurseId] are a string or [null] ([None]).  A threshold
    is a number; [createPatient] can leave it [undefined] ([None]). *)
Module Patient.
Record t : Type := mk {
  id : string; name : string;
  roomNumber : string; floorNumber : string; blockNumber : string;
  disease : string; guardianName : string; guardianPhone : string;
  doctorId : option string; nurseId : option string;
  thresholdMin : option float; thresholdMax : option float
}.
End Patient.

(** The optional fields are [None] when they are [null] or missing. *)
Module InsertPatient.
Record t : Type := mk {
  name : string;
  roomNumber : string; floorNumber : string; blockNumber : string;
  disease : string; guardianName : string; guardianPhone : string;
  doctorId : option string; nurseId : option string;
  thresholdMin : option float; thresholdMax : option float
}.
End InsertPatient.

Module TemperatureLog.
Record t : Type := mk {
  id : string; patientId : string; tempC : float; tempF : float;
  riskLevel : string; createdAt : Z
}.
End TemperatureLog.

Module InsertTemperatureLog.
Record t : Type := mk {
  patientId : string; tempC : float; tempF : float; riskLevel : string
}.
End InsertTemperatureLog.

Module AlertLog.
Record t : Type := mk {
  id : string; patientId : string; recipientType : string;
  recipientPhone : string; message : string; status : string; createdAt : Z
}.
End AlertLog.

Module InsertAlertLog.
Record t : Type := mk {
  patientId : string; recipientType : string;
  recipientPhone : string; message : string; status : string
}.
End InsertAlertLog.

(** [interface PatientWithDetails extends Patient] *)
Module PatientWithDetails.
Record t : Type := mk {
  patient : Patient.t;
  doctor : option Staff.t;
  nurse : option Staff.t;
  latestTemperature : option TemperatureLog.t
}.
End PatientWithDetails.

Module DashboardStats.
Record t : Type := mk {
  totalPatients : nat; criticalAlerts : nat; warningAlerts : nat; normalRange : nat
}.
End DashboardStats.

(** [interface AlertRecipient] of the alert service. *)
Module AlertRecipient.
Record t : Type := mk { type : string; name : string; phone : string }.
End AlertRecipient.

(** [Map.prototype.has] and [Map.prototype.delete]; the keys of a [Map]
    are distinct, so dropping the entries under [k] drops the one entry. *)
Definition Map_has {V} (k : JValue) (m : JSMap V) : bool :=
  match Map_get k m with Some _ => true | None => false end.

Definition Map_delete {V} (k : JValue) (m : JSMap V) : JSMap V :=
  List.filter (fun e => negb (sameValueZero (fst e) k)) m.

(** [Array.prototype.sort(compare)].  The sort of the language is stable,
    and the comparators of the store order by one number, so the result
    is the one a stable insertion sort gives: [a] stays ahead of [b] when
    [compare a b <= 0]. *)
Fixpoint sort_insert {A} (compare : A -> A -> Z) (x : A) (l : list A) : list A :=
  match l with
  | [] => [x]
  | y :: rest =>
      if (compare x y <=? 0)%Z then x :: l
      else y :: sort_insert compare x rest
  end.

Definition Array_sort {A} (compare : A -> A -> Z) (l : list A) : list A :=
  foldr (sort_insert compare) [] l.

(** ToBoolean of a value that is a string, [null] or [undefined]. *)
Definition given (o : option string) : bool :=
  match o with
  | Some s => negb (String.eqb s EmptyString)
  | None => false
  end.

(** [o === s] for [o] a string, [null] or [undefined]. *)
Definition is_string (o : option string) (s : string) : bool :=
  match o with
  | Some s' => String.eqb s' s
  | None => false
  end.

(** [export const diseaseThresholds: Record<string, { min; max }>] *)
Definition diseaseThresholds_table : list (string * (float * float)) :=
  [("Normal", (36.5, 37.5)%float);
   ("Infection", (36.0, 37.0)%float);
   ("Post Surgery", (36.5, 37.2)%float);
   ("ICU", (36.8, 37.0)%float);
   ("Fever", (36.0, 38.0)%float);
   ("Chronic", (36.5, 37.5)%float);
   ("Other", (36.5, 37.5)%float)].

(** The property names an object literal inherits from [Object.prototype]. *)
Definition Object_prototype_names : list string :=
  ["constructor"; "__defineGetter__"; "__defineSetter__"; "hasOwnProperty";
   "__lookupGetter__"; "__lookupSetter__"; "isPrototypeOf";
   "propertyIsEnumerable"; "toString"; "valueOf"; "__proto__"; "toLocaleString"].

(** What [diseaseThresholds[disease]] evaluates to: an entry of the
    table, a member of [Object.prototype] (a function or an object, so
    truthy, and without [min] and [max]), or [undefined]. *)
Inductive ThresholdLookup : Type :=
| Entry (min max : float)
| Inherited
| Missing.

Definition assoc_string {V} (k : string) (l : list (string * V)) : option V :=
  snd <$> List.find (fun e => String.eqb (fst e) k) l.

Definition diseaseThresholds (disease : string) : ThresholdLookup :=
  match assoc_string disease diseaseThresholds_table with
  | Some (min, max) => Entry min max
  | None =>
      if existsb (String.eqb disease) Object_prototype_names then Inherited
      else Missing
  end.

(** [export function calculateRiskLevel(tempC, thresholdMin, thresholdMax)];
    [a > b] is [b < a] on numbers. *)
Definition calculateRiskLevel (tempC thresholdMin thresholdMax : float) : string :=
  if (tempC <? thresholdMin - 1)%float || (thresholdMax + 1 <? tempC)%float
  then "critical"
  else if (tempC <? thresholdMin)%float || (thresholdMax <? tempC)%float
       then "warning"
       else "normal".

(** ToNumber of a threshold: [undefined] enters the arithmetic and the
    comparisons of [calculateRiskLevel] as NaN. *)
Definition ToNumber (t : option float) : float :=
  match t with Some x => x | None => nan end.

(** [export const temperatureInputSchema = z.object({ patientId:
    z.string().min(1), tempC: z.number().min(30).max(45), tempF:
    z.number().min(86).max(113) })]: what [safeParse] returns as [data],
    [None] when [success] is false.  Keys the schema does not name are
    stripped; a number that is NaN fails both bounds. *)
Module TemperatureInput.
Record t : Type := mk { patientId : string; tempC : float; tempF : float }.
End TemperatureInput.

Definition temperatureInputSchema (input : JValue) : option TemperatureInput.t :=
  match input with
  | JObj props =>
      match lookupProp "patientId" props, lookupProp "tempC" props,
            lookupProp "tempF" props with
      | JStr patientId, JNum tempC, JNum tempF =>
          if negb (String.eqb patientId EmptyString)
             && (30 <=? tempC)%float && (tempC <=? 45)%float
             && (86 <=? tempF)%float && (tempF <=? 113)%float
          then Some (TemperatureInput.mk patientId tempC tempF)
          else None
      | _, _, _ => None
      end
  | _ => None
  end.

(** [export const loginSchema = z.object({ email:
    z.string().email(...), password: z.string().min(1, ...) })]: what
    [safeParse] returns as [data], [None] when [success] is false.  The
    body must be an object whose [email] and [password] are strings;
    [isEmail] is zod's test of the address format, which looks at the
    string alone, and the password must not be empty. *)
Module LoginCredentials.
Record t : Type := mk { email : string; password : string }.
End LoginCredentials.

Definition loginSchema (isEmail : string -> bool) (input : JValue)
  : option LoginCredentials.t :=
  match input with
  | JObj props =>
      match lookupProp "email" props, lookupProp "password" props with
      | JStr email, JStr password =>
          if isEmail email && negb (String.eqb password EmptyString)
          then Some (LoginCredentials.mk email password)
          else None
      | _, _ => None
      end
  | _ => None
  end.

(** What a route answers: [res.status(code).json(payload)], an error
    body [{ error }], or [res.status(204).send()]. *)
Inductive Reply (A : Type) : Type :=
| Json (code : Z) (payload : A)
| Failure (code : Z) (error : string)
| NoContent.
Arguments Json {A} code payload.
Arguments Failure {A} code error.
Arguments NoContent {A}.

(** The body of the 201 answer of [POST /api/temperature]:
    [{ ...log, riskLevel, alertsSent }]. *)
Module TemperatureCreated.
Record t : Type := mk {
  log : TemperatureLog.t; riskLevel : string; alertsSent : bool
}.
End TemperatureCreated.

(** A log with the patient it is listed with, [undefined] when the
    patient is not in the store. *)
Module Listed.
Record t (L : Type) : Type := mk { log : L; patient : option Patient.t }.
Arguments mk {L} log patient.
Arguments log {L} _.
Arguments patient {L} _.
End Listed.

Module Storage.

(** [class MemStorage], with the number of UUIDs and dates drawn so far
    and the lines written to the console. *)
Record MemStorage : Type := mkMemStorage {
  staff : JSMap Staff.t;
  patients : JSMap Patient.t;
  temperatureLogs : JSMap TemperatureLog.t;
  alertLogs : JSMap AlertLog.t;
  uuids : nat;
  dates : nat;
  console : list string
}.

Definition with_staff (m : JSMap Staff.t) (st : MemStorage) : MemStorage :=
  mkMemStorage m (patients st) (temperatureLogs st) (alertLogs st)
               (uuids st) (dates st) (console st).
Definition with_patients (m : JSMap Patient.t) (st : MemStorage) : MemStorage :=
  mkMemStorage (staff st) m (temperatureLogs st) (alertLogs st)
               (uuids st) (dates st) (console st).
Definition with_temperatureLogs (m : JSMap TemperatureLog.t) (st : MemStorage) : MemStorage :=
  mkMemStorage (staff st) (patients st) m (alertLogs st)
               (uuids st) (dates st) (console st).
Definition with_alertLogs (m : JSMap AlertLog.t) (st : MemStorage) : MemStorage :=
  mkMemStorage (staff st) (patients st) (temperatureLogs st) m
               (uuids st) (dates st) (console st).
Definition with_uuids (n : nat) (st : MemStorage) : MemStorage :=
  mkMemStorage (staff st) (patients st) (temperatureLogs st) (alertLogs st)
               n (dates st) (console st).
Definition with_dates (n : nat) (st : MemStorage) : MemStorage :=
  mkMemStorage (staff st) (patients st) (temperatureLogs st) (alertLogs st)
               (uuids st) n (console st).
Definition with_console (l : list string) (st : MemStorage) : MemStorage :=
  mkMemStorage (staff st) (patients st) (temperatureLogs st) (alertLogs st)
               (uuids st) (dates st) l.

(** The store before [seedData]. *)
Definition empty : MemStorage := mkMemStorage [] [] [] [] 0 0 [].

Definition console_log (line : string) (st : MemStorage) : MemStorage :=
  with_console (console st ++ [line]) st.

(** [(a, b) => new Date(b.createdAt).getTime() - new Date(a.createdAt).getTime()] *)
Definition newest_first {A} (createdAt : A -> Z) (a b : A) : Z :=
  (createdAt b - createdAt a)%Z.

Definition omitPassword (s : Staff.t) : SafeStaff.t :=
  SafeStaff.mk (Staff.id s) (Staff.name s) (Staff.email s) (Staff.role s) (Staff.phone s).

Section Methods.

Variable randomUUID : nat -> string.
Variable Date_new : nat -> Z.
(** [x.toFixed(1)] *)
Variable toFixed1 : float -> string.

Definition draw_uuid (st : MemStorage) : string * MemStorage :=
  (randomUUID (uuids st), with_uuids (S (uuids st)) st).

Definition new_Date (st : MemStorage) : Z * MemStorage :=
  (Date_new (dates st), with_dates (S (dates st)) st).

(** ** Staff *)

Definition getStaff (id : string) (st : MemStorage) : option Staff.t :=
  Map_get (JStr id) (staff st).

Definition getStaffByEmail (email : string) (st : MemStorage) : option Staff.t :=
  List.find (fun s => String.eqb (Staff.email s) email) (Map_values (staff st)).

Definition getAllStaff (st : MemStorage) : list Staff.t :=
  Map_values (staff st).

Definition getStaffByRole (role : string) (st : MemStorage) : list Staff.t :=
  List.filter (fun s => String.eqb (Staff.role s) role) (Map_values (staff st)).

Definition createStaff (insertStaff : InsertStaff.t) (st : MemStorage)
  : Staff.t * MemStorage :=
  let '(id, st) := draw_uuid st in
  let staff' :=
    Staff.mk id (InsertStaff.name insertStaff) (InsertStaff.email insertStaff)
             (InsertStaff.password insertStaff) (InsertStaff.role insertStaff)
             (InsertStaff.phone insertStaff) in
  (staff', with_staff (Map_set (JStr id) staff' (staff st)) st).

Definition deleteStaff (id : string) (st : MemStorage) : bool * MemStorage :=
  (Map_has (JStr id) (staff st), with_staff (Map_delete (JStr id) (staff st)) st).

(** ** Temperature logs *)

Definition getTemperatureLogsByPatient (patientId : string) (st : MemStorage)
  : list TemperatureLog.t :=
  Array_sort (newest_first TemperatureLog.createdAt)
    (List.filter (fun log => String.eqb (TemperatureLog.patientId log) patientId)
                 (Map_values (temperatureLogs st))).

Definition getLatestTemperature (patientId : string) (st : MemStorage)
  : option TemperatureLog.t :=
  head (getTemperatureLogsByPatient patientId st).

Definition getTemperatureLogs (st : MemStorage) : list (Listed.t TemperatureLog.t) :=
  map (fun log => Listed.mk log (Map_get (JStr (TemperatureLog.patientId log)) (patients st)))
      (Array_sort (newest_first TemperatureLog.createdAt) (Map_values (temperatureLogs st))).

Definition createTemperatureLog (insertLog : InsertTemperatureLog.t) (st : MemStorage)
  : TemperatureLog.t * MemStorage :=
  let '(id, st) := draw_uuid st in
  let '(createdAt, st) := new_Date st in
  let log :=
    TemperatureLog.mk id (InsertTemperatureLog.patientId insertLog)
                      (InsertTemperatureLog.tempC insertLog)
                      (InsertTemperatureLog.tempF insertLog)
                      (InsertTemperatureLog.riskLevel insertLog) createdAt in
  (log, with_temperatureLogs (Map_set (JStr id) log (temperatureLogs st)) st).

(** ** Alert logs *)

Definition getAlertLogs (st : MemStorage) : list (Listed.t AlertLog.t) :=
  map (fun log => Listed.mk log (Map_get (JStr (AlertLog.patientId log)) (patients st)))
      (Array_sort (newest_first AlertLog.createdAt) (Map_values (alertLogs st))).

Definition createAlertLog (insertLog : InsertAlertLog.t) (st : MemStorage)
  : AlertLog.t * MemStorage :=
  let '(id, st) := draw_uuid st in
  let '(createdAt, st) := new_Date st in
  let log :=
    AlertLog.mk id (InsertAlertLog.patientId insertLog)
                (InsertAlertLog.recipientType insertLog)
                (InsertAlertLog.recipientPhone insertLog)
                (InsertAlertLog.message insertLog)
                (InsertAlertLog.status insertLog) createdAt in
  (log, with_alertLogs (Map_set (JStr id) log (alertLogs st)) st).

(** ** Patients *)

Definition getPatient (id : string) (st : MemStorage) : option Patient.t :=
  Map_get (JStr id) (patients st).

(** [{ ...patient, doctor, nurse, latestTemperature }] *)
Definition withDetails (st : MemStorage) (patient : Patient.t) : PatientWithDetails.t :=
  PatientWithDetails.mk patient
    (if given (Patient.doctorId patient)
     then getStaff (default EmptyString (Patient.doctorId patient)) st else None)
    (if given (Patient.nurseId patient)
     then getStaff (default EmptyString (Patient.nurseId patient)) st else None)
    (getLatestTemperature (Patient.id patient) st).

Definition getPatientWithDetails (id : string) (st : MemStorage)
  : option PatientWithDetails.t :=
  withDetails st <$> Map_get (JStr id) (patients st).


Definition getAllPatientsWithDetails (st : MemStorage) : list PatientWithDetails.t :=
  map (withDetails st) (Map_values (patients st)).

Definition assignedTo (staffId : string) (p : Patient.t) : bool :=
  is_string (Patient.doctorId p) staffId || is_string (Patient.nurseId p) staffId.

Definition getPatientsByStaff (staffId : string) (st : MemStorage)
  : list PatientWithDetails.t :=
  map (withDetails st) (List.filter (assignedTo staffId) (Map_values (patients st))).

(** [p.latestTemperature?.riskLevel === level] *)
Definition latestIs (level : string) (p : PatientWithDetails.t) : bool :=
  match PatientWithDetails.latestTemperature p with
  | Some log => String.eqb (TemperatureLog.riskLevel log) level
  | None => false
  end.

Definition getCriticalPatients (st : MemStorage) : list PatientWithDetails.t :=
  List.filter (latestIs "critical") (getAllPatientsWithDetails st).

Definition createPatient (insertPatient : InsertPatient.t) (st : MemStorage)
  : Patient.t * MemStorage :=
  let '(id, st) := draw_uuid st in
  (* diseaseThresholds[insertPatient.disease] || diseaseThresholds["Normal"] *)
  let thresholds :=
    match diseaseThresholds (InsertPatient.disease insertPatient) with
    | Missing => diseaseThresholds "Normal"
    | found => found
    end in
  let min := match thresholds with Entry min _ => Some min | _ => None end in
  let max := match thresholds with Entry _ max => Some max | _ => None end in
  let patient :=
    Patient.mk id (InsertPatient.name insertPatient)
      (InsertPatient.roomNumber insertPatient) (InsertPatient.floorNumber insertPatient)
      (InsertPatient.blockNumber insertPatient) (InsertPatient.disease insertPatient)
      (InsertPatient.guardianName insertPatient) (InsertPatient.guardianPhone insertPatient)
      (InsertPatient.doctorId insertPatient) (InsertPatient.nurseId insertPatient)
      (match InsertPatient.thresholdMin insertPatient with Some x => Some x | None => min end)
      (match InsertPatient.thresholdMax insertPatient with Some x => Some x | None => max end) in
  (patient, with_patients (Map_set (JStr id) patient (patients st)) st).

Definition deletePatient (id : string) (st : MemStorage) : bool * MemStorage :=
  (Map_has (JStr id) (patients st), with_patients (Map_delete (JStr id) (patients st)) st).

(** ** Dashboard *)

Definition getDashboardStats (staffId role : option string) (st : MemStorage)
  : DashboardStats.t :=
  let patients :=
    if is_string role "admin" || negb (given staffId)
    then getAllPatientsWithDetails st
    else getPatientsByStaff (default EmptyString staffId) st in
  DashboardStats.mk
    (length patients)
    (length (List.filter (latestIs "critical") patients))
    (length (List.filter (latestIs "warning") patients))
    (length (List.filter
               (fun p => latestIs "normal" p
                         || match PatientWithDetails.latestTemperature p with
                            | Some _ => false | None => true end)
               patients)).

(** ** [seedData] *)

Definition seedData (st : MemStorage) : MemStorage :=
  let '(adminId, st) := draw_uuid st in
  let '(doctorId, st) := draw_uuid st in
  let '(nurseId, st) := draw_uuid st in
  let st := with_staff (Map_set (JStr adminId)
              (Staff.mk adminId "Dr. Admin" "admin@hospital.com" "admin123"
                        "admin" "+919876543210") (staff st)) st in
  let st := with_staff (Map_set (JStr doctorId)
              (Staff.mk doctorId "Dr. Rajesh Kumar" "doctor@hospital.com" "doctor123"
                        "doctor" "+919876543211") (staff st)) st in
  let st := with_staff (Map_set (JStr nurseId)
              (Staff.mk nurseId "Nurse Priya Sharma" "nurse@hospital.com" "nurse123"
                        "nurse" "+919876543212") (staff st)) st in
  let '(patientId, st) := draw_uuid st in
  let st := with_patients (Map_set (JStr patientId)
              (Patient.mk patientId "Patient Name" "101" "1" "A" "Normal"
                          "Guardian Name" "+919876543213"
                          (Some doctorId) (Some nurseId)
                          (Some 36.5%float) (Some 37.5%float)) (patients st)) st in
  let '(logId, st) := draw_uuid st in
  let '(createdAt, st) := new_Date st in
  with_temperatureLogs (Map_set (JStr logId)
    (TemperatureLog.mk logId patientId 36.8%float 98.24%float "normal" createdAt)
    (temperatureLogs st)) st.

(** [export const storage = new MemStorage()] *)
Definition storage : MemStorage := seedData empty.

(** ** The alert service *)

Definition buildAlertMessage (patient : Patient.t) (tempC tempF : float)
                             (riskLevel : string) : string :=
  let riskText := if String.eqb riskLevel "critical" then "CRITICAL" else "WARNING" in
  "[" +:+ riskText +:+ " ALERT] Hospital Temperature Monitor" +:+ "
Patient: " +:+ Patient.name patient +:+ "
Room: " +:+ Patient.roomNumber patient +:+ ", Floor: " +:+ Patient.floorNumber patient
  +:+ ", Block: " +:+ Patient.blockNumber patient +:+ "
Condition: " +:+ Patient.disease patient +:+ "
Temperature: " +:+ toFixed1 tempC +:+ "°C / " +:+ toFixed1 tempF +:+ "°F
Status: " +:+ riskText +:+ "
Please respond immediately.".

(** Nothing under the [try] of [sendSMS] can throw, so [status] is
    ["sent"] when the log is written. *)
Definition sendSMS (patient : Patient.t) (recipient : AlertRecipient.t)
                   (message riskLevel : string) (st : MemStorage) : MemStorage :=
  let st := console_log ("[SMS] Sending " +:+ riskLevel +:+ " alert to "
                         +:+ AlertRecipient.type recipient
                         +:+ " (" +:+ AlertRecipient.name recipient +:+ "): "
                         +:+ AlertRecipient.phone recipient) st in
  let st := console_log ("[SMS] Message: " +:+ message) st in
  let status := "sent" in
  snd (createAlertLog
         (InsertAlertLog.mk (Patient.id patient) (AlertRecipient.type recipient)
                            (AlertRecipient.phone recipient) message status) st).

(** The recipients of an alert, in the order they are pushed. *)
Definition recipientsOf (patient : Patient.t) (st : MemStorage) : list AlertRecipient.t :=
  (if given (Patient.doctorId patient) then
     match getStaff (default EmptyString (Patient.doctorId patient)) st with
     | Some doctor => [AlertRecipient.mk "doctor" (Staff.name doctor) (Staff.phone doctor)]
     | None => []
     end
   else [])
  ++ (if given (Patient.nurseId patient) then
        match getStaff (default EmptyString (Patient.nurseId patient)) st with
        | Some nurse => [AlertRecipient.mk "nurse" (Staff.name nurse) (Staff.phone nurse)]
        | None => []
        end
      else [])
  ++ [AlertRecipient.mk "guardian" (Patient.guardianName patient)
                        (Patient.guardianPhone patient)].

Definition sendTemperatureAlert (patient : Patient.t) (tempC tempF : float)
                                (riskLevel : string) (st : MemStorage) : MemStorage :=
  if String.eqb riskLevel "normal" then st
  else
    let recipients := recipientsOf patient st in
    let message := buildAlertMessage patient tempC tempF riskLevel in
    fold_left (fun st recipient => sendSMS patient recipient message riskLevel st)
              recipients st.

(** ** The routes *)

(** [app.post("/api/auth/login")] on the request body: the body goes
    through [loginSchema] first, then the account is looked up by the
    parsed email and its password compared with the parsed one. *)
Definition api_auth_login (isEmail : string -> bool) (req_body : JValue) (st : MemStorage)
  : Reply SafeStaff.t :=
  match loginSchema isEmail req_body with
  | None => Failure 400 "Invalid credentials format"
  | Some parsed =>
      match getStaffByEmail (LoginCredentials.email parsed) st with
      | Some user =>
          if String.eqb (Staff.password user) (LoginCredentials.password parsed)
          then Json 200 (omitPassword user)
          else Failure 401 "Invalid email or password"
      | None => Failure 401 "Invalid email or password"
      end
  end.

(** [app.get("/api/dashboard/stats")] *)
Definition api_dashboard_stats (staffId role : option string) (st : MemStorage)
  : Reply DashboardStats.t :=
  Json 200 (getDashboardStats staffId role st).

(** [app.post("/api/staff")], by the result of [insertStaffSchema.safeParse]. *)
Definition api_staff_post (parsed : option InsertStaff.t) (st : MemStorage)
  : Reply SafeStaff.t * MemStorage :=
  match parsed with
  | None => (Failure 400 "Invalid staff data", st)
  | Some data =>
      match getStaffByEmail (InsertStaff.email data) st with
      | Some _ => (Failure 400 "Email already exists", st)
      | None =>
          let '(staff', st) := createStaff data st in
          (Json 201 (omitPassword staff'), st)
      end
  end.

(** [app.delete("/api/staff/:id")] *)
Definition api_staff_delete (id : string) (st : MemStorage)
  : Reply unit * MemStorage :=
  let '(deleted, st) := deleteStaff id st in
  if deleted then (NoContent, st) else (Failure 404 "Staff not found", st).

(** [app.get("/api/patients")] *)
Definition api_patients (staffId : option string) (st : MemStorage)
  : Reply (list PatientWithDetails.t) :=
  if given staffId
  then Json 200 (getPatientsByStaff (default EmptyString staffId) st)
  else Json 200 (getAllPatientsWithDetails st).

(** [app.get("/api/patients/critical")] *)
Definition api_patients_critical (staffId : option string) (st : MemStorage)
  : Reply (list PatientWithDetails.t) :=
  let patients := getCriticalPatients st in
  if given staffId
  then Json 200 (List.filter
                   (fun p => assignedTo (default EmptyString staffId)
                                        (PatientWithDetails.patient p))
                   patients)
  else Json 200 patients.

(** [app.get("/api/patients/:id")] *)
Definition api_patient_get (id : string) (st : MemStorage) : Reply PatientWithDetails.t :=
  match getPatientWithDetails id st with
  | Some patient => Json 200 patient
  | None => Failure 404 "Patient not found"
  end.

(** [app.post("/api/patients")], by the result of [insertPatientSchema.safeParse]. *)
Definition api_patients_post (parsed : option InsertPatient.t) (st : MemStorage)
  : Reply Patient.t * MemStorage :=
  match parsed with
  | None => (Failure 400 "Invalid patient data", st)
  | Some data =>
      let '(patient, st) := createPatient data st in
      (Json 201 patient, st)
  end.

(** [app.delete("/api/patients/:id")] *)
Definition api_patient_delete (id : string) (st : MemStorage)
  : Reply unit * MemStorage :=
  let '(deleted, st) := deletePatient id st in
  if deleted then (NoContent, st) else (Failure 404 "Patient not found", st).

(** [app.post("/api/temperature")], by [req.body]. *)
Definition api_temperature_post (req_body : JValue) (st : MemStorage)
  : Reply TemperatureCreated.t * MemStorage :=
  match temperatureInputSchema req_body with
  | None => (Failure 400 "Invalid temperature data", st)
  | Some data =>
      let patientId := TemperatureInput.patientId data in
      let tempC := TemperatureInput.tempC data in
      let tempF := TemperatureInput.tempF data in
      match getPatient patientId st with
      | None => (Failure 404 "Patient not found", st)
      | Some patient =>
          let riskLevel :=
            calculateRiskLevel tempC (ToNumber (Patient.thresholdMin patient))
                               (ToNumber (Patient.thresholdMax patient)) in
          let '(log, st) :=
            createTemperatureLog (InsertTemperatureLog.mk patientId tempC tempF riskLevel) st in
          let alert := negb (String.eqb riskLevel "normal") in
          let st := if alert then sendTemperatureAlert patient tempC tempF riskLevel st
                    else st in
          (Json 201 (TemperatureCreated.mk log riskLevel alert), st)
      end
  end.

(** [app.get("/api/temperature-logs")]: the logs of one patient, or all
    logs with their patients, narrowed to the patients of [staffId]. *)
Definition patientIds_has (patients : list PatientWithDetails.t) (id : string) : bool :=
  existsb (fun p => String.eqb (Patient.id (PatientWithDetails.patient p)) id) patients.

Definition api_temperature_logs (patientId staffId : option string) (st : MemStorage)
  : Reply (list TemperatureLog.t + list (Listed.t TemperatureLog.t)) :=
  if given patientId
  then Json 200 (inl (getTemperatureLogsByPatient (default EmptyString patientId) st))
  else
    let logs := getTemperatureLogs st in
    if given staffId
    then
      let patients := getPatientsByStaff (default EmptyString staffId) st in
      Json 200 (inr (List.filter
                       (fun l => patientIds_has patients
                                   (TemperatureLog.patientId (Listed.log l)))
                       logs))
    else Json 200 (inr logs).

(** [app.get("/api/alerts")] *)
Definition api_alerts (staffId : option string) (st : MemStorage)
  : Reply (list (Listed.t AlertLog.t)) :=
  let alerts := getAlertLogs st in
  if given staffId
  then
    let patients := getPatientsByStaff (default EmptyString staffId) st in
    Json 200 (List.filter
                (fun l => patientIds_has patients (AlertLog.patientId (Listed.log l)))
                alerts)
  else Json 200 alerts.

End Methods.
End Storage.

(** The requests that change the store, and the server handling them
    one after the other.  The two PATCH routes are left out: they copy
    the request body into a record without a check. *)
Module Rest.

Inductive Request : Type :=
| PostTemperature (req_body : JValue)
| PostStaff (parsed : option InsertStaff.t)
| DeleteStaff (id : string)
| PostPatient (parsed : option InsertPatient.t)
| DeletePatient (id : string).

Section Server.

Variable randomUUID : nat -> string.
Variable Date_new : nat -> Z.
Variable toFixed1 : float -> string.

Definition handle (request : Request) (st : Storage.MemStorage) : Storage.MemStorage :=
  match request with
  | PostTemperature req_body =>
      snd (Storage.api_temperature_post randomUUID Date_new toFixed1 req_body st)
  | PostStaff parsed => snd (Storage.api_staff_post randomUUID parsed st)
  | DeleteStaff id => snd (Storage.api_staff_delete id st)
  | PostPatient parsed => snd (Storage.api_patients_post randomUUID parsed st)
  | DeletePatient id => snd (Storage.api_patient_delete id st)
  end.

Definition serve (requests : list Request) (st : Storage.MemStorage) : Storage.MemStorage :=
  fold_left (fun st request => handle request st) requests st.

End Server.
End Rest.

(** * SMS providers and the alert service that uses them

    [server/services/sms-provider.ts] and the version of
    [server/services/alert-service.ts] that sends its alerts through
    [getSmsProvider()].  The Twilio provider calls [fetch]; what the
    network answers is a parameter, indexed by the number of requests
    made so far, and the requests are recorded.  An alert is followed
    from its start to its end with no other request handled in between. *)

Module Sms.

(** [{ success: boolean; error?: string }] *)
Record SmsResult : Type := mkSmsResult { success : bool; error : option string }.

Inductive SmsProvider : Type :=
| ConsoleSmsProvider
| TwilioSmsProvider (accountSid authToken fromNumber : string).

(** The three variables of [process.env] the factory reads. *)
Record Env : Type := mkEnv {
  TWILIO_ACCOUNT_SID : option string;
  TWILIO_AUTH_TOKEN : option string;
  TWILIO_PHONE_NUMBER : option string
}.

(** What [fetch] was called with: the URL, the two halves of the basic
    authorization, and the form fields. *)
Record Request : Type := mkRequest {
  url : string;
  user : string; pass : string;
  To : string; From : string; Body : string
}.

(** How a call of [fetch] ends: with a response, whose [text()] is read
    when [ok] is false, with a response whose [text()] fails, or with a
    rejection; a failure carries the [message] of its error. *)
Inductive FetchOutcome : Type :=
| Responds (ok : bool) (text : string)
| Unreadable (message : string)
| Rejects (message : string).

Record World : Type := mkWorld {
  store : Storage.MemStorage;
  requests : list Request
}.

Definition on_store (f : Storage.MemStorage -> Storage.MemStorage) (w : World) : World :=
  mkWorld (f (store w)) (requests w).

Definition console_log (line : string) : World -> World :=
  on_store (Storage.console_log line).

(** [console.error(line, detail)] *)
Definition console_error (line detail : string) : World -> World :=
  on_store (Storage.console_log (line +:+ " " +:+ detail)).

(** [export function getSmsProvider()], with the line it logs. *)
Definition getSmsProvider (env : Env) : SmsProvider * string :=
  if given (TWILIO_ACCOUNT_SID env) && given (TWILIO_AUTH_TOKEN env)
     && given (TWILIO_PHONE_NUMBER env)
  then (TwilioSmsProvider (default EmptyString (TWILIO_ACCOUNT_SID env))
                          (default EmptyString (TWILIO_AUTH_TOKEN env))
                          (default EmptyString (TWILIO_PHONE_NUMBER env)),
        "[SMS] Using Twilio SMS Provider")
  else (ConsoleSmsProvider, "[SMS] Using Console SMS Provider (no Twilio credentials)").

Section Service.

Variable randomUUID : nat -> string.
Variable Date_new : nat -> Z.
Variable toFixed1 : float -> string.
(** [date.toLocaleString('en-IN', { timeZone: 'Asia/Kolkata' })] *)
Variable toLocaleString : Z -> string.
Variable fetch : nat -> FetchOutcome.

(** [sendSms(to, message)] of the two providers. *)
Definition sendSms (provider : SmsProvider) (to message : string) (w : World)
  : SmsResult * World :=
  match provider with
  | ConsoleSmsProvider =>
      let w := console_log "
========== SMS NOTIFICATION ==========" w in
      let w := console_log ("TO: " +:+ to) w in
      let w := console_log ("MESSAGE:
" +:+ message) w in
      let w := console_log "=======================================
" w in
      (mkSmsResult true None, w)
  | TwilioSmsProvider accountSid authToken fromNumber =>
      let url := "https://api.twilio.com/2010-04-01/Accounts/" +:+ accountSid
                 +:+ "/Messages.json" in
      let outcome := fetch (length (requests w)) in
      let w := mkWorld (store w)
                 (requests w ++ [mkRequest url accountSid authToken to fromNumber message]) in
      match outcome with
      | Responds true _ =>
          (mkSmsResult true None,
           console_log ("[Twilio] SMS sent successfully to " +:+ to) w)
      | Responds false text =>
          (mkSmsResult false (Some text),
           console_error ("[Twilio] Failed to send SMS to " +:+ to +:+ ":") text w)
      | Unreadable message | Rejects message =>
          (mkSmsResult false (Some message),
           console_error ("[Twilio] Error sending SMS to " +:+ to +:+ ":") message w)
      end
  end.

(** [name || 'Not assigned'] for [staff?.name]. *)
Definition nameOr (staff : option Staff.t) : string :=
  match staff with
  | Some s => if String.eqb (Staff.name s) EmptyString then "Not assigned" else Staff.name s
  | None => "Not assigned"
  end.

(** [export function formatAlertMessage(...)]; [timestamp] is the
    formatted [new Date()]. *)
Definition formatAlertMessage (patient : Patient.t) (doctor nurse : option Staff.t)
    (tempC tempF : float) (riskLevel timestamp : string) : string :=
  let riskText := if String.eqb riskLevel "critical" then "CRITICAL" else "WARNING" in
  "[" +:+ riskText +:+ " ALERT] Hospital Temperature Monitor

Patient: " +:+ Patient.name patient +:+ "
Room: " +:+ Patient.roomNumber patient +:+ "
Floor: " +:+ Patient.floorNumber patient +:+ "
Block: " +:+ Patient.blockNumber patient +:+ "
Condition: " +:+ Patient.disease patient +:+ "

Temperature: " +:+ toFixed1 tempC +:+ "°C / " +:+ toFixed1 tempF +:+ "°F
Status: " +:+ riskText +:+ "
Time: " +:+ timestamp +:+ "

Doctor: " +:+ nameOr doctor +:+ "
Nurse: " +:+ nameOr nurse +:+ "

Please respond immediately.".

(** [sendSMS] of the alert service: the provider never throws, so the
    status is the one its result gives. *)
Definition sendSMS (smsProvider : SmsProvider) (patient : Patient.t)
    (recipient : AlertRecipient.t) (message riskLevel : string) (w : World) : World :=
  let w := console_log ("[SMS] Sending " +:+ riskLevel +:+ " alert to "
                        +:+ AlertRecipient.type recipient
                        +:+ " (" +:+ AlertRecipient.name recipient +:+ "): "
                        +:+ AlertRecipient.phone recipient) w in
  let '(result, w) := sendSms smsProvider (AlertRecipient.phone recipient) message w in
  let status := if success result then "sent" else "failed" in
  let w := if success result then w
           else console_error ("[SMS] Failed to send to "
                               +:+ AlertRecipient.phone recipient +:+ ":")
                              (default "undefined" (error result)) w in
  on_store (fun st =>
              snd (Storage.createAlertLog randomUUID Date_new
                     (InsertAlertLog.mk (Patient.id patient) (AlertRecipient.type recipient)
                                        (AlertRecipient.phone recipient) message status) st))
           w.

(** [doctor] and [nurse] as [sendTemperatureAlert] holds them when it
    formats the message. *)
Definition staffOf (id : option string) (st : Storage.MemStorage) : option Staff.t :=
  if given id then Storage.getStaff (default EmptyString id) st else None.

Definition sendTemperatureAlert (smsProvider : SmsProvider) (patient : Patient.t)
    (tempC tempF : float) (riskLevel : string) (w : World) : World :=
  if String.eqb riskLevel "normal" then w
  else
    let recipients := Storage.recipientsOf patient (store w) in
    let doctor := staffOf (Patient.doctorId patient) (store w) in
    let nurse := staffOf (Patient.nurseId patient) (store w) in
    let '(now, st) := Storage.new_Date Date_new (store w) in
    let w := mkWorld st (requests w) in
    let message := formatAlertMessage patient doctor nurse tempC tempF riskLevel
                                      (toLocaleString now) in
    fold_left (fun w recipient => sendSMS smsProvider patient recipient message riskLevel w)
              recipients w.

End Service.
End Sms.

(** * The live dashboard

    The WebSocket client of [TemperatureDashboard]
    ([client/src/components/temperature-dashboard.tsx]): the component
    state and the four handlers its effect installs on the socket.  The
    state updates of one handler are applied together, so a handler is a
    function on the state. *)

Module Dashboard.

Record View : Type := mkView {
  temperatureData : JValue;      (* useState<TemperatureData | null>(null) *)
  isConnected : bool;            (* useState(false) *)
  lastUpdate : option JValue;    (* [Some t] for [new Date(t)], [None] for null *)
  alerts : list JValue;          (* useState<AlertMessage[]>([]) *)
  errors : list Exn              (* what the handlers passed to console.error *)
}.

Definition mounted : View := mkView JNull false None [] [].

(** [array.slice(-n)] *)
Definition slice_last {A} (n : nat) (l : list A) : list A :=
  drop (length l - n) l.

Definition fail (e : Exn) (v : View) : View :=
  mkView (temperatureData v) (isConnected v) (lastUpdate v) (alerts v) (errors v ++ [e]).

Definition onopen (v : View) : View :=
  mkView (temperatureData v) true (lastUpdate v) (alerts v) (errors v).

Definition onclose (v : View) : View :=
  mkView (temperatureData v) false (lastUpdate v) (alerts v) (errors v).

Definition onerror (e : Exn) (v : View) : View :=
  mkView (temperatureData v) false (lastUpdate v) (alerts v) (errors v ++ [e]).

Section Handlers.

Variable JSON_parse : string -> option JValue.

(** [websocket.onmessage = (event) => { try { ... } catch (error) { ... } }],
    by [event.data]. *)
Definition onmessage (data : string) (v : View) : View :=
  match JSON_parse data with
  | None => fail SyntaxError v
  | Some message =>
      match getProp message "type" with
      | Throw e => fail e v
      | Normal type =>
          if strictEqStr type "temperature-update" then
            match getProp message "data", getProp message "timestamp" with
            | Normal m_data, Normal m_timestamp =>
                let updated :=
                  alerts v ++ [JObj [("type", JStr "temperature-update");
                                     ("timestamp", m_timestamp);
                                     ("data", m_data)]] in
                mkView m_data (isConnected v) (Some m_timestamp)
                       (slice_last 5 updated) (errors v)
            | Throw e, _ | _, Throw e => fail e v
            end
          else if strictEqStr type "alert" then
            match getProp message "deviceId", getProp message "message",
                  getProp message "timestamp" with
            | Normal m_deviceId, Normal m_message, Normal m_timestamp =>
                mkView (temperatureData v) (isConnected v) (lastUpdate v)
                       (alerts v ++ [JObj [("type", JStr "alert");
                                           ("deviceId", m_deviceId);
                                           ("message", m_message);
                                           ("timestamp", m_timestamp)]])
                       (errors v)
            | Throw e, _, _ | _, Throw e, _ | _, _, Throw e => fail e v
            end
          else v
      end
  end.

(** The frames of a socket's inbox, handled oldest first. *)
Definition receive (frames : list string) (v : View) : View :=
  fold_left (fun v data => onmessage data v) frames v.

End Handlers.
End Dashboard.

(** The frame is one the dashboard files under [type]. *)
Definition frame_type (JSON_parse : string -> option JValue) (type data : string) : bool :=
  match JSON_parse data with
  | Some message => has_type type message
  | None => false
  end.

(** ** Vocabulary for the store *)

(** Newest first by the date [key]. *)
Definition descending {A} (key : A -> Z) : list A -> Prop :=
  StronglySorted (fun a b => (key b <= key a)%Z).

(** The first of the elements with the greatest date. *)
Fixpoint newest {A} (key : A -> Z) (l : list A) : option A :=
  match l with
  | [] => None
  | x :: rest =>
      match newest key rest with
      | Some y => if (key x <? key y)%Z then Some y else Some x
      | None => Some x
      end
  end.

(** The next [k] UUIDs, from call [from] on, differ from one another and
    from every id in the collection [m]. *)
Definition fresh_ids {V} (randomUUID : nat -> string) (from k : nat) (m : JSMap V) : Prop :=
  NoDup (map randomUUID (seq from k))
  /\ forall i, from <= i < from + k -> Map_get (JStr (randomUUID i)) m = None.

(** The alert log written for the [i]-th recipient of an alert whose
    first log takes UUID number [uuid0] and date number [date0]. *)
Definition alertLogFor (randomUUID : nat -> string) (Date_new : nat -> Z)
                       (uuid0 date0 : nat) (patient : Patient.t) (message : string)
                       (i : nat) (recipient : AlertRecipient.t) : AlertLog.t :=
  AlertLog.mk (randomUUID (uuid0 + i)) (Patient.id patient)
              (AlertRecipient.type recipient) (AlertRecipient.phone recipient)
              message "sent" (Date_new (date0 + i)).

(** The logs of one patient, in the order they were stored. *)
Definition logsOf (patientId : string) (st : Storage.MemStorage) : list TemperatureLog.t :=
  List.filter (fun log => String.eqb (TemperatureLog.patientId log) patientId)
              (Map_values (Storage.temperatureLogs st)).

(** The elements of [l] dated [t], in the order of [l]. *)
Definition dated {A} (key : A -> Z) (t : Z) (l : list A) : list A :=
  List.filter (fun a => (key a =? t)%Z) l.

(** ** A concrete store *)

Definition sample_uuid (n : nat) : string := "uuid-" +:+ pretty n.

(** A clock that starts at 1700000000000 ms and advances 1 ms per date,
    and one that stands still. *)
Definition sample_date (n : nat) : Z := (1700000000000 + Z.of_nat n)%Z.
Definition frozen_date (n : nat) : Z := 1700000000000%Z.

(** [x.toFixed(1)] for a number below 10^21: the decimal with one digit
    after the point nearest to the exact value of [x], the larger one
    when two are equally near. *)
Definition sample_toFixed1 (x : float) : string :=
  match Prim2SF x with
  | S754_zero _ => "0.0"
  | S754_infinity sign => if sign then "-Infinity" else "Infinity"
  | S754_nan => "NaN"
  | S754_finite sign m e =>
      let n := if (0 <=? e)%Z then (Z.pos m * 2 ^ e * 10)%Z
               else ((20 * Z.pos m + 2 ^ (- e)) / (2 * 2 ^ (- e)))%Z in
      (if sign then "-" else EmptyString)
      +:+ pretty (n / 10)%Z +:+ "." +:+ pretty (n mod 10)%Z
  end.

(** The store as the server starts with it. *)
Definition seeded : Storage.MemStorage := Storage.storage sample_uuid sample_date.
Definition seeded_frozen : Storage.MemStorage := Storage.storage sample_uuid frozen_date.

Definition seeded_patient : Patient.t :=
  Patient.mk "uuid-3" "Patient Name" "101" "1" "A" "Normal"
             "Guardian Name" "+919876543213"
             (Some "uuid-1") (Some "uuid-2") (Some 36.5%float) (Some 37.5%float).

(** The body of a [POST /api/temperature] request. *)
Definition reading (patientId : string) (tempC tempF : float) : JValue :=
  JObj [("patientId", JStr patientId); ("tempC", JNum tempC); ("tempF", JNum tempF)].

Definition sample_post := Storage.api_temperature_post sample_uuid sample_date sample_toFixed1.

Definition new_nurse : InsertStaff.t :=
  InsertStaff.mk "Nurse Anita Rao" "anita@hospital.com" "anita123" "nurse" "+919876543214".

(** A staff member registered with a name where the address should be. *)
Definition nurse_without_address : InsertStaff.t :=
  InsertStaff.mk "Nurse Anita Rao" "anita" "anita123" "nurse" "+919876543214".

(** A stand-in for the address test of [loginSchema]: the text has an
    [@] that is neither its first nor its last character. *)
Fixpoint has_at_inside (started : bool) (s : string) : bool :=
  match s with
  | EmptyString => false
  | String a rest =>
      if Ascii.eqb a "@"
      then started && negb (String.eqb rest EmptyString)
      else has_at_inside true rest
  end.
Definition sample_isEmail (s : string) : bool := has_at_inside false s.

(** The body of a [POST /api/auth/login] request. *)
Definition credentials (email password : string) : JValue :=
  JObj [("email", JStr email); ("password", JStr password)].

Definition new_patient (disease : string) : InsertPatient.t :=
  InsertPatient.mk "Second Patient" "102" "1" "A" disease
                   "Second Guardian" "+919876543215" (Some "uuid-1") None None None.

(** The event the gateway broadcasts for [frame_D1] when two dashboards
    are connected, and a parser for the browser that also reads that
    event and the sample alert back from their serialisations. *)
Definition sample_update : JValue :=
  temperature_update
    (mkDeviceData (JStr "D1") (JNum 24.5) (JNum 32.1) (JNum 1700000000002))
    1700000000003.

Definition browser_parse (text : string) : option JValue :=
  if String.eqb text (sample_stringify sample_update) then Some sample_update
  else if String.eqb text (sample_stringify sample_alert) then Some sample_alert
  else sample_parse text.

(** The SMS of request number [request] goes out: always with the console
    provider, with Twilio when the request is answered with an ok
    response. *)
Definition delivered (provider : Sms.SmsProvider) (fetch : nat -> Sms.FetchOutcome)
                     (request : nat) : bool :=
  match provider with
  | Sms.ConsoleSmsProvider => true
  | Sms.TwilioSmsProvider _ _ _ =>
      match fetch request with Sms.Responds true _ => true | _ => false end
  end.

(** The alert log written for the [i]-th recipient of an alert sent
    through a provider. *)
Definition alertLogVia (randomUUID : nat -> string) (Date_new : nat -> Z)
    (provider : Sms.SmsProvider) (fetch : nat -> Sms.FetchOutcome)
    (uuid0 date0 request0 : nat) (patient : Patient.t) (message : string)
    (i : nat) (recipient : AlertRecipient.t) : AlertLog.t :=
  AlertLog.mk (randomUUID (uuid0 + i)) (Patient.id patient)
              (AlertRecipient.type recipient) (AlertRecipient.phone recipient)
              message
              (if delivered provider fetch (request0 + i) then "sent" else "failed")
              (Date_new (date0 + i)).

(** The requests a provider makes for the recipients of an alert. *)
Definition requestsFor (provider : Sms.SmsProvider) (message : string)
                       (recipients : list AlertRecipient.t) : list Sms.Request :=
  match provider with
  | Sms.ConsoleSmsProvider => []
  | Sms.TwilioSmsProvider accountSid authToken fromNumber =>
      map (fun r =>
             Sms.mkRequest ("https://api.twilio.com/2010-04-01/Accounts/" +:+ accountSid
                            +:+ "/Messages.json")
                           accountSid authToken (AlertRecipient.phone r) fromNumber message)
          recipients
  end.

(** Sample surroundings of the SMS service: a locale formatter, a
    network on which every second request fails, and the two kinds of
    environment. *)
Definition sample_toLocaleString (t : Z) : string := pretty t.
Definition sample_fetch (n : nat) : Sms.FetchOutcome :=
  if Nat.even n then Sms.Responds true "queued" else Sms.Responds false "invalid number".
Definition env_twilio : Sms.Env :=
  Sms.mkEnv (Some "AC123") (Some "token") (Some "+15550000000").
Definition env_partial : Sms.Env :=
  Sms.mkEnv (Some "AC123") None (Some "+15550000000").
Definition sample_alert_via (env : Sms.Env) : Sms.World :=
  Sms.sendTemperatureAlert sample_uuid sample_date sample_toFixed1 sample_toLocaleString
    sample_fetch (fst (Sms.getSmsProvider env)) seeded_patient 39.2 102.56 "critical"
    (Sms.mkWorld seeded []).

(** Every stored reading carries one of the three risk levels. *)
Definition known_levels (st : Storage.MemStorage) : Prop :=
  forall log, log ∈ Map_values (Storage.temperatureLogs st) ->
              TemperatureLog.riskLevel log ∈ ["normal"; "warning"; "critical"].

(** Every stored reading is within the bounds of [temperatureInputSchema]. *)
Definition within_bounds (st : Storage.MemStorage) : Prop :=
  forall log, log ∈ Map_values (Storage.temperatureLogs st) ->
              (30 <=? TemperatureLog.tempC log)%float = true
              /\ (TemperatureLog.tempC log <=? 45)%float = true
              /\ (86 <=? TemperatureLog.tempF log)%float = true
              /\ (TemperatureLog.tempF log <=? 113)%float = true.

(** * Properties *)

(** ** The subscriber set *)

Lemma Set_delete_spec (c x : Conn) (s : list Conn) :
  x ∈ Set_delete c s <-> x ∈ s /\ x <> c.
Proof. unfold Set_delete. rewrite list_elem_of_filter. tauto. Qed.

Lemma Set_delete_absent (c : Conn) (s : list Conn) :
  c ∉ s -> Set_delete c s = s.
Proof.
  unfold Set_delete. induction s as [|x s IH]; intros Hc; [reflexivity|].
  rewrite not_elem_of_cons in Hc. destruct Hc as [Hx Hs].
  rewrite filter_cons_True by congruence. f_equal. auto.
Qed.

Lemma Set_delete_idem (c : Conn) (s : list Conn) :
  Set_delete c (Set_delete c s) = Set_delete c s.
Proof. apply Set_delete_absent. rewrite Set_delete_spec. tauto. Qed.

Lemma Set_add_spec (c x : Conn) (s : list Conn) :
  x ∈ Set_add c s <-> x ∈ s \/ x = c.
Proof.
  unfold Set_add. destruct (decide (c ∈ s)) as [Hin|Hout].
  - split; [tauto|]. intros [H| ->]; assumption.
  - rewrite elem_of_app, list_elem_of_singleton. tauto.
Qed.

Lemma Set_add_NoDup (c : Conn) (s : list Conn) :
  NoDup s -> NoDup (Set_add c s).
Proof.
  intros Hs. unfold Set_add. destruct (decide (c ∈ s)); [assumption|].
  apply NoDup_app. repeat split; [assumption| |apply NoDup_singleton].
  intros x Hx Hx'. apply list_elem_of_singleton in Hx'. congruence.
Qed.

Lemma Set_delete_NoDup (c : Conn) (s : list Conn) :
  NoDup s -> NoDup (Set_delete c s).
Proof. apply NoDup_filter. Qed.

(** ** The registry *)

Lemma Map_get_set_same {V} (k : JValue) (v : V) (m : JSMap V) :
  sameValueZero (canonKey k) k = true ->
  Map_get k (Map_set k v m) = Some v.
Proof.
  intros Hk. induction m as [|[k' v'] m IH]; simpl.
  - rewrite Hk. reflexivity.
  - destruct (sameValueZero k' k) eqn:Hkk; simpl; rewrite Hkk; auto.
Qed.

Lemma Map_get_set_str {V} (id : string) (v : V) (m : JSMap V) :
  Map_get (JStr id) (Map_set (JStr id) v m) = Some v.
Proof. apply Map_get_set_same. simpl. apply String.eqb_refl. Qed.

Lemma Map_get_set_undefined {V} (v : V) (m : JSMap V) :
  Map_get JUndefined (Map_set JUndefined v m) = Some v.
Proof. apply Map_get_set_same. reflexivity. Qed.

Lemma sameValueZero_str (k : JValue) (id : string) :
  sameValueZero k (JStr id) = true -> k = JStr id.
Proof.
  destruct k; simpl; try discriminate. intros H.
  apply String.eqb_eq in H. congruence.
Qed.

Lemma Map_get_set_other {V} (id id' : string) (v : V) (m : JSMap V) :
  id <> id' ->
  Map_get (JStr id') (Map_set (JStr id) v m) = Map_get (JStr id') m.
Proof.
  intros Hne.
  assert (Hoff : String.eqb id id' = false) by (apply String.eqb_neq; exact Hne).
  induction m as [|[k' v'] m IH].
  - simpl. rewrite Hoff. reflexivity.
  - cbn [Map_set Map_get].
    destruct (sameValueZero k' (JStr id)) eqn:Hk; cbn [Map_get].
    + apply sameValueZero_str in Hk as ->. simpl. rewrite Hoff. reflexivity.
    + rewrite IH. reflexivity.
Qed.

(** ** One broadcast *)

Lemma since_app (st st' : State) (acts : list Action) :
  trace st' = trace st ++ acts -> since st st' = acts.
Proof. intros H. unfold since. rewrite H. apply drop_app_length. Qed.

Lemma sent_closed (json : string) (s : Socket) :
  (readyState s =? OPEN)%Z = false -> sent json s = s.
Proof. intros H. unfold sent. rewrite H. reflexivity. Qed.

Lemma forallb_pointwise {A} (f g : A -> bool) (l : list A) :
  (forall x, f x = g x) -> forallb f l = forallb g l.
Proof.
  intros Hfg. induction l as [|x l IH]; simpl; [reflexivity|].
  rewrite Hfg, IH. reflexivity.
Qed.

Lemma forEach_sendIfOpen (json : string) (l : list Conn) :
  forall st,
    NoDup l ->
    sends_return st l = true ->
    exists st',
      forEach (sendIfOpen json) l st = (Normal tt, st')
      /\ deviceLatestData st' = deviceLatestData st
      /\ connectedClients st' = connectedClients st
      /\ clientIds st' = clientIds st
      /\ clock st' = clock st
      /\ trace st' = trace st ++ fanout json st l
      /\ forall c, sockets st' c =
                   if decide (c ∈ l) then sent json (sockets st c) else sockets st c.
Proof.
  induction l as [|x l IH]; intros st Hnd Hret.
  - exists st. unfold fanout. simpl. rewrite app_nil_r. repeat split; reflexivity.
  - apply NoDup_cons in Hnd as [Hx Hnd].
    unfold sends_return in Hret. simpl in Hret.
    apply andb_prop in Hret as [Hhead Hret].
    (* the state after the head *)
    assert (exists st1,
      sendIfOpen json x st = (Normal tt, st1)
      /\ deviceLatestData st1 = deviceLatestData st
      /\ connectedClients st1 = connectedClients st
      /\ clientIds st1 = clientIds st
      /\ clock st1 = clock st
      /\ trace st1 = trace st ++ (if isOpen st x then [SendCall x json] else [])
      /\ sockets st1 x = sent json (sockets st x)
      /\ (forall c, c <> x -> sockets st1 c = sockets st c)
      /\ (forall c, readyState (sockets st1 c) = readyState (sockets st c)
                    /\ onSend (sockets st1 c) = onSend (sockets st c))) as Hst1.
    { unfold sendIfOpen, isOpen in *. unfold sent.
      destruct (readyState (sockets st x) =? OPEN)%Z eqn:Hopen.
      - unfold ws_send, bind, emit. simpl.
        destruct (onSend (sockets st x)) eqn:Hb; simpl in Hhead; [| |discriminate].
        + eexists. split; [reflexivity|]. simpl.
          rewrite fn_lookup_insert. repeat split; try reflexivity.
          * intros c Hc. rewrite fn_lookup_insert_ne by congruence. reflexivity.
          * destruct (decide (c = x)) as [->|Hc];
              [rewrite fn_lookup_insert|rewrite fn_lookup_insert_ne by congruence];
              reflexivity.
          * destruct (decide (c = x)) as [->|Hc];
              [rewrite fn_lookup_insert; simpl; congruence
              |rewrite fn_lookup_insert_ne by congruence; reflexivity].
        + eexists. split; [reflexivity|]. simpl. repeat split; reflexivity.
      - exists st. rewrite app_nil_r. repeat split; reflexivity. }
    destruct Hst1 as (st1 & Hrun & Hreg & Hcl & Hids & Hclk & Htr & Hsx & Hsother & Hwire).
    assert (Hopen1 : forall c, isOpen st1 c = isOpen st c).
    { intros c. unfold isOpen. destruct (Hwire c) as [-> _]. reflexivity. }
    destruct (IH st1 Hnd) as (st' & Hrun' & Hreg' & Hcl' & Hids' & Hclk' & Htr' & Hs').
    { unfold sends_return. rewrite <- Hret. apply forallb_pointwise. intros c.
      rewrite Hopen1. destruct (Hwire c) as [_ ->]. reflexivity. }
    exists st'. split.
    { simpl. unfold bind. rewrite Hrun. exact Hrun'. }
    repeat split; try congruence.
    + rewrite Htr', Htr. unfold fanout. simpl.
      rewrite (List.filter_ext _ _ Hopen1).
      destruct (isOpen st x); simpl; rewrite <- app_assoc; reflexivity.
    + intros c. rewrite Hs'.
      destruct (decide (c = x)) as [->|Hc].
      * rewrite decide_False by assumption.
        rewrite decide_True by apply list_elem_of_here. exact Hsx.
      * rewrite (Hsother c Hc).
        destruct (decide (c ∈ l)) as [Hin|Hout].
        -- rewrite decide_True by (apply list_elem_of_further; assumption). reflexivity.
        -- rewrite decide_False; [reflexivity|].
           rewrite not_elem_of_cons. tauto.
Qed.

(** Without any assumption on the sockets: the loop may stop at a [send]
    that throws, but whatever it did was a [send] of [json] to members of
    the set, and no socket was handed anything else. *)
Lemma sendIfOpen_effect (json : string) (x : Conn) (st : State) :
  exists r st1,
    sendIfOpen json x st = (r, st1)
    /\ deviceLatestData st1 = deviceLatestData st
    /\ clock st1 = clock st
    /\ trace st1 = trace st ++ (if isOpen st x then [SendCall x json] else [])
    /\ (forall c, c <> x -> sockets st1 c = sockets st c)
    /\ (sockets st1 x = sockets st x
        \/ sockets st1 x = deliver json (sockets st x)).
Proof.
  unfold sendIfOpen, isOpen.
  destruct (readyState (sockets st x) =? OPEN)%Z.
  - unfold ws_send, bind, emit. simpl.
    destruct (onSend (sockets st x)); do 2 eexists; (split; [reflexivity|]); simpl;
      repeat split; auto.
    all: try (right; apply fn_lookup_insert).
    all: intros c Hc; rewrite fn_lookup_insert_ne by congruence; reflexivity.
  - exists (Normal tt), st. rewrite app_nil_r. repeat split; auto.
Qed.

Lemma forEach_sendIfOpen_any (json : string) (l : list Conn) :
  forall st,
    exists r st' cs,
      forEach (sendIfOpen json) l st = (r, st')
      /\ deviceLatestData st' = deviceLatestData st
      /\ clock st' = clock st
      /\ trace st' = trace st ++ map (fun c => SendCall c json) cs
      /\ (forall c, c ∈ cs -> c ∈ l)
      /\ (NoDup l ->
          forall c, sockets st' c = sockets st c
                    \/ (c ∈ l /\ sockets st' c = deliver json (sockets st c))).
Proof.
  induction l as [|x l IH]; intros st.
  - exists (Normal tt), st, []. simpl. rewrite app_nil_r.
    repeat split; auto; try (intros c Hc; inversion Hc).
  - destruct (sendIfOpen_effect json x st)
      as (r & st1 & Hrun & Hreg & Hclk & Htr & Hother & Hhead).
    assert (Hone : forall c, sockets st1 c = sockets st c
                             \/ (c ∈ x :: l /\ sockets st1 c = deliver json (sockets st c))).
    { intros c. destruct (decide (c = x)) as [->|Hc].
      - destruct Hhead as [H|H]; [left|right; split; [apply list_elem_of_here|]]; exact H.
      - left. apply Hother, Hc. }
    simpl. unfold bind. rewrite Hrun. destruct r as [[]|e].
    + destruct (IH st1) as (r' & st' & cs & Hrun' & Hreg' & Hclk' & Htr' & Hcs & Hs').
      exists r', st', ((if isOpen st x then [x] else []) ++ cs).
      split; [exact Hrun'|]. split; [congruence|]. split; [congruence|].
      split; [|split].
      * rewrite Htr', Htr, map_app, app_assoc.
        destruct (isOpen st x); reflexivity.
      * intros c Hc. apply elem_of_app in Hc as [Hc|Hc].
        -- destruct (isOpen st x); [|inversion Hc].
           apply list_elem_of_singleton in Hc as ->. apply list_elem_of_here.
        -- apply list_elem_of_further, Hcs, Hc.
      * intros Hnd c. apply NoDup_cons in Hnd as [Hx Hnd].
        destruct (Hs' Hnd c) as [H|[Hin H]].
        -- rewrite H. apply Hone.
        -- right. split; [apply list_elem_of_further, Hin|].
           rewrite H, Hother; [reflexivity|]. intros ->. contradiction.
    + exists (Throw e), st1, (if isOpen st x then [x] else []).
      split; [reflexivity|]. split; [assumption|]. split; [assumption|].
      split; [|split].
      * rewrite Htr. destruct (isOpen st x); reflexivity.
      * intros c Hc. destruct (isOpen st x); [|inversion Hc].
        apply list_elem_of_singleton in Hc as ->. apply list_elem_of_here.
      * intros _. exact Hone.
Qed.

Lemma forEach_app {A} (f : A -> Eff unit) (l1 l2 : list A) (st : State) :
  forEach f (l1 ++ l2) st = (forEach f l1 ;;; forEach f l2) st.
Proof.
  revert st. induction l1 as [|x l1 IH]; intros st; simpl.
  - reflexivity.
  - unfold bind. destruct (f x st) as [[[]|e] st1]; [|reflexivity].
    rewrite IH. reflexivity.
Qed.

(** The loop stops at the first open member whose [send] throws: the
    members before it were served, the exception is the result, and no
    member after it is sent anything. *)
Lemma forEach_stops_at_throw
      (json : string) (pre post : list Conn) (x : Conn) (msg : string) (st : State) :
  NoDup (pre ++ x :: post) ->
  sends_return st pre = true ->
  isOpen st x = true ->
  onSend (sockets st x) = Raises msg ->
  exists st',
    forEach (sendIfOpen json) (pre ++ x :: post) st = (Throw (TransportError msg), st')
    /\ trace st' = trace st ++ fanout json st pre ++ [SendCall x json]
    /\ connectedClients st' = connectedClients st
    /\ forall c, c ∈ post -> sockets st' c = sockets st c.
Proof.
  intros Hnd Hret Hopen Hraise.
  apply NoDup_app in Hnd as (Hpre & Hsep & Hrest).
  apply NoDup_cons in Hrest as [Hx Hpost].
  destruct (forEach_sendIfOpen json pre st Hpre Hret)
    as (st1 & Hrun & _ & Hcl & _ & _ & Htr & Hs).
  assert (Hsame : forall c, c ∈ x :: post -> sockets st1 c = sockets st c).
  { intros c Hc. rewrite Hs. rewrite decide_False; [reflexivity|].
    intros Hin. exact (Hsep c Hin Hc). }
  rewrite forEach_app. unfold bind at 1. rewrite Hrun. simpl.
  unfold bind at 1. unfold sendIfOpen at 1.
  rewrite (Hsame x) by apply list_elem_of_here.
  unfold isOpen in Hopen. rewrite Hopen.
  unfold ws_send, bind, emit. simpl.
  rewrite (Hsame x) by apply list_elem_of_here. rewrite Hraise.
  eexists. split; [reflexivity|]. simpl. repeat split.
  - rewrite Htr, <- app_assoc. reflexivity.
  - exact Hcl.
  - intros c Hc. apply Hsame. apply list_elem_of_further, Hc.
Qed.

Lemma fanout_to (json : string) (st : State) (l : list Conn) (c : Conn) :
  NoDup l ->
  List.filter (is_send_to c) (fanout json st l) =
  if decide (c ∈ l) then (if isOpen st c then [SendCall c json] else []) else [].
Proof.
  unfold fanout. induction l as [|x l IH]; intros Hnd; [reflexivity|].
  apply NoDup_cons in Hnd as [Hx Hnd]. specialize (IH Hnd). simpl.
  destruct (decide (c = x)) as [->|Hc].
  - rewrite decide_True by apply list_elem_of_here.
    rewrite decide_False in IH by assumption.
    destruct (isOpen st x); simpl; [rewrite Nat.eqb_refl|]; rewrite IH; reflexivity.
  - assert (Hneq : Nat.eqb x c = false) by (apply Nat.eqb_neq; congruence).
    destruct (isOpen st x); simpl; [rewrite Hneq|]; rewrite IH;
      (destruct (decide (c ∈ l)) as [Hin|Hout];
       [rewrite decide_True by (apply list_elem_of_further; assumption)
       |rewrite decide_False by (rewrite not_elem_of_cons; tauto)]); reflexivity.
Qed.

Lemma fanout_sends (json : string) (st : State) (l : list Conn) :
  List.filter is_send (fanout json st l) = fanout json st l
  /\ List.filter is_stringify (fanout json st l) = []
  /\ List.filter is_registry_set (fanout json st l) = [].
Proof.
  unfold fanout. induction (List.filter (isOpen st) l) as [|x xs IH]; simpl;
    [auto|]. destruct IH as (-> & -> & ->). auto.
Qed.

Lemma sends_of_map (json : string) (cs : list Conn) (a : Action) :
  a ∈ map (fun c => SendCall c json) cs ->
  exists c, a = SendCall c json /\ c ∈ cs.
Proof.
  rewrite list_elem_of_In, in_map_iff. intros (c & <- & Hc).
  exists c. split; [reflexivity|]. apply list_elem_of_In, Hc.
Qed.

Lemma no_registry_set_in_sends (json : string) (cs : list Conn) :
  List.filter is_registry_set (map (fun c => SendCall c json) cs) = [].
Proof. induction cs as [|c cs IH]; simpl; auto. Qed.

(** ** What every handler keeps *)

Lemma same_wiring_refl (st : State) : same_wiring st st.
Proof. repeat split. Qed.

Lemma same_wiring_trans (st1 st2 st3 : State) :
  same_wiring st1 st2 -> same_wiring st2 st3 -> same_wiring st1 st3.
Proof.
  intros (Hc & Hi & Hw) (Hc' & Hi' & Hw'). repeat split; try congruence.
  - destruct (Hw' c) as [-> _]. apply Hw.
  - destruct (Hw' c) as [_ ->]. apply Hw.
Qed.

Lemma keeps_ret {A} (a : A) : keeps same_wiring (ret a).
Proof. intros st. apply same_wiring_refl. Qed.

Lemma keeps_liftC {A} (c : Completion A) : keeps same_wiring (liftC c).
Proof. intros st. apply same_wiring_refl. Qed.

Lemma keeps_bind {A B} (m : Eff A) (k : A -> Eff B) :
  keeps same_wiring m -> (forall a, keeps same_wiring (k a)) ->
  keeps same_wiring (bind m k).
Proof.
  intros Hm Hk st. unfold bind. specialize (Hm st).
  destruct (m st) as [[a|e] st1]; simpl in *; [|assumption].
  eapply same_wiring_trans; [eassumption|apply Hk].
Qed.

Lemma keeps_tryCatch {A} (m : Eff A) (h : Exn -> Eff A) :
  keeps same_wiring m -> (forall e, keeps same_wiring (h e)) ->
  keeps same_wiring (tryCatch m h).
Proof.
  intros Hm Hh st. unfold tryCatch. specialize (Hm st).
  destruct (m st) as [[a|e] st1]; simpl in *; [assumption|].
  eapply same_wiring_trans; [eassumption|apply Hh].
Qed.

Lemma keeps_emit (a : Action) : keeps same_wiring (emit a).
Proof. intros st. repeat split. Qed.

Lemma keeps_interpolate (vs : list JValue) : keeps same_wiring (interpolate vs).
Proof.
  unfold interpolate. destruct (forallb convertible vs);
    [apply keeps_ret|apply keeps_liftC].
Qed.

Lemma keeps_ws_send (c : Conn) (payload : string) :
  keeps same_wiring (ws_send c payload).
Proof.
  unfold ws_send. apply keeps_bind; [apply keeps_emit|]. intros _ st.
  destruct (onSend (sockets st c)) eqn:Hb; simpl; try apply same_wiring_refl.
  split; [reflexivity|]. split; [reflexivity|]. intros c'. simpl.
  destruct (decide (c' = c)) as [->|Hc].
  - rewrite fn_lookup_insert. split; reflexivity.
  - rewrite fn_lookup_insert_ne by congruence. split; reflexivity.
Qed.

Lemma keeps_sendIfOpen (json : string) (c : Conn) :
  keeps same_wiring (sendIfOpen json c).
Proof.
  intros st. unfold sendIfOpen.
  destruct (readyState (sockets st c) =? OPEN)%Z;
    [apply keeps_ws_send|apply same_wiring_refl].
Qed.

Lemma keeps_forEach {A} (f : A -> Eff unit) (l : list A) :
  (forall x, keeps same_wiring (f x)) -> keeps same_wiring (forEach f l).
Proof.
  intros Hf. induction l as [|x l IH]; simpl;
    [apply keeps_ret|apply keeps_bind; auto].
Qed.

(** ** No handler reads the trace *)

Lemma trace_blind_pure {A} (f : State -> Completion A) :
  (forall st t, f (with_trace t st) = f st) ->
  trace_blind (fun st => (f st, st)).
Proof.
  intros Hf st. exists []. simpl. rewrite app_nil_r. split; [reflexivity|].
  intros t. rewrite Hf, app_nil_r. reflexivity.
Qed.

Lemma trace_blind_ret {A} (a : A) : trace_blind (ret a).
Proof. apply (trace_blind_pure (fun _ => Normal a)). reflexivity. Qed.

Lemma trace_blind_liftC {A} (c : Completion A) : trace_blind (liftC c).
Proof. apply (trace_blind_pure (fun _ => c)). reflexivity. Qed.

Lemma trace_blind_emit (a : Action) : trace_blind (emit a).
Proof. intros st. exists [a]. split; reflexivity. Qed.

Lemma trace_blind_bind {A B} (m : Eff A) (k : A -> Eff B) :
  trace_blind m -> (forall a, trace_blind (k a)) -> trace_blind (bind m k).
Proof.
  intros Hm Hk st. destruct (Hm st) as (a1 & Htr1 & Hb1). unfold bind.
  destruct (m st) as [[a|e] st1] eqn:Hrun; simpl in *.
  - destruct (Hk a st1) as (a2 & Htr2 & Hb2). exists (a1 ++ a2). split.
    + rewrite Htr2, Htr1, app_assoc. reflexivity.
    + intros t. rewrite Hb1, Hb2, app_assoc. reflexivity.
  - exists a1. split; [exact Htr1|]. intros t. rewrite Hb1. reflexivity.
Qed.

Lemma trace_blind_tryCatch {A} (m : Eff A) (h : Exn -> Eff A) :
  trace_blind m -> (forall e, trace_blind (h e)) -> trace_blind (tryCatch m h).
Proof.
  intros Hm Hh st. destruct (Hm st) as (a1 & Htr1 & Hb1). unfold tryCatch.
  destruct (m st) as [[a|e] st1] eqn:Hrun; simpl in *.
  - exists a1. split; [exact Htr1|]. intros t. rewrite Hb1. reflexivity.
  - destruct (Hh e st1) as (a2 & Htr2 & Hb2). exists (a1 ++ a2). split.
    + rewrite Htr2, Htr1, app_assoc. reflexivity.
    + intros t. rewrite Hb1, Hb2, app_assoc. reflexivity.
Qed.

(** A step that reads the state, but not its trace, to pick what to run. *)
Lemma trace_blind_reading {A B} (f : State -> B) (k : B -> Eff A) :
  (forall st t, f (with_trace t st) = f st) ->
  (forall b, trace_blind (k b)) ->
  trace_blind (fun st => k (f st) st).
Proof.
  intros Hf Hk st. destruct (Hk (f st) st) as (acts & Htr & Hb).
  exists acts. split; [exact Htr|]. intros t. rewrite Hf. apply Hb.
Qed.

Lemma trace_blind_update (f : State -> State) :
  (forall st, trace (f st) = trace st) ->
  (forall st t, f (with_trace t st) = with_trace t (f st)) ->
  trace_blind (fun st => (Normal tt, f st)).
Proof.
  intros Hkeep Hcomm st. exists []. simpl. rewrite app_nil_r.
  split; [apply Hkeep|]. intros t. rewrite Hcomm, app_nil_r. reflexivity.
Qed.

Lemma trace_blind_interpolate (vs : list JValue) : trace_blind (interpolate vs).
Proof.
  unfold interpolate. destruct (forallb convertible vs);
    [apply trace_blind_ret|apply trace_blind_liftC].
Qed.

Lemma trace_blind_ws_send (c : Conn) (payload : string) :
  trace_blind (ws_send c payload).
Proof.
  unfold ws_send. apply trace_blind_bind; [apply trace_blind_emit|]. intros _.
  apply (trace_blind_reading (fun st => onSend (sockets st c))
           (fun b st =>
              match b with
              | Delivers =>
                  (Normal tt,
                   with_sockets (<[c := deliver payload (sockets st c)]> (sockets st)) st)
              | Drops => (Normal tt, st)
              | Raises msg => (Throw (TransportError msg), st)
              end)); [reflexivity|].
  intros [| |msg].
  - apply (trace_blind_update
             (fun st => with_sockets (<[c := deliver payload (sockets st c)]> (sockets st)) st));
      reflexivity.
  - apply trace_blind_ret.
  - apply trace_blind_liftC.
Qed.

Lemma trace_blind_sendIfOpen (json : string) (c : Conn) :
  trace_blind (sendIfOpen json c).
Proof.
  intros st. unfold sendIfOpen. simpl.
  destruct (readyState (sockets st c) =? OPEN)%Z.
  - apply trace_blind_ws_send.
  - apply (trace_blind_ret tt).
Qed.

Lemma trace_blind_forEach {A} (f : A -> Eff unit) (l : list A) :
  (forall x, trace_blind (f x)) -> trace_blind (forEach f l).
Proof.
  intros Hf. induction l as [|x l IH]; simpl;
    [apply trace_blind_ret|apply trace_blind_bind; auto].
Qed.

Section Properties.

Variable JSON_parse : string -> option JValue.
Variable JSON_stringify : JValue -> string.
Variable Date_now : nat -> float.

Abbreviation onMessage := (onMessage JSON_parse JSON_stringify Date_now).
Abbreviation onConnection := (onConnection Date_now).
Abbreviation broadcastToClients := (broadcastToClients JSON_stringify).
Abbreviation step := (step JSON_parse JSON_stringify Date_now).
Abbreviation run := (run JSON_parse JSON_stringify Date_now).

Abbreviation handleFrame := (handleFrame JSON_parse JSON_stringify Date_now).
Abbreviation api_temperature_alert := (api_temperature_alert JSON_stringify Date_now).

Lemma keeps_now : keeps same_wiring (now Date_now).
Proof. intros st. repeat split. Qed.

Lemma keeps_stringify (v : JValue) : keeps same_wiring (stringify JSON_stringify v).
Proof.
  unfold stringify. apply keeps_bind; [apply keeps_emit|intros; apply keeps_ret].
Qed.

Lemma keeps_registry_set (k : JValue) (d : DeviceData) :
  keeps same_wiring (registry_set k d).
Proof.
  unfold registry_set. apply keeps_bind; [apply keeps_emit|]. intros _ st.
  repeat split.
Qed.

Lemma keeps_broadcastToClients (message : JValue) :
  keeps same_wiring (broadcastToClients message).
Proof.
  unfold Gateway.broadcastToClients.
  apply keeps_bind; [apply keeps_stringify|]. intros json st.
  apply keeps_forEach. apply keeps_sendIfOpen.
Qed.

Ltac keeps_step :=
  first
    [ apply keeps_ret | apply keeps_liftC | apply keeps_emit | apply keeps_now
    | apply keeps_interpolate | apply keeps_stringify | apply keeps_registry_set
    | apply keeps_ws_send | apply keeps_broadcastToClients
    | apply keeps_bind; [|intro]
    | apply keeps_tryCatch; [|intro] ].

Lemma keeps_handleFrame (c : Conn) (data : string) :
  keeps same_wiring (handleFrame c data).
Proof.
  unfold Gateway.handleFrame, parse.
  apply keeps_bind; [apply keeps_liftC|intros message].
  apply keeps_bind; [apply keeps_liftC|intros ty].
  destruct (strictEqStr ty "temperature").
  - unfold onTemperature, storeTemperatureReading, console_log.
    do 4 (apply keeps_bind; [apply keeps_liftC|intro]).
    apply keeps_bind.
    { destruct (truthy _); repeat keeps_step. }
    intro. repeat keeps_step.
  - destruct (strictEqStr ty "handshake"); [|apply keeps_ret].
    unfold onHandshake, console_log. repeat keeps_step.
Qed.

Lemma keeps_onMessage (c : Conn) (data : string) :
  keeps same_wiring (onMessage c data).
Proof.
  unfold Gateway.onMessage, console_error.
  apply keeps_tryCatch; [apply keeps_handleFrame|intro; apply keeps_emit].
Qed.

Lemma keeps_api_temperature_alert (b : JValue) :
  keeps same_wiring (api_temperature_alert b).
Proof.
  unfold Gateway.api_temperature_alert, console_error. repeat keeps_step.
Qed.

(** A frame never ends in an uncaught exception. *)
Lemma onMessage_returns (c : Conn) (data : string) (st : State) :
  outcome (onMessage c data) st = Normal tt.
Proof.
  unfold outcome, Gateway.onMessage, tryCatch.
  destruct (handleFrame c data st) as [[[]|e] st1]; reflexivity.
Qed.

(** [broadcastToClients] when every [send] it makes returns. *)
Lemma broadcast_returns (message : JValue) (st : State) :
  NoDup (connectedClients st) ->
  sends_return st (connectedClients st) = true ->
  exists st',
    broadcastToClients message st = (Normal tt, st')
    /\ deviceLatestData st' = deviceLatestData st
    /\ connectedClients st' = connectedClients st
    /\ clientIds st' = clientIds st
    /\ clock st' = clock st
    /\ trace st' = trace st ++ Stringify message
                   :: fanout (JSON_stringify message) st (connectedClients st)
    /\ forall c, sockets st' c =
                 if decide (c ∈ connectedClients st)
                 then sent (JSON_stringify message) (sockets st c)
                 else sockets st c.
Proof.
  intros Hnd Hret.
  unfold Gateway.broadcastToClients, stringify, bind, emit, ret. simpl.
  set (st0 := with_trace (trace st ++ [Stringify message]) st).
  destruct (forEach_sendIfOpen (JSON_stringify message) (connectedClients st) st0 Hnd Hret)
    as (st' & Hrun & Hreg & Hcl & Hids & Hclk & Htr & Hs).
  exists st'. split; [exact Hrun|]. repeat split; try assumption.
  rewrite Htr. unfold st0. simpl. rewrite <- app_assoc. reflexivity.
Qed.

(** [broadcastToClients] on any sockets: it may end in the exception of
    a [send], but what it did was stringify the message once and send
    that text to members of the set. *)
Lemma broadcast_any (message : JValue) (st : State) :
  exists r st' cs,
    broadcastToClients message st = (r, st')
    /\ deviceLatestData st' = deviceLatestData st
    /\ clock st' = clock st
    /\ trace st' = trace st ++ Stringify message
                   :: map (fun c => SendCall c (JSON_stringify message)) cs
    /\ (forall c, c ∈ cs -> c ∈ connectedClients st)
    /\ (NoDup (connectedClients st) ->
        forall c, sockets st' c = sockets st c
                  \/ (c ∈ connectedClients st
                      /\ sockets st' c = deliver (JSON_stringify message) (sockets st c))).
Proof.
  unfold Gateway.broadcastToClients, stringify, bind, emit, ret. simpl.
  set (st0 := with_trace (trace st ++ [Stringify message]) st).
  destruct (forEach_sendIfOpen_any (JSON_stringify message) (connectedClients st) st0)
    as (r & st' & cs & Hrun & Hreg & Hclk & Htr & Hcs & Hs).
  exists r, st', cs. split; [exact Hrun|]. repeat split; try assumption.
  rewrite Htr. unfold st0. simpl. rewrite <- app_assoc. reflexivity.
Qed.

Lemma has_type_object (ty : string) (message : JValue) :
  has_type ty message = true ->
  exists props, message = JObj props /\ strictEqStr (lookupProp "type" props) ty = true.
Proof.
  unfold has_type. destruct message; simpl; try discriminate. eauto.
Qed.

Lemma onTemperature_run (props : list (string * JValue)) (st : State) :
  let k := lookupProp "deviceId" props in
  let d := readingAt (JObj props) (Date_now (clock st)) in
  exists r st1 t tail,
    onTemperature JSON_stringify Date_now (JObj props) st = (r, st1)
    /\ deviceLatestData st1 = Map_set k d (deviceLatestData st)
    /\ trace st1 = trace st ++ RegistrySet k d :: tail
    /\ List.filter is_registry_set tail = []
    /\ (forall a, a ∈ tail -> is_send a = true ->
          exists c', a = SendCall c' (JSON_stringify (temperature_update d t))
                     /\ c' ∈ connectedClients st)
    /\ (NoDup (connectedClients st) ->
        forall c', sockets st1 c' = sockets st c'
                   \/ (c' ∈ connectedClients st
                       /\ sockets st1 c'
                          = deliver (JSON_stringify (temperature_update d t)) (sockets st c'))).
Proof.
  intros k d.
  unfold onTemperature, liftC, bind, registry_set, interpolate, console_log,
    storeTemperatureReading, emit, now, ret, liftC. simpl.
  set (ts := if truthy (lookupProp "timestamp" props)
             then lookupProp "timestamp" props else JNum (Date_now (clock st))).
  assert (Hd : d = mkDeviceData k (lookupProp "ambientTemp" props)
                                (lookupProp "objectTemp" props) ts) by reflexivity.
  set (conv := convertible (lookupProp "deviceId" props) &&
               (convertible (lookupProp "ambientTemp" props) &&
                (convertible (lookupProp "objectTemp" props) && true))).
  fold k. unfold ts in Hd.
  destruct (truthy (lookupProp "timestamp" props)) eqn:Hts; simpl; rewrite <- Hd;
    destruct conv eqn:Hconv; simpl.
  2, 4: do 2 eexists; exists zero, []; (split; [reflexivity|]); simpl;
        repeat split; auto; intros a Ha; inversion Ha.
  all: match goal with
       | |- context [broadcastToClients ?m ?s] =>
           destruct (broadcast_any m s)
             as (r & stb & cs & Hrun & Hreg & Hclk & Htr & Hcs & Hs);
           rewrite Hrun; simpl in Hreg, Hclk, Htr, Hcs, Hs
       end.
  all: match type of Hrun with
       | broadcastToClients (temperature_update _ ?t) _ = _ =>
           destruct r as [[]|e]; simpl;
           unfold interpolate, bind, console_log, emit, ret, liftC;
           try change (forallb convertible
                         [k; lookupProp "ambientTemp" props;
                          lookupProp "objectTemp" props]) with conv;
           rewrite ?Hconv; simpl;
           do 2 eexists; exists t
       end.
  all: eexists; (split; [reflexivity|]); simpl; rewrite ?Hreg, ?Htr;
       (split; [reflexivity|]);
       (split; [rewrite <- ?app_assoc; simpl; reflexivity|]).
  all: split;
       [simpl; rewrite ?List.filter_app, no_registry_set_in_sends; reflexivity|].
  all: split; [|exact Hs].
  all: intros a Ha Hsend;
       repeat (apply elem_of_cons in Ha as [->|Ha]; [discriminate|]);
       rewrite ?elem_of_app in Ha;
       repeat match goal with
              | H : _ \/ _ |- _ => destruct H as [H|H]
              end;
       try (destruct (sends_of_map _ _ _ Ha) as (c' & -> & Hc'); eauto);
       try (apply list_elem_of_singleton in Ha as ->; discriminate).
Qed.

(** The temperature branch, whatever the frame holds and however the
    sockets behave: the registry entry is written first, and every [send]
    that follows carries the reading just written. *)
Lemma temperature_frame (c : Conn) (data : string) (message : JValue) (st : State) :
  JSON_parse data = Some message ->
  has_type "temperature" message = true ->
  let k := field "deviceId" message in
  let d := readingAt message (Date_now (clock st)) in
  let st' := exec (onMessage c data) st in
  exists t tail,
    deviceLatestData st' = Map_set k d (deviceLatestData st)
    /\ since st st' = RegistrySet k d :: tail
    /\ List.filter is_registry_set tail = []
    /\ (forall a, a ∈ tail -> is_send a = true ->
          exists c', a = SendCall c' (JSON_stringify (temperature_update d t))
                     /\ c' ∈ connectedClients st)
    /\ (NoDup (connectedClients st) ->
        forall c', sockets st' c' = sockets st c'
                   \/ (c' ∈ connectedClients st
                       /\ sockets st' c'
                          = deliver (JSON_stringify (temperature_update d t)) (sockets st c'))).
Proof.
  intros Hparse Hty k d st'.
  destruct (has_type_object _ _ Hty) as (props & -> & Htype).
  assert (Hframe : handleFrame c data st = onTemperature JSON_stringify Date_now (JObj props) st).
  { unfold Gateway.handleFrame, parse, liftC, bind. rewrite Hparse. simpl.
    rewrite Htype. reflexivity. }
  destruct (onTemperature_run props st)
    as (r & st1 & t & tail & Hrun & Hreg & Htr & Hnoset & Hsends & Hs).
  unfold st', exec, Gateway.onMessage, tryCatch. rewrite Hframe, Hrun.
  exists t. destruct r as [[]|e]; simpl.
  - exists tail. repeat split; try assumption. apply since_app, Htr.
  - exists (tail ++ [ConsoleError (LogParseError e)]).
    split; [exact Hreg|]. split.
    { apply since_app. simpl. rewrite Htr, <- app_assoc. reflexivity. }
    split; [rewrite List.filter_app, Hnoset; reflexivity|].
    split; [|exact Hs].
    intros a Ha Hsend. apply elem_of_app in Ha as [Ha|Ha]; [auto|].
    apply list_elem_of_singleton in Ha as ->. discriminate.
Qed.

(** The temperature branch when the log line can be written and every
    [send] returns: the whole run, action by action. *)
Lemma temperature_frame_delivered
      (c : Conn) (data : string) (message : JValue) (st : State) :
  JSON_parse data = Some message ->
  has_type "temperature" message = true ->
  loggable message = true ->
  NoDup (connectedClients st) ->
  sends_return st (connectedClients st) = true ->
  let k := field "deviceId" message in
  let d := readingAt message (Date_now (clock st)) in
  let json := JSON_stringify (temperature_update d (broadcastTime Date_now message st)) in
  let st' := exec (onMessage c data) st in
  deviceLatestData st' = Map_set k d (deviceLatestData st)
  /\ since st st'
     = [RegistrySet k d;
        ConsoleLog (LogTemperature k (field "ambientTemp" message) (field "objectTemp" message));
        Stringify (temperature_update d (broadcastTime Date_now message st))]
       ++ fanout json st (connectedClients st)
       ++ [ConsoleLog (LogDB k (field "ambientTemp" message) (field "objectTemp" message))]
  /\ forall c', sockets st' c' =
                if decide (c' ∈ connectedClients st)
                then sent json (sockets st c') else sockets st c'.
Proof.
  intros Hparse Hty Hlog Hnd Hret k d json st'.
  destruct (has_type_object _ _ Hty) as (props & -> & Htype).
  assert (Hframe : handleFrame c data st = onTemperature JSON_stringify Date_now (JObj props) st).
  { unfold Gateway.handleFrame, parse, liftC, bind. rewrite Hparse. simpl.
    rewrite Htype. reflexivity. }
  unfold st', exec, Gateway.onMessage, tryCatch. rewrite Hframe. clear Hframe st'.
  unfold json, broadcastTime, d, readingAt, k, loggable, field in *. simpl getProp in *.
  cbv iota in *. clear json.
  unfold onTemperature, liftC, bind, registry_set, interpolate, console_log,
    storeTemperatureReading, emit, now, ret, liftC. simpl.
  simpl in Hlog. rewrite Hlog.
  destruct (truthy (lookupProp "timestamp" props)) eqn:Hts; simpl.
  all: match goal with
       | |- context [broadcastToClients ?m ?s] =>
           destruct (broadcast_returns m s Hnd Hret)
             as (stb & Hrun & Hreg & Hcl & Hids & Hclk & Htr & Hs);
           rewrite Hrun; simpl in Hreg, Hclk, Htr, Hs
       end.
  all: unfold interpolate, bind, console_log, emit, ret, liftC;
       simpl; rewrite Hlog; simpl.
  all: split; [exact Hreg|]; split; [|exact Hs].
  all: apply since_app; rewrite Htr, <- !app_assoc; reflexivity.
Qed.

(** C2 (amended). One call of [broadcastToClients] on a set of subscribers
    whose [send]s return: it ends normally, [JSON.stringify] is called exactly
    once, on the event; every member whose [readyState] is OPEN gets exactly
    one [send], of that serialized form, and a socket that delivers has
    exactly that one frame added to what it received; a connection that is
    not open (or not in the set) gets no [send] and is left as it was. *)
Theorem C2_fanout_complete (event : JValue) (st : State) :
  NoDup (connectedClients st) ->
  sends_return st (connectedClients st) = true ->
  let json := JSON_stringify event in
  let st' := exec (broadcastToClients event) st in
  let acts := since st st' in
  outcome (broadcastToClients event) st = Normal tt
  /\ List.filter is_stringify acts = [Stringify event]
  /\ List.filter is_send acts = fanout json st (connectedClients st)
  /\ length (List.filter is_send acts)
     = length (List.filter (isOpen st) (connectedClients st))
  /\ (forall c, c ∈ connectedClients st -> isOpen st c = true ->
        List.filter (is_send_to c) acts = [SendCall c json]
        /\ (onSend (sockets st c) = Delivers ->
            inbox (sockets st' c) = inbox (sockets st c) ++ [json]))
  /\ (forall c, c ∉ connectedClients st \/ isOpen st c = false ->
        List.filter (is_send_to c) acts = [] /\ sockets st' c = sockets st c).
Proof.
  intros Hnd Hret json st' acts.
  destruct (broadcast_returns event st Hnd Hret)
    as (st1 & Hrun & Hreg & Hcl & Hids & Hclk & Htr & Hs).
  assert (Hst' : st' = st1) by (unfold st', exec; rewrite Hrun; reflexivity).
  assert (Hacts : acts = Stringify event :: fanout json st (connectedClients st)).
  { unfold acts. apply since_app. rewrite Hst'. exact Htr. }
  destruct (fanout_sends json st (connectedClients st)) as (Hsend & Hstr & _).
  split; [unfold outcome; rewrite Hrun; reflexivity|].
  rewrite Hacts. simpl. rewrite Hsend, Hstr.
  split; [reflexivity|]. split; [reflexivity|].
  split; [unfold fanout; apply length_map|].
  split.
  - intros c Hin Hopen. rewrite fanout_to by assumption.
    rewrite decide_True by assumption. rewrite Hopen. split; [reflexivity|].
    intros Hdel. rewrite Hst', Hs, decide_True by assumption.
    unfold sent. unfold isOpen in Hopen. rewrite Hopen, Hdel. reflexivity.
  - intros c Hc. rewrite fanout_to by assumption. rewrite Hst', Hs.
    destruct (decide (c ∈ connectedClients st)) as [Hin|Hout]; [|split; reflexivity].
    destruct Hc as [Hc|Hc]; [contradiction|]. rewrite Hc.
    split; [reflexivity|]. apply sent_closed. exact Hc.
Qed.

(** ** A frame that is not JSON *)

Lemma trace_blind_now : trace_blind (now Date_now).
Proof.
  intros st. exists []. simpl. rewrite app_nil_r. split; [reflexivity|].
  intros t. rewrite app_nil_r. reflexivity.
Qed.

Lemma trace_blind_stringify (v : JValue) : trace_blind (stringify JSON_stringify v).
Proof.
  unfold stringify.
  apply trace_blind_bind; [apply trace_blind_emit|intros; apply trace_blind_ret].
Qed.

Lemma trace_blind_registry_set (k : JValue) (d : DeviceData) :
  trace_blind (registry_set k d).
Proof.
  unfold registry_set. apply trace_blind_bind; [apply trace_blind_emit|]. intros _.
  apply (trace_blind_update
           (fun st => with_registry (Map_set k d (deviceLatestData st)) st));
    reflexivity.
Qed.

Lemma trace_blind_broadcastToClients (message : JValue) :
  trace_blind (broadcastToClients message).
Proof.
  unfold Gateway.broadcastToClients.
  apply trace_blind_bind; [apply trace_blind_stringify|]. intros json.
  apply (trace_blind_reading connectedClients (fun l => forEach (sendIfOpen json) l));
    [reflexivity|].
  intros l. apply trace_blind_forEach, trace_blind_sendIfOpen.
Qed.

Ltac trace_blind_step :=
  first
    [ apply trace_blind_ret | apply trace_blind_liftC | apply trace_blind_emit
    | apply trace_blind_now | apply trace_blind_interpolate
    | apply trace_blind_stringify | apply trace_blind_registry_set
    | apply trace_blind_ws_send | apply trace_blind_broadcastToClients
    | apply trace_blind_bind; [|intro]
    | apply trace_blind_tryCatch; [|intro] ].

Lemma trace_blind_onMessage (c : Conn) (data : string) :
  trace_blind (onMessage c data).
Proof.
  unfold Gateway.onMessage, console_error.
  apply trace_blind_tryCatch; [|intro; apply trace_blind_emit].
  unfold Gateway.handleFrame, parse.
  apply trace_blind_bind; [apply trace_blind_liftC|intros message].
  apply trace_blind_bind; [apply trace_blind_liftC|intros ty].
  destruct (strictEqStr ty "temperature").
  - unfold onTemperature, storeTemperatureReading, console_log.
    do 4 (apply trace_blind_bind; [apply trace_blind_liftC|intro]).
    apply trace_blind_bind.
    { destruct (truthy _); repeat trace_blind_step. }
    intro. repeat trace_blind_step.
  - destruct (strictEqStr ty "handshake"); [|apply trace_blind_ret].
    unfold onHandshake, console_log. repeat trace_blind_step.
Qed.

(** C4. A frame whose text [JSON.parse] rejects is dropped with one line
    on the error log: the handler returns, makes no [send] and no registry
    write, and leaves the registry, the subscriber set (so the connection
    stays in it), every socket (none is closed) and the clock as they
    were; and any frame handled next, on this or another connection, ends
    as it would have without the bad frame, in the same registry, set and
    sockets and with the same actions. *)
Theorem C4_malformed_json_dropped (c : Conn) (data : string) (st : State) :
  JSON_parse data = None ->
  let st' := exec (onMessage c data) st in
  outcome (onMessage c data) st = Normal tt
  /\ since st st' = [ConsoleError (LogParseError SyntaxError)]
  /\ deviceLatestData st' = deviceLatestData st
  /\ connectedClients st' = connectedClients st
  /\ (c ∈ connectedClients st -> c ∈ connectedClients st')
  /\ sockets st' = sockets st
  /\ clock st' = clock st
  /\ (forall c2 data2,
        let after := exec (onMessage c2 data2) st' in
        let without := exec (onMessage c2 data2) st in
        outcome (onMessage c2 data2) st' = outcome (onMessage c2 data2) st
        /\ deviceLatestData after = deviceLatestData without
        /\ connectedClients after = connectedClients without
        /\ sockets after = sockets without
        /\ clock after = clock without
        /\ since st' after = since st without).
Proof.
  intros Hparse st'.
  assert (Hst' : onMessage c data st
                 = (Normal tt, with_trace (trace st ++ [ConsoleError (LogParseError SyntaxError)]) st)).
  { unfold Gateway.onMessage, tryCatch, Gateway.handleFrame, parse, liftC, bind.
    rewrite Hparse. reflexivity. }
  unfold st', exec, outcome. rewrite Hst'. simpl.
  split; [reflexivity|]. split; [apply since_app; reflexivity|].
  do 5 (split; [auto|]).
  intros c2 data2.
  destruct (trace_blind_onMessage c2 data2 st) as (acts & Htr & Hb).
  rewrite Hb. simpl. repeat split.
  unfold since. simpl. rewrite Htr, !drop_app_length. reflexivity.
Qed.

(** ** Reading the registry over HTTP *)

(** [GET /api/temperature/latest?deviceId=id] answers with what the
    registry holds for [id]; the empty id is falsy and gets the list of
    all readings. *)
Lemma api_temperature_latest_found (id : string) (d : DeviceData) (st : State) :
  id <> EmptyString ->
  GetLatest id st = Some d ->
  api_temperature_latest (JStr id) st = (Normal (mkResponse 200 (DeviceData_toJS d)), st).
Proof.
  intros Hid Hget. unfold api_temperature_latest. simpl.
  apply String.eqb_neq in Hid. rewrite Hid. simpl.
  unfold GetLatest in Hget. rewrite Hget. reflexivity.
Qed.

Lemma api_temperature_latest_all (st : State) :
  api_temperature_latest JUndefined st
  = (Normal (mkResponse 200 (JArr (map DeviceData_toJS (GetAll st)))), st).
Proof. reflexivity. Qed.

(** ** Temperature frames and the registry *)

Lemma GetLatest_after_temperature
      (c : Conn) (data : string) (message : JValue) (id : string) (st : State) :
  JSON_parse data = Some message ->
  has_type "temperature" message = true ->
  field "deviceId" message = JStr id ->
  GetLatest id (exec (onMessage c data) st)
  = Some (readingAt message (Date_now (clock st))).
Proof.
  intros Hparse Hty Hid.
  destruct (temperature_frame c data message st Hparse Hty)
    as (t & tail & Hreg & _).
  unfold GetLatest. rewrite Hreg, Hid. apply Map_get_set_str.
Qed.

(** C3. Two temperature frames for the same device id, with timestamps
    [t1 < t2], handled one after the other in either order: the registry
    read for that id returns the reading built from the frame handled
    last, whichever timestamp it has; and [set] on the registry replaces
    the entry of the id whatever was there. *)
Theorem C3_last_write_wins
        (id : string) (c1 c2 : Conn) (data1 data2 : string)
        (m1 m2 : JValue) (t1 t2 : float) (st : State) :
  JSON_parse data1 = Some m1 ->
  JSON_parse data2 = Some m2 ->
  has_type "temperature" m1 = true ->
  has_type "temperature" m2 = true ->
  field "deviceId" m1 = JStr id ->
  field "deviceId" m2 = JStr id ->
  field "timestamp" m1 = JNum t1 ->
  field "timestamp" m2 = JNum t2 ->
  (t1 <? t2)%float = true ->
  let st1 := exec (onMessage c1 data1) st in
  let st2 := exec (onMessage c2 data2) st in
  (GetLatest id (exec (onMessage c2 data2) st1)
   = Some (readingAt m2 (Date_now (clock st1)))
   /\ ambientTemp (readingAt m2 (Date_now (clock st1))) = field "ambientTemp" m2
   /\ objectTemp (readingAt m2 (Date_now (clock st1))) = field "objectTemp" m2)
  /\ (GetLatest id (exec (onMessage c1 data1) st2)
      = Some (readingAt m1 (Date_now (clock st2)))
      /\ ambientTemp (readingAt m1 (Date_now (clock st2))) = field "ambientTemp" m1
      /\ objectTemp (readingAt m1 (Date_now (clock st2))) = field "objectTemp" m1)
  /\ (forall (d : DeviceData) (registry : JSMap DeviceData),
        Map_get (JStr id) (Map_set (JStr id) d registry) = Some d).
Proof.
  intros Hp1 Hp2 Hty1 Hty2 Hid1 Hid2 _ _ _ st1 st2.
  repeat split; auto using GetLatest_after_temperature, @Map_get_set_str.
Qed.

(** C7 (amended). The reading stored for a temperature frame takes its
    timestamp from the frame's [timestamp] field when that field is truthy,
    so for every number other than 0 and NaN, and takes the gateway's
    [Date.now()] at receipt when the field is absent or falsy, so also when
    it is the number 0. *)
Theorem C7_timestamp_or_receipt_time
        (c : Conn) (data : string) (message : JValue) (id : string) (st : State) :
  JSON_parse data = Some message ->
  has_type "temperature" message = true ->
  field "deviceId" message = JStr id ->
  let ts := field "timestamp" message in
  let receipt := JNum (Date_now (clock st)) in
  exists d,
    GetLatest id (exec (onMessage c data) st) = Some d
    /\ timestamp d = (if truthy ts then ts else receipt)
    /\ (forall x, ts = JNum x -> is_zero x = false -> is_nan x = false ->
                  timestamp d = JNum x)
    /\ (forall x, ts = JNum x -> is_zero x = true -> timestamp d = receipt)
    /\ (ts = JUndefined -> timestamp d = receipt).
Proof.
  intros Hparse Hty Hid ts receipt.
  exists (readingAt message (Date_now (clock st))).
  split; [apply GetLatest_after_temperature; assumption|].
  unfold readingAt. simpl. fold ts. repeat split.
  - intros x Hx Hz Hn. rewrite Hx. simpl. rewrite Hz, Hn. reflexivity.
  - intros x Hx Hz. rewrite Hx. simpl. rewrite Hz. reflexivity.
  - intros Hx. rewrite Hx. reflexivity.
Qed.

(** C10. For every frame that enters the temperature branch, the first
    thing the handler does is write the reading to the registry, and no
    other registry write follows; every [send] made afterwards carries the
    serialized [temperature-update] whose [data] field is that very
    reading, which holds the frame's [deviceId], [ambientTemp] and
    [objectTemp]; so the registry read for the device id right after the
    frame returns what was sent, and a socket has received either nothing
    or exactly that one frame.  When the log line can be written and no
    [send] throws, the sends are made: one to every open subscriber, of
    that event stamped with the time of the broadcast, and a subscriber
    whose socket delivers has received it. *)
Theorem C10_broadcast_carries_stored_reading
        (c : Conn) (data : string) (message : JValue) (st : State) :
  JSON_parse data = Some message ->
  has_type "temperature" message = true ->
  let st' := exec (onMessage c data) st in
  exists (d : DeviceData) (t : float) (tail : list Action),
    let event := temperature_update d t in
    since st st' = RegistrySet (field "deviceId" message) d :: tail
    /\ List.filter is_registry_set tail = []
    /\ (forall a, a ∈ tail -> is_send a = true ->
          exists c', a = SendCall c' (JSON_stringify event)
                     /\ c' ∈ connectedClients st)
    /\ field "data" event = DeviceData_toJS d
    /\ (deviceId d = field "deviceId" message
        /\ ambientTemp d = field "ambientTemp" message
        /\ objectTemp d = field "objectTemp" message)
    /\ (forall id, field "deviceId" message = JStr id -> GetLatest id st' = Some d)
    /\ (NoDup (connectedClients st) ->
        forall c', inbox (sockets st' c') = inbox (sockets st c')
                   \/ inbox (sockets st' c') = inbox (sockets st c') ++ [JSON_stringify event])
    /\ (loggable message = true ->
        NoDup (connectedClients st) ->
        sends_return st (connectedClients st) = true ->
        t = broadcastTime Date_now message st
        /\ List.filter is_send tail
           = fanout (JSON_stringify event) st (connectedClients st)
        /\ (forall c', c' ∈ connectedClients st -> isOpen st c' = true ->
                       onSend (sockets st c') = Delivers ->
                       inbox (sockets st' c')
                       = inbox (sockets st c') ++ [JSON_stringify event])).
Proof.
  intros Hparse Hty st'.
  assert (Hany : forall P : Prop,
             ~ P ->
             exists (d : DeviceData) (t : float) (tail : list Action),
               let event := temperature_update d t in
               since st st' = RegistrySet (field "deviceId" message) d :: tail
               /\ List.filter is_registry_set tail = []
               /\ (forall a, a ∈ tail -> is_send a = true ->
                     exists c', a = SendCall c' (JSON_stringify event)
                                /\ c' ∈ connectedClients st)
               /\ field "data" event = DeviceData_toJS d
               /\ (deviceId d = field "deviceId" message
                   /\ ambientTemp d = field "ambientTemp" message
                   /\ objectTemp d = field "objectTemp" message)
               /\ (forall id, field "deviceId" message = JStr id ->
                              GetLatest id st' = Some d)
               /\ (NoDup (connectedClients st) ->
                   forall c', inbox (sockets st' c') = inbox (sockets st c')
                              \/ inbox (sockets st' c')
                                 = inbox (sockets st c') ++ [JSON_stringify event])
               /\ (P -> t = broadcastTime Date_now message st
                        /\ List.filter is_send tail
                           = fanout (JSON_stringify event) st (connectedClients st)
                        /\ (forall c', c' ∈ connectedClients st -> isOpen st c' = true ->
                                       onSend (sockets st c') = Delivers ->
                                       inbox (sockets st' c')
                                       = inbox (sockets st c') ++ [JSON_stringify event]))).
  { intros P HP.
    destruct (temperature_frame c data message st Hparse Hty)
      as (t & tail & Hreg & Hsince & Hnoset & Hsends & Hs).
    exists (readingAt message (Date_now (clock st))), t, tail.
    split; [exact Hsince|]. split; [exact Hnoset|]. split; [exact Hsends|].
    split; [reflexivity|]. split; [repeat split|].
    split; [intros id Hid; apply GetLatest_after_temperature; assumption|].
    split; [|intros H; contradiction].
    intros Hnd c'. destruct (Hs Hnd c') as [H|[_ H]]; fold st' in H; rewrite H; auto. }
  destruct (loggable message) eqn:Hlog.
  2:{ destruct (Hany False (fun H => H)) as (d & t & tail & H1 & H2 & H3 & H4 & H5 & H6 & H7 & _).
      exists d, t, tail. repeat (split; [assumption|]). intros H. discriminate H. }
  destruct (decide (NoDup (connectedClients st))) as [Hnd|Hnd].
  2:{ destruct (Hany _ Hnd) as (d & t & tail & H1 & H2 & H3 & H4 & H5 & H6 & H7 & H8).
      exists d, t, tail. repeat (split; [assumption|]). intros _ H _. exact (H8 H). }
  destruct (sends_return st (connectedClients st)) eqn:Hret.
  2:{ destruct (Hany False (fun H => H)) as (d & t & tail & H1 & H2 & H3 & H4 & H5 & H6 & H7 & _).
      exists d, t, tail. repeat (split; [assumption|]). intros _ _ H. discriminate H. }
  destruct (temperature_frame_delivered c data message st Hparse Hty Hlog Hnd Hret)
    as (Hreg & Hsince & Hs).
  set (d := readingAt message (Date_now (clock st))) in *.
  set (t := broadcastTime Date_now message st) in *.
  set (json := JSON_stringify (temperature_update d t)) in *.
  fold st' in Hreg, Hsince, Hs.
  destruct (fanout_sends json st (connectedClients st)) as (Hsend & _ & Hnone).
  assert (Hdelivered : forall c', c' ∈ connectedClients st -> isOpen st c' = true ->
                                  onSend (sockets st c') = Delivers ->
                                  inbox (sockets st' c') = inbox (sockets st c') ++ [json]).
  { intros c' Hin Hopen Hdel. rewrite Hs, decide_True by assumption.
    unfold sent. unfold isOpen in Hopen. rewrite Hopen, Hdel. reflexivity. }
  exists d, t,
    ([ConsoleLog (LogTemperature (field "deviceId" message)
                                 (field "ambientTemp" message) (field "objectTemp" message));
      Stringify (temperature_update d t)]
       ++ fanout json st (connectedClients st)
       ++ [ConsoleLog (LogDB (field "deviceId" message)
                             (field "ambientTemp" message) (field "objectTemp" message))]).
  split; [exact Hsince|]. split; [|split; [|split; [|split; [|split; [|split]]]]].
  - simpl. rewrite List.filter_app, Hnone. reflexivity.
  - intros a Ha Hsent.
    do 2 (apply elem_of_cons in Ha as [->|Ha]; [discriminate Hsent|]).
    apply elem_of_app in Ha as [Ha|Ha];
      [|apply list_elem_of_singleton in Ha as ->; discriminate Hsent].
    unfold fanout in Ha. apply list_elem_of_fmap in Ha as (c' & -> & Hc').
    exists c'. split; [reflexivity|].
    apply list_elem_of_In, filter_In in Hc' as [Hc' _]. apply list_elem_of_In, Hc'.
  - reflexivity.
  - repeat split.
  - intros id Hid. apply GetLatest_after_temperature; assumption.
  - intros _ c'. rewrite Hs.
    destruct (decide (c' ∈ connectedClients st)); [|left; reflexivity].
    unfold sent. destruct (readyState (sockets st c') =? OPEN)%Z; [|left; reflexivity].
    destruct (onSend (sockets st c')); [right|left|left]; reflexivity.
  - intros _ _ _. split; [reflexivity|]. split; [|exact Hdelivered].
    simpl. rewrite List.filter_app, Hsend. simpl. apply app_nil_r.
Qed.

(** C1 (amended). A frame of type [temperature] that lacks [deviceId],
    [ambientTemp] or [objectTemp] is not dropped.  The handler stores a
    reading whose missing fields are undefined under the frame's
    [deviceId] (under the key undefined when that is the missing one), so
    the registry read for a device id given as a string returns that
    reading afterwards; when the fields that are present can be written to
    the log line and every [send] returns, the [temperature-update] built
    from the reading is sent to every open subscriber; and the subscriber
    set is left as it was, so the connection stays in it. *)
Theorem C1_incomplete_frame_is_stored_and_broadcast
        (c : Conn) (data : string) (message : JValue) (st : State) :
  JSON_parse data = Some message ->
  has_type "temperature" message = true ->
  (field "deviceId" message = JUndefined
   \/ field "ambientTemp" message = JUndefined
   \/ field "objectTemp" message = JUndefined) ->
  let d := readingAt message (Date_now (clock st)) in
  let json := JSON_stringify (temperature_update d (broadcastTime Date_now message st)) in
  let st' := exec (onMessage c data) st in
  deviceLatestData st' = Map_set (field "deviceId" message) d (deviceLatestData st)
  /\ (forall id, field "deviceId" message = JStr id -> GetLatest id st' = Some d)
  /\ (field "deviceId" message = JUndefined ->
      Map_get JUndefined (deviceLatestData st') = Some d)
  /\ (loggable message = true ->
      NoDup (connectedClients st) ->
      sends_return st (connectedClients st) = true ->
      List.filter is_send (since st st') = fanout json st (connectedClients st)
      /\ (forall c', c' ∈ connectedClients st -> isOpen st c' = true ->
                     onSend (sockets st c') = Delivers ->
                     inbox (sockets st' c') = inbox (sockets st c') ++ [json]))
  /\ connectedClients st' = connectedClients st
  /\ (c ∈ connectedClients st -> c ∈ connectedClients st').
Proof.
  intros Hparse Hty _ d json st'.
  destruct (temperature_frame c data message st Hparse Hty) as (t & tail & Hreg & _).
  fold d st' in Hreg.
  assert (Hcl : connectedClients st' = connectedClients st)
    by apply (keeps_onMessage c data st).
  split; [exact Hreg|]. split; [|split; [|split; [|split]]].
  - intros id Hid. apply GetLatest_after_temperature; assumption.
  - intros Hid. rewrite Hreg, Hid. apply Map_get_set_undefined.
  - intros Hlog Hnd Hret.
    destruct (temperature_frame_delivered c data message st Hparse Hty Hlog Hnd Hret)
      as (_ & Hsince & Hs).
    fold d in Hsince. fold json in Hsince, Hs. fold st' in Hsince, Hs.
    split.
    + rewrite Hsince. simpl. rewrite List.filter_app.
      destruct (fanout_sends json st (connectedClients st)) as (-> & _).
      simpl. apply app_nil_r.
    + intros c' Hin Hopen Hdel. rewrite Hs, decide_True by assumption.
      unfold sent. unfold isOpen in Hopen. rewrite Hopen, Hdel. reflexivity.
  - exact Hcl.
  - rewrite Hcl. auto.
Qed.

(** ** Handshake frames *)

Lemma strictEqStr_other (v : JValue) (a b : string) :
  strictEqStr v a = true -> a <> b -> strictEqStr v b = false.
Proof.
  destruct v; simpl; try discriminate. intros Ha Hne.
  apply String.eqb_eq in Ha as ->. apply String.eqb_neq, Hne.
Qed.

(** C6 (amended). For a frame of type [handshake] whose [deviceId] and
    [deviceName] can be converted to a string for the log line, the
    gateway makes exactly one [send]: to the connection the frame came in
    on, of the serialized [{type: 'handshake-ack', message, timestamp}]
    with the gateway's [Date.now()].  No other socket is touched, and the
    registry and the subscriber set are left as they were. *)
Theorem C6_handshake_ack_to_sender_only
        (c : Conn) (data : string) (message : JValue) (st : State) :
  JSON_parse data = Some message ->
  has_type "handshake" message = true ->
  convertible (field "deviceId" message) = true ->
  convertible (field "deviceName" message) = true ->
  let ack := handshake_ack (Date_now (clock st)) in
  let json := JSON_stringify ack in
  let st' := exec (onMessage c data) st in
  List.filter is_send (since st st') = [SendCall c json]
  /\ List.filter is_stringify (since st st') = [Stringify ack]
  /\ (field "type" ack = JStr "handshake-ack"
      /\ field "message" ack = JStr "Welcome to Temperature Monitor"
      /\ field "timestamp" ack = JNum (Date_now (clock st)))
  /\ (forall c', c' <> c -> sockets st' c' = sockets st c')
  /\ (onSend (sockets st c) = Delivers ->
      inbox (sockets st' c) = inbox (sockets st c) ++ [json])
  /\ deviceLatestData st' = deviceLatestData st
  /\ List.filter is_registry_set (since st st') = []
  /\ connectedClients st' = connectedClients st.
Proof.
  intros Hparse Hty Hid Hname ack json st'.
  destruct (has_type_object _ _ Hty) as (props & -> & Htype).
  assert (Hrun : st' = exec (onHandshake JSON_stringify Date_now c (JObj props)) st
                 \/ exists msg, onSend (sockets st c) = Raises msg
                    /\ st' = exec (emit (ConsoleError (LogParseError (TransportError msg))))
                               (exec (onHandshake JSON_stringify Date_now c (JObj props)) st)).
  { unfold st', exec, Gateway.onMessage, tryCatch, Gateway.handleFrame, parse, liftC, bind.
    rewrite Hparse. simpl.
    rewrite (strictEqStr_other _ _ "temperature" Htype) by discriminate.
    rewrite Htype.
    unfold field in Hid, Hname. simpl in Hid, Hname.
    unfold onHandshake, interpolate, console_log, ws_send, stringify,
      console_error, liftC, bind, emit, now, ret. simpl. rewrite Hid, Hname. simpl.
    destruct (onSend (sockets st c)) eqn:Hb; simpl; eauto. }
  unfold field in Hid, Hname. simpl in Hid, Hname.
  assert (Hmain :
    let st1 := exec (onHandshake JSON_stringify Date_now c (JObj props)) st in
    trace st1 = trace st ++ [ConsoleLog (LogHandshake (lookupProp "deviceId" props)
                                                       (lookupProp "deviceName" props));
                             Stringify ack; SendCall c json]
    /\ (forall c', c' <> c -> sockets st1 c' = sockets st c')
    /\ (onSend (sockets st c) = Delivers ->
        inbox (sockets st1 c) = inbox (sockets st c) ++ [json])
    /\ deviceLatestData st1 = deviceLatestData st
    /\ connectedClients st1 = connectedClients st).
  { unfold exec, onHandshake, interpolate, console_log, ws_send, stringify,
      liftC, bind, emit, now, ret. simpl. rewrite Hid, Hname. simpl.
    destruct (onSend (sockets st c)) eqn:Hb; simpl; rewrite <- !app_assoc; simpl;
      repeat split; auto; try discriminate.
    - intros c' Hc'. rewrite fn_lookup_insert_ne by congruence. reflexivity.
    - intros _. rewrite fn_lookup_insert. reflexivity. }
  destruct Hmain as (Htr & Hother & Hin & Hreg & Hcl).
  split; [|split; [|split; [|split; [|split; [|split; [|split]]]]]].
  3: repeat split.
  all: destruct Hrun as [->|(msg & Hb & ->)]; simpl;
       rewrite ?Hb in *; try assumption; try discriminate.
  all: unfold since; simpl; rewrite Htr, <- ?app_assoc, drop_app_length; reflexivity.
Qed.

(** ** A send that fails *)

(** C5 (amended). When no [send] of a broadcast throws, a subscriber whose
    [send] fails, the call returning and the transport reporting the
    failure by the socket's [error] event, does not keep the event from
    the other open subscribers and does not make [broadcastToClients]
    fail; the [error] handler then takes that subscriber, and no other,
    out of the subscriber set. *)
Theorem C5_failure_reported_by_error_event
        (event : JValue) (failing : Conn) (message : string) (st : State) :
  NoDup (connectedClients st) ->
  sends_return st (connectedClients st) = true ->
  failing ∈ connectedClients st ->
  onSend (sockets st failing) = Drops ->
  let st' := exec (broadcastToClients event) st in
  let st'' := exec (onError failing message) st' in
  failure_tolerated JSON_stringify event failing st
  /\ inbox (sockets st' failing) = inbox (sockets st failing)
  /\ outcome (onError failing message) st' = Normal tt
  /\ (failing ∉ connectedClients st'')
  /\ (forall c, c <> failing -> (c ∈ connectedClients st'' <-> c ∈ connectedClients st))
  /\ sockets st'' = sockets st'
  /\ deviceLatestData st'' = deviceLatestData st.
Proof using JSON_stringify.
  intros Hnd Hret Hin Hdrop st' st''.
  destruct (broadcast_returns event st Hnd Hret)
    as (st1 & Hrun & Hreg & Hcl & _ & _ & _ & Hs).
  assert (Hst' : st' = st1) by (unfold st', exec; rewrite Hrun; reflexivity).
  split; [|split; [|split; [|split; [|split; [|split]]]]].
  - split; [unfold outcome; rewrite Hrun; reflexivity|].
    intros c Hc _ Hop Hdel. fold st'. rewrite Hst', Hs, decide_True by assumption.
    unfold sent. unfold isOpen in Hop. rewrite Hop, Hdel. reflexivity.
  - rewrite Hst', Hs, decide_True by assumption.
    unfold sent. rewrite Hdrop. destruct (readyState _ =? OPEN)%Z; reflexivity.
  - reflexivity.
  - unfold st'', exec, onError, bind, console_error, emit. simpl.
    rewrite Set_delete_spec. intros [_ Hne]. apply Hne. reflexivity.
  - intros c Hc. unfold st'', exec, onError, bind, console_error, emit. simpl.
    rewrite Set_delete_spec, Hst', Hcl. split; [intros [H _]; exact H|auto].
  - reflexivity.
  - unfold st'', exec, onError, bind, console_error, emit. simpl.
    rewrite Hst'. exact Hreg.
Qed.

(** ** Membership in the subscriber set *)

Lemma step_clients (ev : Event) (st : State) :
  connectedClients (step ev st) =
  match ev with
  | Upgrade url c =>
      if String.eqb (match url with Some u => u | None => EmptyString end)
                    "/ws/temperature"
      then Set_add c (connectedClients st) else connectedClients st
  | Connected c => Set_add c (connectedClients st)
  | Closed c | Errored c _ => Set_delete c (connectedClients st)
  | _ => connectedClients st
  end.
Proof.
  destruct ev as [url c|c|c data|c|c msg|c rs b|q|b]; try reflexivity.
  - unfold Gateway.step, exec, onUpgrade.
    destruct (String.eqb _ "/ws/temperature"); reflexivity.
  - apply (keeps_onMessage c data st).
  - unfold Gateway.step, exec, api_temperature_latest.
    destruct (truthy q); [destruct (Map_get _ _)|]; reflexivity.
  - apply (keeps_api_temperature_alert b st).
Qed.

Lemma step_NoDup (ev : Event) (st : State) :
  NoDup (connectedClients st) -> NoDup (connectedClients (step ev st)).
Proof.
  intros Hnd. rewrite step_clients.
  destruct ev; try destruct (String.eqb _ _);
    auto using Set_add_NoDup, Set_delete_NoDup.
Qed.

Lemma run_NoDup (evs : list Event) (st : State) :
  NoDup (connectedClients st) -> NoDup (connectedClients (run evs st)).
Proof.
  revert st. induction evs as [|ev evs IH]; intros st Hnd; [exact Hnd|].
  apply IH, step_NoDup, Hnd.
Qed.

Lemma step_member (c : Conn) (ev : Event) (st : State) :
  closes c ev = false ->
  c ∈ connectedClients st -> c ∈ connectedClients (step ev st).
Proof.
  intros Hev Hin. rewrite step_clients.
  destruct ev; try destruct (String.eqb _ _); simpl in Hev; try assumption.
  1, 2: apply Set_add_spec; auto.
  all: apply Set_delete_spec; split; [assumption|];
       apply Nat.eqb_neq in Hev; congruence.
Qed.

(** Every state the gateway reaches from its start has a duplicate-free
    subscriber set. *)
Lemma reachable_NoDup (evs : list Event) :
  NoDup (connectedClients (run evs initial)).
Proof. apply run_NoDup. apply NoDup_nil_2. Qed.

Lemma run_member (c : Conn) (evs : list Event) (st : State) :
  existsb (closes c) evs = false ->
  c ∈ connectedClients st -> c ∈ connectedClients (run evs st).
Proof.
  revert st. induction evs as [|ev evs IH]; intros st Hevs Hin; [exact Hin|].
  simpl in Hevs. apply orb_false_elim in Hevs as [Hev Hevs].
  apply IH; [exact Hevs|]. apply step_member; assumption.
Qed.

(** C8 (amended). Accepting a connection (the [connection] handler, which
    an upgrade on the gateway's path runs) always succeeds and puts it in
    the subscriber set, and it is still there after any run of events that
    has no [close] or [error] of that connection, whose [close] then takes
    it out.  At every point of such a run a broadcast in which no [send]
    throws is delivered to the connection if its socket is open and
    delivers, and so is the [temperature-update] of a temperature frame
    that came in on this very connection and whose fields can be written
    to the log line: senders of telemetry are not left out. *)
Theorem C8_subscribed_from_accept_until_close
        (c : Conn) (evs : list Event) (st : State) :
  existsb (closes c) evs = false ->
  let st0 := exec (onConnection c) st in
  let st1 := run evs st0 in
  step (Upgrade (Some "/ws/temperature") c) st = st0
  /\ outcome (onConnection c) st = Normal tt
  /\ c ∈ connectedClients st0
  /\ c ∈ connectedClients st1
  /\ (c ∉ connectedClients (step (Closed c) st1))
  /\ (forall event,
        NoDup (connectedClients st) ->
        sends_return st1 (connectedClients st1) = true ->
        isOpen st1 c = true -> onSend (sockets st1 c) = Delivers ->
        inbox (sockets (exec (broadcastToClients event) st1) c)
        = inbox (sockets st1 c) ++ [JSON_stringify event])
  /\ (forall data message,
        JSON_parse data = Some message ->
        has_type "temperature" message = true ->
        loggable message = true ->
        NoDup (connectedClients st) ->
        sends_return st1 (connectedClients st1) = true ->
        isOpen st1 c = true -> onSend (sockets st1 c) = Delivers ->
        inbox (sockets (exec (onMessage c data) st1) c)
        = inbox (sockets st1 c)
          ++ [JSON_stringify
                (temperature_update (readingAt message (Date_now (clock st1)))
                                    (broadcastTime Date_now message st1))]).
Proof.
  intros Hevs st0 st1.
  assert (Hin0 : c ∈ connectedClients st0).
  { unfold st0, exec, Gateway.onConnection, bind, now, console_log, emit. simpl.
    apply Set_add_spec. auto. }
  assert (Hnd0 : NoDup (connectedClients st) -> NoDup (connectedClients st0)).
  { intros Hnd. unfold st0, exec, Gateway.onConnection, bind, now, console_log, emit. simpl.
    apply Set_add_NoDup, Hnd. }
  assert (Hin1 : c ∈ connectedClients st1) by (apply run_member; assumption).
  assert (Hnd1 : NoDup (connectedClients st) -> NoDup (connectedClients st1))
    by (intros Hnd; apply run_NoDup, Hnd0, Hnd).
  split; [reflexivity|].
  split; [reflexivity|]. split; [exact Hin0|]. split; [exact Hin1|].
  split; [rewrite step_clients, Set_delete_spec; intros [_ Hne]; apply Hne; reflexivity|].
  split.
  - intros event Hnd Hret Hopen Hdel.
    destruct (broadcast_returns event st1 (Hnd1 Hnd) Hret)
      as (st2 & Hrun & _ & _ & _ & _ & _ & Hs).
    unfold exec. rewrite Hrun. simpl. rewrite Hs, decide_True by assumption.
    unfold sent. unfold isOpen in Hopen. rewrite Hopen, Hdel. reflexivity.
  - intros data message Hparse Hty Hlog Hnd Hret Hopen Hdel.
    destruct (temperature_frame_delivered c data message st1 Hparse Hty Hlog (Hnd1 Hnd) Hret)
      as (_ & _ & Hs).
    rewrite Hs, decide_True by assumption.
    unfold sent. unfold isOpen in Hopen. rewrite Hopen, Hdel. reflexivity.
Qed.

(** C9. Handling [close] twice for a connection leaves the subscriber
    set, the device registry and every socket (this one and all others)
    as handling it once does; when the connection is not in the set, the
    handler changes none of them. *)
Theorem C9_close_idempotent (c : Conn) (st : State) :
  let once := exec (onClose c) st in
  let twice := exec (onClose c) once in
  (connectedClients twice = connectedClients once
   /\ deviceLatestData twice = deviceLatestData once
   /\ sockets twice = sockets once
   /\ outcome (onClose c) once = Normal tt)
  /\ deviceLatestData once = deviceLatestData st
  /\ sockets once = sockets st
  /\ (c ∉ connectedClients st -> connectedClients once = connectedClients st).
Proof.
  unfold exec, outcome, onClose, bind, console_log, emit; simpl.
  repeat split.
  - apply Set_delete_idem.
  - apply Set_delete_absent.
Qed.

End Properties.

(** * The properties on concrete runs *)

Ltac by_decide := apply (bool_decide_unpack _); vm_compute; exact I.

Lemma C2_witness :
  let st := three_one_closing in
  let st' := exec (sample_broadcast sample_alert) st in
  (NoDup (connectedClients st) /\ sends_return st (connectedClients st) = true)
  /\ outcome (sample_broadcast sample_alert) st = Normal tt
  /\ List.filter is_stringify (since st st') = [Stringify sample_alert]
  /\ inbox (sockets st' 1) = inbox (sockets st 1) ++ [sample_stringify sample_alert]
  /\ inbox (sockets st' 3) = inbox (sockets st 3) ++ [sample_stringify sample_alert]
  /\ sockets st' 2 = sockets st 2.
Proof.
  intros st st'.
  assert (Hnd : NoDup (connectedClients st)) by by_decide.
  assert (Hret : sends_return st (connectedClients st) = true) by (vm_compute; reflexivity).
  destruct (C2_fanout_complete sample_stringify sample_alert st Hnd Hret)
    as (Hout & Hstr & _ & _ & Hopen & Hclosed).
  split; [split; assumption|]. split; [exact Hout|]. split; [exact Hstr|].
  split; [|split].
  - apply (Hopen 1); [by_decide|reflexivity|reflexivity].
  - apply (Hopen 3); [by_decide|reflexivity|reflexivity].
  - apply (Hclosed 2). right. reflexivity.
Defined.

(** Three subscribers, all open, the [send] of the second one throws: the
    first is sent the event, the broadcast ends in that exception, and the
    third, whose socket is open and delivers, is sent nothing. *)
Lemma C2_counterexample :
  let st := second_send_throws in
  let st' := exec (sample_broadcast sample_alert) st in
  connectedClients st = [1; 2; 3]
  /\ (isOpen st 1 = true /\ isOpen st 2 = true /\ isOpen st 3 = true)
  /\ onSend (sockets st 2) = Raises "EPIPE"
  /\ onSend (sockets st 3) = Delivers
  /\ outcome (sample_broadcast sample_alert) st = Throw (TransportError "EPIPE")
  /\ List.filter is_send (since st st')
     = [SendCall 1 (sample_stringify sample_alert);
        SendCall 2 (sample_stringify sample_alert)]
  /\ List.filter (is_send_to 3) (since st st') = []
  /\ inbox (sockets st' 3) = inbox (sockets st 3)
  /\ ~ serves_every_open_subscriber sample_stringify sample_alert st.
Proof.
  repeat split; try (vm_compute; reflexivity).
  intros [_ Hserved].
  assert (Hin : 3 ∈ connectedClients second_send_throws) by by_decide.
  specialize (Hserved 3 Hin eq_refl). vm_compute in Hserved. discriminate Hserved.
Qed.

Lemma C9_witness :
  let once := exec (onClose 3) two_subscribers in
  let twice := exec (onClose 1) (exec (onClose 1) two_subscribers) in
  (3 ∉ connectedClients two_subscribers)
  /\ connectedClients once = connectedClients two_subscribers
  /\ connectedClients twice = connectedClients (exec (onClose 1) two_subscribers).
Proof.
  assert (Hout : 3 ∉ connectedClients two_subscribers) by by_decide.
  destruct (C9_close_idempotent 3 two_subscribers) as (_ & _ & _ & Hnoop).
  destruct (C9_close_idempotent 1 two_subscribers) as ((Hsame & _) & _).
  split; [exact Hout|]. split; [exact (Hnoop Hout)|exact Hsame].
Defined.

Lemma C3_witness :
  let st := two_subscribers in
  let early_then_late :=
    exec (sample_onMessage 1 frame_D1_t2000) (exec (sample_onMessage 1 frame_D1_t1000) st) in
  let late_then_early :=
    exec (sample_onMessage 1 frame_D1_t1000) (exec (sample_onMessage 1 frame_D1_t2000) st) in
  (1000 <? 2000)%float = true
  /\ timestamp <$> GetLatest "D1" early_then_late = Some (JNum 2000)
  /\ timestamp <$> GetLatest "D1" late_then_early = Some (JNum 1000).
Proof.
  intros st early_then_late late_then_early.
  destruct (C3_last_write_wins sample_parse sample_stringify sample_clock
              "D1" 1 1 frame_D1_t1000 frame_D1_t2000
              (frame_D1_at 1000) frame_D1_later 1000 2000 st)
    as ((Hlate & _) & (Hearly & _) & _); try reflexivity.
  split; [reflexivity|]. split.
  - unfold early_then_late, sample_onMessage. rewrite Hlate. reflexivity.
  - unfold late_then_early, sample_onMessage. rewrite Hearly. reflexivity.
Defined.

Lemma C7_witness :
  let st := two_subscribers in
  (exists d, GetLatest "D1" (exec (sample_onMessage 1 frame_D1_t1000) st) = Some d
             /\ timestamp d = JNum 1000)
  /\ (exists d, GetLatest "D1" (exec (sample_onMessage 1 frame_D1_t0) st) = Some d
                /\ timestamp d = JNum (sample_clock (clock st)))
  /\ (exists d, GetLatest "D1" (exec (sample_onMessage 1 frame_D1) st) = Some d
                /\ timestamp d = JNum (sample_clock (clock st))).
Proof.
  intros st. split; [|split].
  - destruct (C7_timestamp_or_receipt_time sample_parse sample_stringify sample_clock
                1 frame_D1_t1000 (frame_D1_at 1000) "D1" st)
      as (d & Hget & _ & Hnum & _); try reflexivity.
    exists d. split; [exact Hget|]. apply (Hnum 1000%float); reflexivity.
  - destruct (C7_timestamp_or_receipt_time sample_parse sample_stringify sample_clock
                1 frame_D1_t0 (frame_D1_at 0) "D1" st)
      as (d & Hget & _ & _ & Hzero & _); try reflexivity.
    exists d. split; [exact Hget|]. apply (Hzero 0%float); reflexivity.
  - destruct (C7_timestamp_or_receipt_time sample_parse sample_stringify sample_clock
                1 frame_D1
                (JObj [("type", JStr "temperature"); ("deviceId", JStr "D1");
                       ("ambientTemp", JNum 24.5); ("objectTemp", JNum 32.1)])
                "D1" st)
      as (d & Hget & _ & _ & _ & Habsent); try reflexivity.
    exists d. split; [exact Hget|]. apply Habsent. reflexivity.
Defined.

(** The frame of a device that reports the timestamp 0 is stored with the
    gateway's clock instead. *)
Lemma C7_counterexample :
  let st' := exec (sample_onMessage 1 frame_D1_t0) two_subscribers in
  sample_parse frame_D1_t0 = Some (frame_D1_at 0)
  /\ field "timestamp" (frame_D1_at 0) = JNum 0
  /\ timestamp <$> GetLatest "D1" st' = Some (JNum 1700000000002)
  /\ timestamp <$> GetLatest "D1" st' <> Some (JNum 0).
Proof.
  repeat split; try (vm_compute; reflexivity).
  intros H.
  apply (f_equal (fun o => match o with Some v => truthy v | None => false end)) in H.
  vm_compute in H. discriminate H.
Qed.

Lemma C10_witness :
  let st := two_subscribers in
  let st' := exec (sample_onMessage 1 frame_D1) st in
  exists d t tail,
    since st st' = RegistrySet (JStr "D1") d :: tail
    /\ GetLatest "D1" st' = Some d
    /\ List.filter is_send tail
       = [SendCall 1 (sample_stringify (temperature_update d t));
          SendCall 2 (sample_stringify (temperature_update d t))]
    /\ inbox (sockets st' 2)
       = inbox (sockets st 2) ++ [sample_stringify (temperature_update d t)]
    /\ (forall c', inbox (sockets st' c') = inbox (sockets st c')
                   \/ inbox (sockets st' c')
                      = inbox (sockets st c') ++ [sample_stringify (temperature_update d t)]).
Proof.
  intros st st'.
  assert (Hnd : NoDup (connectedClients st)) by by_decide.
  assert (Hret : sends_return st (connectedClients st) = true) by (vm_compute; reflexivity).
  destruct (C10_broadcast_carries_stored_reading sample_parse sample_stringify sample_clock
              1 frame_D1
              (JObj [("type", JStr "temperature"); ("deviceId", JStr "D1");
                     ("ambientTemp", JNum 24.5); ("objectTemp", JNum 32.1)])
              st)
    as (d & t & tail & Hsince & _ & _ & _ & _ & Hget & Hinbox & Hmade); try reflexivity.
  destruct (Hmade eq_refl Hnd Hret) as (_ & Hfan & Hdelivered).
  exists d, t, tail. split; [exact Hsince|]. split; [|split; [|split]].
  - apply (Hget "D1"). reflexivity.
  - refine (eq_trans Hfan _).
    generalize (sample_stringify (temperature_update d t)). intros json.
    vm_compute. reflexivity.
  - apply Hdelivered; [by_decide|reflexivity|reflexivity].
  - apply Hinbox. exact Hnd.
Defined.

Lemma C1_witness :
  let st := two_subscribers in
  let st' := exec (sample_onMessage 1 frame_D2_missing) st in
  let d := mkDeviceData (JStr "D2") JUndefined JUndefined (JNum (sample_clock 2)) in
  let json := sample_stringify (temperature_update d (sample_clock 3)) in
  (sample_parse frame_D2_missing
   = Some (JObj [("type", JStr "temperature"); ("deviceId", JStr "D2")])
   /\ NoDup (connectedClients st)
   /\ sends_return st (connectedClients st) = true)
  /\ GetLatest "D2" st' = Some d
  /\ inbox (sockets st' 2) = inbox (sockets st 2) ++ [json]
  /\ (1 ∈ connectedClients st').
Proof.
  intros st st' d json.
  assert (Hnd : NoDup (connectedClients st)) by by_decide.
  assert (Hret : sends_return st (connectedClients st) = true) by (vm_compute; reflexivity).
  destruct (C1_incomplete_frame_is_stored_and_broadcast
              sample_parse sample_stringify sample_clock
              1 frame_D2_missing
              (JObj [("type", JStr "temperature"); ("deviceId", JStr "D2")]) st)
    as (_ & Hget & _ & Hsent & _ & Hstays);
    try reflexivity; [right; left; reflexivity|].
  destruct (Hsent eq_refl Hnd Hret) as (_ & Hinbox).
  split; [split; [reflexivity|split; assumption]|]. split; [|split].
  - apply (Hget "D2"). reflexivity.
  - apply (Hinbox 2); [by_decide|reflexivity|reflexivity].
  - apply Hstays. by_decide.
Defined.

(** The frame of scenario 3, [{type: 'temperature', deviceId: 'D2'}], with
    two dashboards connected: D2 was absent from the registry and is
    present afterwards, and both dashboards are sent an update. *)
Lemma C1_counterexample :
  let st := two_subscribers in
  let st' := exec (sample_onMessage 1 frame_D2_missing) st in
  sample_parse frame_D2_missing
  = Some (JObj [("type", JStr "temperature"); ("deviceId", JStr "D2")])
  /\ GetLatest "D2" st = None
  /\ GetLatest "D2" st'
     = Some (mkDeviceData (JStr "D2") JUndefined JUndefined (JNum 1700000000002))
  /\ GetLatest "D2" st' <> GetLatest "D2" st
  /\ length (List.filter is_send (since st st')) = 2
  /\ length (inbox (sockets st 2)) = 0
  /\ length (inbox (sockets st' 2)) = 1.
Proof.
  repeat split; try (vm_compute; reflexivity).
  vm_compute. discriminate.
Qed.

Lemma C4_witness :
  let st := two_subscribers in
  let st' := exec (sample_onMessage 1 frame_not_json) st in
  sample_parse frame_not_json = None
  /\ since st st' = [ConsoleError (LogParseError SyntaxError)]
  /\ sockets st' = sockets st
  /\ deviceLatestData (exec (sample_onMessage 1 frame_D1) st')
     = deviceLatestData (exec (sample_onMessage 1 frame_D1) st)
  /\ sockets (exec (sample_onMessage 1 frame_D1) st')
     = sockets (exec (sample_onMessage 1 frame_D1) st).
Proof.
  intros st st'.
  destruct (C4_malformed_json_dropped sample_parse sample_stringify sample_clock
              1 frame_not_json st)
    as (_ & Hsince & _ & _ & _ & Hsockets & _ & Hnext); [reflexivity|].
  destruct (Hnext 1 frame_D1) as (_ & Hreg & _ & Hs & _).
  repeat split; assumption.
Defined.

Lemma C6_witness :
  let st := two_subscribers in
  let st' := exec (sample_onMessage 2 frame_handshake) st in
  let json := sample_stringify (handshake_ack (sample_clock (clock st))) in
  List.filter is_send (since st st') = [SendCall 2 json]
  /\ inbox (sockets st' 2) = inbox (sockets st 2) ++ [json]
  /\ sockets st' 1 = sockets st 1
  /\ deviceLatestData st' = deviceLatestData st
  /\ connectedClients st' = connectedClients st.
Proof.
  intros st st' json.
  destruct (C6_handshake_ack_to_sender_only sample_parse sample_stringify sample_clock
              2 frame_handshake
              (JObj [("type", JStr "handshake"); ("deviceId", JStr "ESP32-MLX90614-01");
                     ("deviceName", JStr "ESP32 Temperature Sensor")]) st)
    as (Hsend & _ & _ & Hother & Hinbox & Hreg & _ & Hcl); try reflexivity.
  split; [exact Hsend|]. split; [apply Hinbox; reflexivity|].
  split; [apply Hother; discriminate|]. split; assumption.
Defined.

(** A handshake whose [deviceId] is the object [{toString: 1}]: writing
    the log line throws a TypeError, the [catch] logs it, and no reply is
    sent. *)
Lemma C6_counterexample :
  let st := two_subscribers in
  let st' := exec (sample_onMessage 2 frame_handshake_odd) st in
  sample_parse frame_handshake_odd
  = Some (JObj [("type", JStr "handshake"); ("deviceId", JObj [("toString", JNum 1)])])
  /\ has_type "handshake"
       (JObj [("type", JStr "handshake"); ("deviceId", JObj [("toString", JNum 1)])]) = true
  /\ since st st' = [ConsoleError (LogParseError TypeError)]
  /\ List.filter is_send (since st st') = []
  /\ length (List.filter is_send (since st st')) <> 1
  /\ inbox (sockets st' 2) = inbox (sockets st 2).
Proof.
  repeat split; try (vm_compute; reflexivity).
  vm_compute. discriminate.
Qed.

Lemma C5_witness :
  let st := first_send_drops in
  let st' := exec (sample_broadcast sample_alert) st in
  let st'' := exec (onError 1 "read ECONNRESET") st' in
  onSend (sockets st 1) = Drops
  /\ outcome (sample_broadcast sample_alert) st = Normal tt
  /\ inbox (sockets st' 2) = inbox (sockets st 2) ++ [sample_stringify sample_alert]
  /\ (1 ∉ connectedClients st'')
  /\ (2 ∈ connectedClients st'').
Proof.
  intros st st' st''.
  assert (Hnd : NoDup (connectedClients st)) by by_decide.
  destruct (C5_failure_reported_by_error_event sample_stringify sample_alert
              1 "read ECONNRESET" st Hnd)
    as ((Hout & Hothers) & _ & _ & Hgone & Hrest & _); [reflexivity|by_decide|reflexivity|].
  split; [reflexivity|]. split; [exact Hout|]. split; [|split].
  - apply (Hothers 2); [by_decide|discriminate|reflexivity|reflexivity].
  - exact Hgone.
  - apply (Hrest 2); [discriminate|by_decide].
Defined.

(** Two subscribers, the [send] of the first one throws: the broadcast
    ends in that exception, the second subscriber is sent nothing, and the
    first one is still in the subscriber set. *)
Lemma C5_counterexample :
  let st := first_send_throws in
  let st' := exec (sample_broadcast sample_alert) st in
  connectedClients st = [1; 2]
  /\ onSend (sockets st 1) = Raises "EPIPE"
  /\ (isOpen st 2 = true /\ onSend (sockets st 2) = Delivers)
  /\ outcome (sample_broadcast sample_alert) st = Throw (TransportError "EPIPE")
  /\ inbox (sockets st' 2) = inbox (sockets st 2)
  /\ List.filter (is_send_to 2) (since st st') = []
  /\ connectedClients st' = [1; 2]
  /\ ~ failure_tolerated sample_stringify sample_alert 1 st.
Proof.
  repeat split; try (vm_compute; reflexivity).
  intros [Hout _]. vm_compute in Hout. discriminate Hout.
Qed.

Lemma C8_witness :
  let evs := [Frame 1 frame_D1; Connected 4; Closed 1; HttpAlert sample_alert;
              Frame 3 frame_not_json] in
  let st0 := exec (onConnection sample_clock 3) two_subscribers in
  let st1 := sample_run evs st0 in
  (existsb (closes 3) evs = false
   /\ NoDup (connectedClients two_subscribers)
   /\ sends_return st1 (connectedClients st1) = true)
  /\ (3 ∈ connectedClients st1)
  /\ inbox (sockets (exec (sample_broadcast sample_alert) st1) 3)
     = inbox (sockets st1 3) ++ [sample_stringify sample_alert]
  /\ length (inbox (sockets (exec (sample_onMessage 3 frame_D1) st1) 3))
     = S (length (inbox (sockets st1 3))).
Proof.
  intros evs st0 st1.
  assert (Hevs : existsb (closes 3) evs = false) by reflexivity.
  assert (Hnd : NoDup (connectedClients two_subscribers)) by by_decide.
  assert (Hret : sends_return st1 (connectedClients st1) = true) by (vm_compute; reflexivity).
  destruct (C8_subscribed_from_accept_until_close sample_parse sample_stringify sample_clock
              3 evs two_subscribers Hevs)
    as (_ & _ & _ & Hin & _ & Hbroadcast & Hown).
  split; [repeat split; assumption|]. split; [exact Hin|]. split.
  - apply Hbroadcast; [exact Hnd|exact Hret|vm_compute; reflexivity|vm_compute; reflexivity].
  - refine (eq_trans (f_equal (@length string)
                        (Hown frame_D1
                              (JObj [("type", JStr "temperature"); ("deviceId", JStr "D1");
                                     ("ambientTemp", JNum 24.5); ("objectTemp", JNum 32.1)])
                              _ _ _ Hnd Hret _ _)) _);
      vm_compute; reflexivity.
Defined.

(** A connection accepted after a subscriber whose [send] throws: it is in
    the subscriber set, open and delivering, yet a broadcast ends in the
    exception before its turn and the update of its own temperature frame
    does not come back to it. *)
Lemma C8_counterexample :
  let evs := [Frame 2 frame_not_json; HttpLatest (JStr "D1")] in
  let st0 := exec (onConnection sample_clock 3) first_send_throws in
  let st1 := sample_run evs st0 in
  existsb (closes 3) evs = false
  /\ connectedClients st1 = [1; 2; 3]
  /\ (isOpen st1 3 = true /\ onSend (sockets st1 3) = Delivers)
  /\ outcome (sample_broadcast sample_alert) st1 = Throw (TransportError "EPIPE")
  /\ inbox (sockets (exec (sample_broadcast sample_alert) st1) 3) = inbox (sockets st1 3)
  /\ (sample_parse frame_D1
      = Some (JObj [("type", JStr "temperature"); ("deviceId", JStr "D1");
                    ("ambientTemp", JNum 24.5); ("objectTemp", JNum 32.1)])
      /\ inbox (sockets (exec (sample_onMessage 3 frame_D1) st1) 3) = inbox (sockets st1 3))
  /\ ~ receives_every_broadcast sample_stringify 3 st1.
Proof.
  repeat split; try (vm_compute; reflexivity).
  intros Hall. specialize (Hall sample_alert).
  apply (f_equal (@length string)) in Hall. vm_compute in Hall. discriminate Hall.
Qed.

(** * Further properties of the gateway *)

(** ** Relations that every step of a computation keeps *)

Section Keeping.

Variable R : State -> State -> Prop.
Hypothesis R_refl : forall st, R st st.
Hypothesis R_trans : forall st1 st2 st3, R st1 st2 -> R st2 st3 -> R st1 st3.

Lemma kept_ret {A} (a : A) : keeps R (ret a).
Proof. intros st. apply R_refl. Qed.

Lemma kept_liftC {A} (c : Completion A) : keeps R (liftC c).
Proof. intros st. apply R_refl. Qed.

Lemma kept_bind {A B} (m : Eff A) (k : A -> Eff B) :
  keeps R m -> (forall a, keeps R (k a)) -> keeps R (bind m k).
Proof.
  intros Hm Hk st. unfold bind. specialize (Hm st).
  destruct (m st) as [[a|e] st1]; simpl in *; [|assumption].
  eapply R_trans; [eassumption|apply Hk].
Qed.

Lemma kept_tryCatch {A} (m : Eff A) (h : Exn -> Eff A) :
  keeps R m -> (forall e, keeps R (h e)) -> keeps R (tryCatch m h).
Proof.
  intros Hm Hh st. unfold tryCatch. specialize (Hm st).
  destruct (m st) as [[a|e] st1]; simpl in *; [assumption|].
  eapply R_trans; [eassumption|apply Hh].
Qed.

Lemma kept_interpolate (vs : list JValue) : keeps R (interpolate vs).
Proof.
  unfold interpolate. destruct (forallb convertible vs);
    [apply kept_ret|apply kept_liftC].
Qed.

Lemma kept_forEach {A} (f : A -> Eff unit) (l : list A) :
  (forall x, x ∈ l -> keeps R (f x)) -> keeps R (forEach f l).
Proof.
  induction l as [|x l IH]; intros Hf; simpl; [apply kept_ret|].
  apply kept_bind; [apply Hf, list_elem_of_here|].
  intros _. apply IH. intros y Hy. apply Hf, list_elem_of_further, Hy.
Qed.

End Keeping.

Lemma same_registry_refl (st : State) : same_registry st st.
Proof. reflexivity. Qed.

Lemma same_registry_trans (st1 st2 st3 : State) :
  same_registry st1 st2 -> same_registry st2 st3 -> same_registry st1 st3.
Proof. unfold same_registry. congruence. Qed.

Lemma registry_kept_emit (a : Action) : keeps same_registry (emit a).
Proof. intros st. reflexivity. Qed.

Lemma registry_kept_ws_send (c : Conn) (payload : string) :
  keeps same_registry (ws_send c payload).
Proof.
  unfold ws_send.
  apply (kept_bind _ same_registry_trans);
    [apply registry_kept_emit|].
  intros _ st. destruct (onSend (sockets st c)); reflexivity.
Qed.

Lemma registry_kept_sendIfOpen (json : string) (c : Conn) :
  keeps same_registry (sendIfOpen json c).
Proof.
  intros st. unfold sendIfOpen.
  destruct (readyState (sockets st c) =? OPEN)%Z;
    [apply registry_kept_ws_send|reflexivity].
Qed.

Lemma bypasses_refl (c : Conn) (st : State) : bypasses c st st.
Proof. intros _. split; reflexivity. Qed.

Lemma bypasses_trans (c : Conn) (st1 st2 st3 : State) :
  bypasses c st1 st2 -> bypasses c st2 st3 -> bypasses c st1 st3.
Proof.
  intros H12 H23 Hout. destruct (H12 Hout) as [Hcl Hs].
  destruct H23 as [Hcl' Hs']; [rewrite Hcl; exact Hout|].
  split; congruence.
Qed.

Lemma bypasses_emit (c : Conn) (a : Action) : keeps (bypasses c) (emit a).
Proof. intros st _. split; reflexivity. Qed.

Lemma bypasses_ws_send (c c' : Conn) (payload : string) :
  c' <> c -> keeps (bypasses c) (ws_send c' payload).
Proof.
  intros Hne. unfold ws_send.
  apply (kept_bind _ (bypasses_trans c));
    [apply bypasses_emit|].
  intros _ st _. destruct (onSend (sockets st c')); simpl; split; try reflexivity.
  apply fn_lookup_insert_ne. exact Hne.
Qed.

Lemma bypasses_sendIfOpen (c c' : Conn) (json : string) :
  c' <> c -> keeps (bypasses c) (sendIfOpen json c').
Proof.
  intros Hne st. unfold sendIfOpen.
  destruct (readyState (sockets st c') =? OPEN)%Z;
    [apply bypasses_ws_send, Hne|apply bypasses_refl].
Qed.

(** ** The registry under keys of any kind *)

Lemma canonKey_str (k : JValue) (id : string) :
  canonKey k = JStr id <-> k = JStr id.
Proof.
  destruct k; simpl; try tauto.
  destruct (is_zero x); split; intros H; discriminate H.
Qed.

Lemma sameValueZero_str_l (k : JValue) (id : string) :
  sameValueZero (JStr id) k = true -> k = JStr id.
Proof.
  destruct k; simpl; try discriminate. intros H.
  apply String.eqb_eq in H. congruence.
Qed.

Lemma sameValueZero_off (k' k : JValue) (id : string) :
  sameValueZero k' k = true -> k <> JStr id -> sameValueZero k' (JStr id) = false.
Proof.
  intros Hkk Hne. destruct k'; try reflexivity.
  apply sameValueZero_str_l in Hkk. subst k. simpl.
  apply String.eqb_neq. congruence.
Qed.

Lemma Map_get_set_elsewhere {V} (k : JValue) (id : string) (v : V) (m : JSMap V) :
  k <> JStr id ->
  Map_get (JStr id) (Map_set k v m) = Map_get (JStr id) m.
Proof.
  intros Hne. induction m as [|[k' v'] m IH].
  - cbn [Map_set Map_get].
    destruct (sameValueZero (canonKey k) (JStr id)) eqn:Hc; [|reflexivity].
    apply sameValueZero_str in Hc. apply (proj1 (canonKey_str _ _)) in Hc.
    contradiction.
  - cbn [Map_set Map_get].
    destruct (sameValueZero k' k) eqn:Hk; cbn [Map_get].
    + rewrite (sameValueZero_off _ _ _ Hk Hne). reflexivity.
    + rewrite IH. reflexivity.
Qed.

(** [set] keeps the registry with one entry per device id. *)
Lemma Map_set_filter_id (id : string) (k : JValue) (d : DeviceData) (m : JSMap DeviceData) :
  length (List.filter (fun e => is_id id (fst e)) (Map_set k d m))
  = if is_id id k
    then Nat.max 1 (length (List.filter (fun e => is_id id (fst e)) m))
    else length (List.filter (fun e => is_id id (fst e)) m).
Proof.
  induction m as [|[k' d'] m IH].
  - cbn [Map_set List.filter fst].
    assert (Hc : is_id id (canonKey k) = is_id id k).
    { destruct k; try reflexivity. simpl. destruct (is_zero x); reflexivity. }
    rewrite Hc. destruct (is_id id k); reflexivity.
  - cbn [Map_set]. destruct (sameValueZero k' k) eqn:Hk.
    + cbn [List.filter fst].
      assert (Hsame : is_id id k' = is_id id k).
      { unfold is_id. destruct k', k; simpl in *; try discriminate; try reflexivity.
        apply String.eqb_eq in Hk. subst. reflexivity. }
      rewrite Hsame. destruct (is_id id k); cbn [length]; [|reflexivity].
      symmetry. apply Nat.max_r. lia.
    + cbn [List.filter fst].
      destruct (is_id id k') eqn:Hk'; cbn [length]; rewrite IH;
        destruct (is_id id k) eqn:Hid; try reflexivity.
      exfalso. unfold is_id in Hk', Hid.
      destruct k', k; simpl in *; try discriminate.
      apply String.eqb_eq in Hk', Hid. subst.
      rewrite String.eqb_refl in Hk. discriminate.
Qed.

Lemma Map_set_elem {V} (k : JValue) (v : V) (m : JSMap V) (k0 : JValue) (v0 : V) :
  (k0, v0) ∈ Map_set k v m ->
  (k0, v0) ∈ m
  \/ (v0 = v /\ (k0 = canonKey k \/ sameValueZero k0 k = true)).
Proof.
  induction m as [|[k' v'] m IH]; cbn [Map_set].
  - intros H. apply list_elem_of_singleton in H. injection H as -> ->. auto.
  - destruct (sameValueZero k' k) eqn:Hk; intros H;
      apply elem_of_cons in H as [H|H].
    + injection H as -> ->. auto.
    + left. apply list_elem_of_further, H.
    + left. rewrite H. apply list_elem_of_here.
    + destruct (IH H) as [Hin|Hnew]; [left; apply list_elem_of_further, Hin|auto].
Qed.

Lemma one_per_device_set (k : JValue) (d : DeviceData) (m : JSMap DeviceData) :
  deviceId d = k -> one_per_device m -> one_per_device (Map_set k d m).
Proof.
  intros Hd Hm id. subst k. destruct (Hm id) as [Hcount Hkeys]. split.
  - rewrite Map_set_filter_id. destruct (is_id id (deviceId d)); lia.
  - intros k0 d0 Hin. destruct (Map_set_elem _ _ _ _ _ Hin) as [Hold|[-> Hk0]].
    + apply Hkeys, Hold.
    + destruct Hk0 as [->|Hsame].
      * apply canonKey_str.
      * split; intros H.
        -- subst k0. apply sameValueZero_str_l in Hsame. exact Hsame.
        -- rewrite H in Hsame. apply sameValueZero_str in Hsame. exact Hsame.
Qed.

Lemma one_per_device_read (m : JSMap DeviceData) (id : string) (d : DeviceData) :
  one_per_device m ->
  (Map_get (JStr id) m = Some d <-> (d ∈ Map_values m /\ deviceId d = JStr id)).
Proof.
  intros Hm. destruct (Hm id) as [Hcount Hkeys]. clear Hm.
  induction m as [|[k' d'] m IH].
  - simpl. split; [discriminate|]. intros [H _]. inversion H.
  - assert (Hkeys' : forall k d, (k, d) ∈ m -> k = JStr id <-> deviceId d = JStr id).
    { intros k0 d0 H. apply Hkeys, list_elem_of_further, H. }
    assert (Hhead : k' = JStr id <-> deviceId d' = JStr id)
      by apply Hkeys, list_elem_of_here.
    cbn [Map_get Map_values map snd]. cbn [List.filter fst] in Hcount.
    destruct (sameValueZero k' (JStr id)) eqn:Hk.
    + apply sameValueZero_str in Hk. subst k'.
      assert (Hself : is_id id (JStr id) = true) by apply String.eqb_refl.
      rewrite Hself in Hcount. cbn [length] in Hcount.
      assert (Hnone : forall d0, d0 ∈ Map_values m -> deviceId d0 <> JStr id).
      { intros d0 Hd0 Hid. unfold Map_values in Hd0.
        apply list_elem_of_In, in_map_iff in Hd0 as ([k0 d1] & Heq & Hin0).
        simpl in Heq. subst d1.
        assert (Hk0 : k0 = JStr id).
        { apply (Hkeys' k0 d0); [apply list_elem_of_In, Hin0|exact Hid]. }
        subst k0.
        assert (Hlen : 0 < length (List.filter (fun e => is_id id (fst e)) m)).
        { apply in_split in Hin0 as (l1 & l2 & ->).
          rewrite List.filter_app, length_app. cbn [List.filter fst].
          unfold is_id at 2. simpl. rewrite String.eqb_refl. simpl. lia. }
        lia. }
      split.
      * intros H. injection H as ->. split; [apply list_elem_of_here|].
        apply Hhead. reflexivity.
      * intros [Hin Hid]. apply elem_of_cons in Hin as [->|Hin]; [reflexivity|].
        exfalso. exact (Hnone d Hin Hid).
    + assert (Hnot : k' <> JStr id).
      { intros ->. simpl in Hk. rewrite String.eqb_refl in Hk. discriminate. }
      assert (Hcount' : length (List.filter (fun e => is_id id (fst e)) m) <= 1).
      { destruct (is_id id k'); cbn [length] in Hcount; lia. }
      rewrite (IH Hcount' Hkeys'). split; intros [Hin Hid]; split; try assumption.
      * apply list_elem_of_further, Hin.
      * apply elem_of_cons in Hin as [->|Hin]; [|exact Hin].
        exfalso. apply Hnot, Hhead, Hid.
Qed.

Section GatewayMore.

Variable JSON_parse : string -> option JValue.
Variable JSON_stringify : JValue -> string.
Variable Date_now : nat -> float.

Abbreviation onMessage := (onMessage JSON_parse JSON_stringify Date_now).
Abbreviation handleFrame := (handleFrame JSON_parse JSON_stringify Date_now).
Abbreviation broadcastToClients := (broadcastToClients JSON_stringify).
Abbreviation api_temperature_alert := (api_temperature_alert JSON_stringify Date_now).
Abbreviation step := (step JSON_parse JSON_stringify Date_now).
Abbreviation run := (run JSON_parse JSON_stringify Date_now).

(** ** Frames of other types *)

(** X1. A frame that is JSON but neither a temperature nor a handshake frame,
    also JSON that is not an object (a number, a string, an array), is
    ignored without a trace: the state, log included, is the one before.
    Where reading [type] throws, as on the JSON value null, the frame is
    dropped with a TypeError on the error log and nothing else. *)
Theorem frame_of_other_type_ignored
        (c : Conn) (data : string) (message : JValue) (st : State) :
  JSON_parse data = Some message ->
  (forall ty, getProp message "type" = Normal ty ->
              strictEqStr ty "temperature" = false ->
              strictEqStr ty "handshake" = false ->
              onMessage c data st = (Normal tt, st))
  /\ (forall e, getProp message "type" = Throw e ->
                onMessage c data st
                = (Normal tt, with_trace (trace st ++ [ConsoleError (LogParseError TypeError)]) st)).
Proof.
  intros Hparse. split.
  - intros ty Hty Htemp Hhand.
    unfold Gateway.onMessage, tryCatch, Gateway.handleFrame, parse, liftC, bind.
    rewrite Hparse, Hty, Htemp, Hhand. reflexivity.
  - intros e Hty.
    unfold Gateway.onMessage, tryCatch, Gateway.handleFrame, parse, liftC, bind.
    rewrite Hparse, Hty.
    destruct message; simpl in Hty; try discriminate; injection Hty as <-; reflexivity.
Qed.

(** ** A frame and the other devices *)

Lemma registry_kept_broadcast (message : JValue) :
  keeps same_registry (broadcastToClients message).
Proof.
  unfold Gateway.broadcastToClients, stringify.
  apply (kept_bind _ same_registry_trans).
  - apply (kept_bind _ same_registry_trans); [apply registry_kept_emit|].
    intros _. apply (kept_ret _ same_registry_refl).
  - intros json st.
    apply (kept_forEach _ same_registry_refl same_registry_trans).
    intros x _. apply registry_kept_sendIfOpen.
Qed.

Lemma registry_kept_onHandshake (c : Conn) (message : JValue) :
  keeps same_registry (onHandshake JSON_stringify Date_now c message).
Proof.
  unfold onHandshake, console_log, stringify.
  repeat first
    [ apply (kept_liftC _ same_registry_refl)
    | apply (kept_ret _ same_registry_refl)
    | apply (kept_interpolate _ same_registry_refl)
    | apply registry_kept_emit
    | apply registry_kept_ws_send
    | (intros st; reflexivity)
    | apply (kept_bind _ same_registry_trans); [|intro] ].
Qed.

(** What a frame can do to the registry: nothing, or one [set] under the
    [deviceId] of a temperature frame, of a reading with that [deviceId]. *)
Lemma registry_after_frame (c : Conn) (data : string) (st : State) :
  let st' := exec (onMessage c data) st in
  deviceLatestData st' = deviceLatestData st
  \/ exists message d,
       JSON_parse data = Some message
       /\ has_type "temperature" message = true
       /\ deviceId d = field "deviceId" message
       /\ deviceLatestData st' = Map_set (field "deviceId" message) d (deviceLatestData st).
Proof.
  intros st'.
  destruct (JSON_parse data) as [message|] eqn:Hparse.
  - destruct (has_type "temperature" message) eqn:Hty.
    + right. destruct (temperature_frame JSON_parse JSON_stringify Date_now
                         c data message st Hparse Hty) as (t & tail & Hreg & _).
      exists message, (readingAt message (Date_now (clock st))).
      repeat split; assumption.
    + left. unfold st', exec, Gateway.onMessage, tryCatch, Gateway.handleFrame,
        parse, liftC. unfold bind at 1. rewrite Hparse. unfold bind at 1.
      unfold has_type in Hty.
      destruct (getProp message "type") as [ty|e]; [|reflexivity].
      rewrite Hty.
      destruct (strictEqStr ty "handshake").
      * pose proof (registry_kept_onHandshake c message st) as Hkept.
        destruct (onHandshake JSON_stringify Date_now c message st) as [[[]|e] st1];
          exact Hkept.
      * reflexivity.
  - left. unfold st', exec, Gateway.onMessage, tryCatch, Gateway.handleFrame,
      parse, liftC, bind. rewrite Hparse. reflexivity.
Qed.

(** X2. Whatever arrives on whatever connection, the reading of a device is
    left as it was unless the frame is a temperature frame with that
    device's id; a frame changes at most the entry of its own device. *)
Theorem frame_leaves_other_devices
        (c : Conn) (data : string) (id : string) (st : State) :
  (forall message, JSON_parse data = Some message ->
                   has_type "temperature" message = true ->
                   field "deviceId" message <> JStr id) ->
  GetLatest id (exec (onMessage c data) st) = GetLatest id st.
Proof.
  intros Hother. unfold GetLatest.
  destruct (registry_after_frame c data st) as [->|(message & d & Hparse & Hty & _ & ->)];
    [reflexivity|].
  apply Map_get_set_elsewhere. apply Hother; assumption.
Qed.

(** ** Two broadcasts in a row *)

(** X3. Events reach a subscriber in the order they were published: after
    the broadcast of one event and then of another, both ending normally,
    every open subscriber whose socket delivers has received the first
    and then the second, next to each other and after what it had. *)
Theorem broadcasts_arrive_in_order (e1 e2 : JValue) (st : State) :
  NoDup (connectedClients st) ->
  sends_return st (connectedClients st) = true ->
  let st1 := exec (broadcastToClients e1) st in
  let st2 := exec (broadcastToClients e2) st1 in
  outcome (broadcastToClients e1) st = Normal tt
  /\ outcome (broadcastToClients e2) st1 = Normal tt
  /\ forall c, c ∈ connectedClients st -> isOpen st c = true ->
               onSend (sockets st c) = Delivers ->
               inbox (sockets st2 c)
               = inbox (sockets st c) ++ [JSON_stringify e1; JSON_stringify e2].
Proof.
  intros Hnd Hret st1 st2.
  destruct (broadcast_returns JSON_stringify e1 st Hnd Hret)
    as (s1 & Hrun1 & _ & Hcl1 & _ & _ & _ & Hs1).
  assert (Hst1 : st1 = s1) by (unfold st1, exec; rewrite Hrun1; reflexivity).
  destruct (keeps_broadcastToClients JSON_stringify e1 st) as (_ & _ & Hwire).
  fold (exec (broadcastToClients e1) st) in Hwire. fold st1 in Hwire.
  assert (Hnd1 : NoDup (connectedClients st1)) by (rewrite Hst1, Hcl1; exact Hnd).
  assert (Hret1 : sends_return st1 (connectedClients st1) = true).
  { rewrite Hst1, Hcl1, <- Hst1, <- Hret. unfold sends_return.
    apply forallb_pointwise. intros c. unfold isOpen.
    destruct (Hwire c) as [-> ->]. reflexivity. }
  destruct (broadcast_returns JSON_stringify e2 st1 Hnd1 Hret1)
    as (s2 & Hrun2 & _ & _ & _ & _ & _ & Hs2).
  assert (Hst2 : st2 = s2) by (unfold st2, exec; rewrite Hrun2; reflexivity).
  split; [unfold outcome; rewrite Hrun1; reflexivity|].
  split; [unfold outcome; rewrite Hrun2; reflexivity|].
  intros c Hin Hopen Hdel.
  rewrite Hst2, Hs2, decide_True by (rewrite Hst1, Hcl1; exact Hin).
  unfold sent. destruct (Hwire c) as [-> ->].
  unfold isOpen in Hopen. rewrite Hopen, Hdel. simpl.
  rewrite Hst1, Hs1, decide_True by exact Hin.
  unfold sent. rewrite Hopen, Hdel. simpl. rewrite <- app_assoc. reflexivity.
Qed.

(** ** A reading that was stored but never sent *)

(** X4. A temperature frame of which [deviceId], [ambientTemp] or
    [objectTemp] cannot be converted to a string for the log line: the
    reading is already in the registry when the log line throws, so the
    registry read returns it, but no subscriber is sent anything; the
    handler logs the TypeError and returns. *)
Theorem unloggable_reading_is_stored_not_sent
        (c : Conn) (data : string) (message : JValue) (st : State) :
  JSON_parse data = Some message ->
  has_type "temperature" message = true ->
  loggable message = false ->
  let k := field "deviceId" message in
  let d := readingAt message (Date_now (clock st)) in
  let st' := exec (onMessage c data) st in
  onMessage c data st = (Normal tt, st')
  /\ since st st' = [RegistrySet k d; ConsoleError (LogParseError TypeError)]
  /\ deviceLatestData st' = Map_set k d (deviceLatestData st)
  /\ (forall id, k = JStr id -> GetLatest id st' = Some d)
  /\ sockets st' = sockets st
  /\ connectedClients st' = connectedClients st.
Proof.
  intros Hparse Hty Hlog k d st'.
  destruct (has_type_object _ _ Hty) as (props & -> & Htype).
  assert (Hrun : exists n,
    onMessage c data st
    = (Normal tt,
       with_trace (trace st ++ [RegistrySet k d; ConsoleError (LogParseError TypeError)])
         (with_registry (Map_set k d (deviceLatestData st)) (with_clock n st)))).
  { unfold Gateway.onMessage, tryCatch, Gateway.handleFrame, parse, liftC, bind.
    rewrite Hparse. simpl. rewrite Htype.
    unfold k, d, readingAt, loggable, field in *. simpl getProp in *. cbv iota in *.
    unfold onTemperature, registry_set, interpolate, liftC, bind, console_error,
      emit, now, ret. simpl. simpl in Hlog. rewrite Hlog.
    destruct (truthy (lookupProp "timestamp" props)); simpl;
      eexists; unfold with_trace, with_registry, with_clock; simpl;
      rewrite <- app_assoc; reflexivity. }
  destruct Hrun as (n & Hrun).
  unfold st', exec. rewrite Hrun. simpl.
  split; [reflexivity|]. split; [apply since_app; reflexivity|].
  split; [reflexivity|]. split; [|split; reflexivity].
  intros id Hid. unfold GetLatest. simpl. rewrite Hid. apply Map_get_set_str.
Qed.

(** ** One reading per device *)

Lemma registry_kept_api_alert (b : JValue) :
  keeps same_registry (api_temperature_alert b).
Proof.
  unfold Gateway.api_temperature_alert, console_error.
  apply (kept_tryCatch _ same_registry_trans).
  - repeat first
      [ apply (kept_liftC _ same_registry_refl)
      | apply (kept_ret _ same_registry_refl)
      | apply registry_kept_broadcast
      | (intros st; reflexivity)
      | apply (kept_bind _ same_registry_trans); [|intro] ].
  - intros e. apply (kept_bind _ same_registry_trans); [apply registry_kept_emit|].
    intros _. apply (kept_ret _ same_registry_refl).
Qed.

Lemma step_one_per_device (ev : Event) (st : State) :
  one_per_device (deviceLatestData st) ->
  one_per_device (deviceLatestData (step ev st)).
Proof.
  intros Hm. destruct ev as [url c|c|c data|c|c msg|c rs b|q|b]; try exact Hm.
  - unfold Gateway.step, exec, onUpgrade.
    destruct (String.eqb _ "/ws/temperature"); exact Hm.
  - unfold Gateway.step.
    destruct (registry_after_frame c data st)
      as [->|(message & d & _ & _ & Hd & ->)]; [exact Hm|].
    apply one_per_device_set; assumption.
  - unfold Gateway.step, exec, api_temperature_latest.
    destruct (truthy q); [destruct (Map_get _ _)|]; exact Hm.
  - unfold Gateway.step. pose proof (registry_kept_api_alert b st) as Hkept.
    unfold same_registry in Hkept. unfold exec. rewrite Hkept. exact Hm.
Qed.

Lemma readings_by_key (id : string) (m : JSMap DeviceData) :
  (forall k d, (k, d) ∈ m -> (k = JStr id <-> deviceId d = JStr id)) ->
  List.filter (fun d => is_id id (deviceId d)) (Map_values m)
  = Map_values (List.filter (fun e => is_id id (fst e)) m).
Proof.
  assert (Hdec : forall v, is_id id v = true <-> v = JStr id).
  { intros v. unfold is_id. destruct v; simpl; try (split; discriminate).
    rewrite String.eqb_eq. split; congruence. }
  induction m as [|[k d] m IH]; intros Hkeys; [reflexivity|].
  unfold Map_values in *. cbn [map snd List.filter fst].
  assert (Hsame : is_id id (deviceId d) = is_id id k).
  { specialize (Hkeys k d (list_elem_of_here _ _)).
    destruct (is_id id k) eqn:Hk.
    - apply Hdec. apply Hkeys. apply Hdec. exact Hk.
    - destruct (is_id id (deviceId d)) eqn:Hd; [|reflexivity].
      apply Hdec in Hd. apply Hkeys in Hd. apply Hdec in Hd. congruence. }
  rewrite Hsame, IH.
  - destruct (is_id id k); reflexivity.
  - intros k0 d0 H. apply Hkeys, list_elem_of_further, H.
Qed.

Lemma run_one_per_device (evs : list Event) (s : State) :
  one_per_device (deviceLatestData s) ->
  one_per_device (deviceLatestData (run evs s)).
Proof.
  revert s. induction evs as [|ev evs IH]; intros s Hs; [exact Hs|].
  apply IH, step_one_per_device, Hs.
Qed.

(** X5. In every state the gateway reaches from its start, whatever frames,
    connections and requests came in, the list of all readings holds at
    most one reading with a given device id as its [deviceId], and the
    registry read for an id returns exactly that reading; over HTTP a
    non-empty id is answered with a reading of that device or with the
    not-found body. *)
Theorem registry_one_reading_per_device (evs : list Event) (id : string) :
  let st := run evs initial in
  length (List.filter (fun d => is_id id (deviceId d)) (GetAll st)) <= 1
  /\ (forall d, GetLatest id st = Some d <-> (d ∈ GetAll st /\ deviceId d = JStr id))
  /\ (id <> EmptyString ->
      api_temperature_latest (JStr id) st
      = (Normal (mkResponse 200 (JObj [("error", JStr "Device not found")])), st)
      \/ exists d, deviceId d = JStr id
           /\ api_temperature_latest (JStr id) st
              = (Normal (mkResponse 200 (DeviceData_toJS d)), st)).
Proof.
  intros st.
  assert (Hinv : one_per_device (deviceLatestData st)).
  { apply run_one_per_device. intros i. split; [simpl; lia|].
    intros k d H. inversion H. }
  assert (Hread := one_per_device_read (deviceLatestData st) id).
  destruct (Hinv id) as [Hcount Hkeys].
  split; [|split].
  - unfold GetAll. rewrite (readings_by_key id _ Hkeys).
    unfold Map_values. rewrite length_map. exact Hcount.
  - intros d. apply Hread, Hinv.
  - intros Hid. unfold api_temperature_latest. simpl.
    apply String.eqb_neq in Hid. rewrite Hid. simpl.
    destruct (Map_get (JStr id) (deviceLatestData st)) as [d|] eqn:Hget; [right|left; reflexivity].
    exists d. split; [|reflexivity]. apply (Hread d Hinv). reflexivity.
Qed.

(** ** The alert endpoint *)

(** X6. [POST /api/temperature/alert]. A body that is [null] or [undefined]
    is answered with status 500 after one error log and reaches no
    subscriber. Otherwise the event of type alert, with the body's
    [deviceId] and [alertMessage] and the time of the request, is
    serialised once. When no send throws the answer is the success body
    and every open subscriber is sent the event, without a write to the
    registry. When the send to a subscriber throws, the answer is status
    500: the subscribers before it have been served, those after it are
    sent nothing. *)
Theorem alert_endpoint (req_body : JValue) (st : State) :
  NoDup (connectedClients st) ->
  let failed := mkResponse 500 (JObj [("error", JStr "Internal server error")]) in
  (forall e, getProp req_body "deviceId" = Throw e ->
     api_temperature_alert req_body st
     = (Normal failed, with_trace (trace st ++ [ConsoleError (LogAlertError e)]) st))
  /\ (forall deviceId alertMessage,
       getProp req_body "deviceId" = Normal deviceId ->
       getProp req_body "alertMessage" = Normal alertMessage ->
       let event := JObj [("type", JStr "alert"); ("deviceId", deviceId);
                          ("message", alertMessage);
                          ("timestamp", JNum (Date_now (clock st)))] in
       let json := JSON_stringify event in
       let st' := exec (api_temperature_alert req_body) st in
       (sends_return st (connectedClients st) = true ->
          outcome (api_temperature_alert req_body) st
          = Normal (mkResponse 200 (JObj [("success", JBool true);
                                          ("message", JStr "Alert sent")]))
          /\ since st st' = Stringify event :: fanout json st (connectedClients st)
          /\ deviceLatestData st' = deviceLatestData st
          /\ forall c, sockets st' c =
                       if decide (c ∈ connectedClients st)
                       then sent json (sockets st c) else sockets st c)
       /\ (forall pre x post msg,
            connectedClients st = pre ++ x :: post ->
            sends_return st pre = true ->
            isOpen st x = true ->
            onSend (sockets st x) = Raises msg ->
            outcome (api_temperature_alert req_body) st = Normal failed
            /\ since st st'
               = Stringify event :: fanout json st pre
                 ++ [SendCall x json; ConsoleError (LogAlertError (TransportError msg))]
            /\ forall c, c ∈ post -> sockets st' c = sockets st c)).
Proof.
  intros Hnd failed. split.
  - intros e He. unfold Gateway.api_temperature_alert, tryCatch, bind at 1, liftC.
    rewrite He. reflexivity.
  - intros deviceId alertMessage Hd Hm event json st'.
    set (st0 := with_clock (S (clock st)) st).
    assert (Hstart : api_temperature_alert req_body st
                     = tryCatch (broadcastToClients event ;;;
                                 ret (mkResponse 200 (JObj [("success", JBool true);
                                                            ("message", JStr "Alert sent")])))
                                (fun error =>
                                   console_error (LogAlertError error) ;;;
                                   ret failed) st0).
    { unfold Gateway.api_temperature_alert, tryCatch, bind at 1, liftC. rewrite Hd.
      unfold bind at 1. rewrite Hm. reflexivity. }
    split.
    + intros Hret.
      destruct (broadcast_returns JSON_stringify event st0 Hnd Hret)
        as (st1 & Hrun & Hreg & _ & _ & _ & Htr & Hs).
      assert (Hall : api_temperature_alert req_body st
                     = (Normal (mkResponse 200 (JObj [("success", JBool true);
                                                      ("message", JStr "Alert sent")])), st1)).
      { rewrite Hstart. unfold tryCatch, bind. rewrite Hrun. reflexivity. }
      unfold st', outcome, exec. rewrite Hall. simpl.
      split; [reflexivity|]. split; [|split].
      * unfold since. rewrite Htr. simpl. rewrite drop_app_length. reflexivity.
      * exact Hreg.
      * exact Hs.
    + intros pre x post msg Hcl Hret Hopen Hraise.
      set (st2 := with_trace (trace st0 ++ [Stringify event]) st0).
      assert (Hnd' : NoDup (pre ++ x :: post)) by (rewrite <- Hcl; exact Hnd).
      destruct (forEach_stops_at_throw json pre post x msg st2 Hnd' Hret Hopen Hraise)
        as (st3 & Hrun & Htr & _ & Hs).
      assert (Hall : api_temperature_alert req_body st
                     = (Normal failed,
                        with_trace (trace st3 ++ [ConsoleError
                                                    (LogAlertError (TransportError msg))]) st3)).
      { rewrite Hstart.
        unfold tryCatch, bind at 1, Gateway.broadcastToClients, bind at 1, stringify,
          bind at 1, emit, ret.
        change (connectedClients (with_trace (trace st0 ++ [Stringify event]) st0))
          with (connectedClients st).
        fold st2. fold json. rewrite Hcl, Hrun. reflexivity. }
      unfold st', outcome, exec. rewrite Hall. simpl.
      split; [reflexivity|]. split.
      * unfold since. rewrite Htr. simpl.
        rewrite <- !app_assoc, drop_app_length. reflexivity.
      * exact Hs.
Qed.

(** ** Nothing is replayed *)

Ltac bypass_step c :=
  repeat first
    [ apply (kept_liftC _ (bypasses_refl c))
    | apply (kept_ret _ (bypasses_refl c))
    | apply (kept_interpolate _ (bypasses_refl c))
    | apply bypasses_emit
    | (apply bypasses_ws_send; assumption)
    | (intros ? ? ; split; reflexivity)
    | apply (kept_bind _ (bypasses_trans c)); [|intro] ].

Lemma bypasses_broadcast (c : Conn) (message : JValue) :
  keeps (bypasses c) (broadcastToClients message).
Proof.
  unfold Gateway.broadcastToClients, stringify.
  apply (kept_bind _ (bypasses_trans c)).
  - apply (kept_bind _ (bypasses_trans c)); [apply bypasses_emit|].
    intros _. apply (kept_ret _ (bypasses_refl c)).
  - intros json st Hout.
    assert (Hloop : keeps (bypasses c) (forEach (sendIfOpen json) (connectedClients st))).
    { apply (kept_forEach _ (bypasses_refl c) (bypasses_trans c)).
      intros x Hx. apply bypasses_sendIfOpen. intros ->. exact (Hout Hx). }
    exact (Hloop st Hout).
Qed.

Lemma bypasses_onMessage (c c' : Conn) (data : string) :
  c' <> c -> keeps (bypasses c) (onMessage c' data).
Proof.
  intros Hne.
  unfold Gateway.onMessage, Gateway.handleFrame, parse, console_error.
  apply (kept_tryCatch _ (bypasses_trans c)); [|intros e; apply bypasses_emit].
  apply (kept_bind _ (bypasses_trans c)); [apply (kept_liftC _ (bypasses_refl c))|].
  intros message.
  apply (kept_bind _ (bypasses_trans c)); [apply (kept_liftC _ (bypasses_refl c))|].
  intros ty. destruct (strictEqStr ty "temperature"); [|destruct (strictEqStr ty "handshake")].
  - unfold onTemperature, registry_set, storeTemperatureReading, console_log, now.
    repeat first
      [ apply (kept_liftC _ (bypasses_refl c))
      | apply (kept_ret _ (bypasses_refl c))
      | apply (kept_interpolate _ (bypasses_refl c))
      | apply bypasses_emit
      | apply bypasses_broadcast
      | (intros ? ? ; split; reflexivity)
      | (destruct (truthy _))
      | apply (kept_bind _ (bypasses_trans c)); [|intro] ].
  - unfold onHandshake, console_log, stringify, now. bypass_step c.
  - apply (kept_ret _ (bypasses_refl c)).
Qed.

Lemma bypasses_api_alert (c : Conn) (b : JValue) :
  keeps (bypasses c) (api_temperature_alert b).
Proof.
  unfold Gateway.api_temperature_alert, console_error, now.
  apply (kept_tryCatch _ (bypasses_trans c)).
  - repeat first
      [ apply (kept_liftC _ (bypasses_refl c))
      | apply (kept_ret _ (bypasses_refl c))
      | apply bypasses_broadcast
      | (intros ? ? ; split; reflexivity)
      | apply (kept_bind _ (bypasses_trans c)); [|intro] ].
  - intros e. apply (kept_bind _ (bypasses_trans c)); [apply bypasses_emit|].
    intros _. apply (kept_ret _ (bypasses_refl c)).
Qed.

Lemma step_bypasses (c : Conn) (ev : Event) (st : State) :
  concerns c ev = false ->
  c ∉ connectedClients st ->
  (c ∉ connectedClients (step ev st)) /\ sockets (step ev st) c = sockets st c.
Proof.
  intros Hev Hout.
  destruct ev as [url c'|c'|c' data|c'|c' msg|c' rs b|q|b]; simpl in Hev;
    try (apply Nat.eqb_neq in Hev).
  - unfold Gateway.step, exec, onUpgrade.
    destruct (String.eqb _ "/ws/temperature"); [|split; [exact Hout|reflexivity]].
    split; [|reflexivity]. simpl. rewrite Set_add_spec. intros [H|H]; [exact (Hout H)|].
    apply Hev. congruence.
  - split; [|reflexivity]. simpl. rewrite Set_add_spec. intros [H|H]; [exact (Hout H)|].
    apply Hev. congruence.
  - destruct (bypasses_onMessage c c' data Hev st Hout) as [Hcl Hs].
    unfold Gateway.step, exec. rewrite Hcl. split; assumption.
  - split; [|reflexivity]. simpl. rewrite Set_delete_spec. intros [H _]. exact (Hout H).
  - split; [|reflexivity]. simpl. rewrite Set_delete_spec. intros [H _]. exact (Hout H).
  - split; [exact Hout|]. simpl. apply fn_lookup_insert_ne. exact Hev.
  - unfold Gateway.step, exec, api_temperature_latest.
    destruct (truthy q); [destruct (Map_get _ _)|]; split; (exact Hout || reflexivity).
  - destruct (bypasses_api_alert c b st Hout) as [Hcl Hs].
    unfold Gateway.step, exec. rewrite Hcl. split; assumption.
Qed.

(** X7. What was published while a socket was not connected never reaches
    it. Over any sequence of events none of which is the socket's own
    upgrade, connection, frame or transport change, a socket outside the
    subscriber set stays outside and is handed nothing; and accepting it
    afterwards only subscribes it: the readings stored and the events
    broadcast before are not sent again. *)
Theorem nothing_is_replayed (c : Conn) (evs : list Event) (st : State) :
  c ∉ connectedClients st ->
  existsb (concerns c) evs = false ->
  let st' := run evs st in
  let joined := step (Connected c) st' in
  (c ∉ connectedClients st')
  /\ sockets st' c = sockets st c
  /\ c ∈ connectedClients joined
  /\ sockets joined = sockets st'
  /\ List.filter is_send (since st' joined) = [].
Proof.
  intros Hout Hevs st' joined.
  assert (Hrun : (c ∉ connectedClients st') /\ sockets st' c = sockets st c).
  { unfold st'. clear joined st'. revert st Hout.
    induction evs as [|ev evs IH]; intros st Hout; [split; [exact Hout|reflexivity]|].
    simpl in Hevs. apply orb_false_elim in Hevs as [Hev Hevs].
    destruct (step_bypasses c ev st Hev Hout) as [Hout1 Hs1].
    destruct (IH Hevs (step ev st) Hout1) as [Hout2 Hs2].
    split; [exact Hout2|]. etransitivity; [exact Hs2|exact Hs1]. }
  destruct Hrun as [Hout' Hs'].
  split; [exact Hout'|]. split; [exact Hs'|].
  split; [|split].
  - unfold joined. simpl. apply Set_add_spec. right. reflexivity.
  - reflexivity.
  - unfold joined, since. simpl. rewrite drop_app_length. reflexivity.
Qed.

End GatewayMore.

(** * The further properties on concrete runs *)

Lemma frame_of_other_type_ignored_witness :
  let st := two_subscribers in
  sample_parse2 frame_ping = Some (JObj [("type", JStr "ping")])
  /\ sample_onMessage2 1 frame_ping st = (Normal tt, st)
  /\ sample_onMessage2 1 frame_number st = (Normal tt, st)
  /\ sample_onMessage2 1 frame_null st
     = (Normal tt, with_trace (trace st ++ [ConsoleError (LogParseError TypeError)]) st).
Proof.
  intros st. split; [reflexivity|]. split; [|split].
  - destruct (frame_of_other_type_ignored sample_parse2 sample_stringify sample_clock
                1 frame_ping (JObj [("type", JStr "ping")]) st) as [Hignored _];
      [reflexivity|].
    apply (Hignored (JStr "ping")); reflexivity.
  - destruct (frame_of_other_type_ignored sample_parse2 sample_stringify sample_clock
                1 frame_number (JNum 42) st) as [Hignored _]; [reflexivity|].
    apply (Hignored JUndefined); reflexivity.
  - destruct (frame_of_other_type_ignored sample_parse2 sample_stringify sample_clock
                1 frame_null JNull st) as [_ Hdropped]; [reflexivity|].
    apply (Hdropped TypeError). reflexivity.
Defined.

Lemma frame_leaves_other_devices_witness :
  let st := exec (sample_onMessage 1 frame_D2_missing) two_subscribers in
  (forall message, sample_parse frame_D1 = Some message ->
                   has_type "temperature" message = true ->
                   field "deviceId" message <> JStr "D2")
  /\ GetLatest "D2" (exec (sample_onMessage 2 frame_D1) st) = GetLatest "D2" st
  /\ GetLatest "D2" (exec (sample_onMessage 2 frame_handshake) st) = GetLatest "D2" st
  /\ GetLatest "D2" (exec (sample_onMessage 2 frame_not_json) st) = GetLatest "D2" st.
Proof.
  intros st.
  assert (H1 : forall message, sample_parse frame_D1 = Some message ->
                               has_type "temperature" message = true ->
                               field "deviceId" message <> JStr "D2").
  { intros message Hparse _. vm_compute in Hparse. injection Hparse as <-.
    vm_compute. discriminate. }
  split; [exact H1|]. split; [|split].
  - exact (frame_leaves_other_devices sample_parse sample_stringify sample_clock
             2 frame_D1 "D2" st H1).
  - apply (frame_leaves_other_devices sample_parse sample_stringify sample_clock
             2 frame_handshake "D2" st).
    intros message Hparse Hty. vm_compute in Hparse. injection Hparse as <-.
    vm_compute in Hty. discriminate Hty.
  - apply (frame_leaves_other_devices sample_parse sample_stringify sample_clock
             2 frame_not_json "D2" st).
    intros message Hparse. vm_compute in Hparse. discriminate Hparse.
Defined.

Lemma broadcasts_arrive_in_order_witness :
  let st := exec (sample_broadcast sample_alert) first_send_drops in
  let st2 := exec (sample_broadcast (JStr "second"))
                  (exec (sample_broadcast (JStr "first")) st) in
  (NoDup (connectedClients st) /\ sends_return st (connectedClients st) = true)
  /\ inbox (sockets st2 2)
     = [sample_stringify sample_alert; sample_stringify (JStr "first");
        sample_stringify (JStr "second")].
Proof.
  intros st st2.
  assert (Hnd : NoDup (connectedClients st)) by by_decide.
  assert (Hret : sends_return st (connectedClients st) = true) by (vm_compute; reflexivity).
  destruct (broadcasts_arrive_in_order sample_stringify (JStr "first") (JStr "second")
              st Hnd Hret) as (_ & _ & Horder).
  split; [split; assumption|].
  apply (Horder 2); [by_decide|reflexivity|reflexivity].
Defined.

Lemma unloggable_reading_is_stored_not_sent_witness :
  let st := two_subscribers in
  let st' := exec (sample_onMessage2 1 frame_D3_unloggable) st in
  (sample_parse2 frame_D3_unloggable = Some frame_D3_message
   /\ loggable frame_D3_message = false)
  /\ sample_onMessage2 1 frame_D3_unloggable st = (Normal tt, st')
  /\ (exists d, GetLatest "D3" st' = Some d /\ objectTemp d = JNum 30)
  /\ List.filter is_send (since st st') = []
  /\ sockets st' = sockets st.
Proof.
  intros st st'.
  destruct (unloggable_reading_is_stored_not_sent sample_parse2 sample_stringify sample_clock
              1 frame_D3_unloggable frame_D3_message st)
    as (Hrun & Hsince & _ & Hget & Hs & _); try reflexivity.
  split; [split; reflexivity|]. split; [exact Hrun|]. split; [|split].
  - eexists. split; [apply (Hget "D3"); reflexivity|reflexivity].
  - etransitivity; [apply (f_equal (List.filter is_send) Hsince)|reflexivity].
  - exact Hs.
Defined.

Lemma registry_one_reading_per_device_witness :
  let st := sample_run [Connected 1; Frame 1 frame_D1_t1000; Frame 1 frame_D2_missing;
                        Frame 1 frame_D1_t2000; HttpLatest (JStr "D1")] initial in
  "D1" <> EmptyString
  /\ length (List.filter (fun d => is_id "D1" (deviceId d)) (GetAll st)) <= 1
  /\ (exists d, GetLatest "D1" st = Some d /\ d ∈ GetAll st /\ timestamp d = JNum 2000)
  /\ (exists d, deviceId d = JStr "D1"
               /\ api_temperature_latest (JStr "D1") st
                  = (Normal (mkResponse 200 (DeviceData_toJS d)), st)).
Proof.
  intros st.
  destruct (registry_one_reading_per_device sample_parse sample_stringify sample_clock
              [Connected 1; Frame 1 frame_D1_t1000; Frame 1 frame_D2_missing;
               Frame 1 frame_D1_t2000; HttpLatest (JStr "D1")] "D1")
    as (Hcount & Hread & Hhttp).
  assert (Hid : "D1" <> EmptyString) by discriminate.
  split; [exact Hid|]. split; [exact Hcount|]. split.
  - eexists. split; [reflexivity|]. split; [|reflexivity].
    apply (proj1 (Hread _)). reflexivity.
  - destruct (Hhttp Hid) as [Hnone|Hsome]; [|exact Hsome].
    vm_compute in Hnone. discriminate Hnone.
Defined.

Lemma alert_endpoint_witness :
  let event := JObj [("type", JStr "alert"); ("deviceId", JStr "D1");
                     ("message", JStr "High temperature");
                     ("timestamp", JNum (sample_clock (clock three_one_closing)))] in
  let served := exec (sample_api_alert sample_alert_request) three_one_closing in
  let failed := exec (sample_api_alert sample_alert_request) first_send_throws in
  (NoDup (connectedClients three_one_closing)
   /\ NoDup (connectedClients first_send_throws))
  /\ outcome (sample_api_alert JNull) two_subscribers
     = Normal (mkResponse 500 (JObj [("error", JStr "Internal server error")]))
  /\ outcome (sample_api_alert sample_alert_request) three_one_closing
     = Normal (mkResponse 200 (JObj [("success", JBool true); ("message", JStr "Alert sent")]))
  /\ inbox (sockets served 3) = [sample_stringify event]
  /\ inbox (sockets served 2) = []
  /\ outcome (sample_api_alert sample_alert_request) first_send_throws
     = Normal (mkResponse 500 (JObj [("error", JStr "Internal server error")]))
  /\ sockets failed 2 = sockets first_send_throws 2.
Proof.
  intros event served failed.
  assert (Hnd1 : NoDup (connectedClients three_one_closing)) by by_decide.
  assert (Hnd2 : NoDup (connectedClients first_send_throws)) by by_decide.
  assert (Hnd0 : NoDup (connectedClients two_subscribers)) by by_decide.
  destruct (alert_endpoint sample_stringify sample_clock JNull two_subscribers Hnd0)
    as [Hnull _].
  destruct (alert_endpoint sample_stringify sample_clock sample_alert_request
              three_one_closing Hnd1) as [_ Hbody1].
  destruct (Hbody1 (JStr "D1") (JStr "High temperature") eq_refl eq_refl) as [Hserved _].
  destruct Hserved as (Hout & _ & _ & Hs); [vm_compute; reflexivity|].
  destruct (alert_endpoint sample_stringify sample_clock sample_alert_request
              first_send_throws Hnd2) as [_ Hbody2].
  destruct (Hbody2 (JStr "D1") (JStr "High temperature") eq_refl eq_refl) as [_ Hfailed].
  destruct (Hfailed [] 1 [2] "EPIPE") as (Hout2 & _ & Hpost); try (vm_compute; reflexivity).
  split; [split; assumption|].
  split; [unfold outcome, sample_api_alert; rewrite (Hnull TypeError eq_refl); reflexivity|].
  split; [exact Hout|]. split; [|split; [|split]].
  - unfold served, sample_api_alert. rewrite Hs. reflexivity.
  - unfold served, sample_api_alert. rewrite Hs. reflexivity.
  - exact Hout2.
  - apply Hpost. by_decide.
Defined.

Lemma nothing_is_replayed_witness :
  let evs := [Connected 1; Frame 1 frame_D1; HttpAlert sample_alert_request;
              Frame 1 frame_handshake; Closed 1] in
  let st' := sample_run evs initial in
  let joined := sample_step (Connected 2) st' in
  ((2 ∉ connectedClients initial) /\ existsb (concerns 2) evs = false)
  /\ inbox (sockets st' 1) <> []
  /\ GetLatest "D1" joined <> None
  /\ 2 ∈ connectedClients joined
  /\ inbox (sockets joined 2) = [].
Proof.
  intros evs st' joined.
  assert (Hout : 2 ∉ connectedClients initial) by by_decide.
  assert (Hevs : existsb (concerns 2) evs = false) by reflexivity.
  destruct (nothing_is_replayed sample_parse sample_stringify sample_clock
              2 evs initial Hout Hevs) as (_ & Hs & Hin & Hsock & _).
  split; [split; assumption|]. split; [|split; [|split]].
  - vm_compute. discriminate.
  - vm_compute. discriminate.
  - exact Hin.
  - etransitivity; [apply (f_equal (fun s => inbox (s 2)) Hsock)|].
    etransitivity; [apply (f_equal inbox Hs)|reflexivity].
Defined.

(** * Properties of the patient store *)

(** ** Maps with string keys *)

Lemma Map_set_fresh {V} (id : string) (v : V) (m : JSMap V) :
  Map_get (JStr id) m = None -> Map_set (JStr id) v m = m ++ [(JStr id, v)].
Proof.
  induction m as [|[k w] m IH]; simpl; [reflexivity|].
  destruct (sameValueZero k (JStr id)); [discriminate|].
  intros H. rewrite (IH H). reflexivity.
Qed.

Lemma Map_get_app_fresh {V} (id id' : string) (v : V) (m : JSMap V) :
  Map_get (JStr id') (m ++ [(JStr id, v)])
  = match Map_get (JStr id') m with
    | Some w => Some w
    | None => if String.eqb id id' then Some v else None
    end.
Proof.
  induction m as [|[k w] m IH]; simpl; [reflexivity|].
  destruct (sameValueZero k (JStr id')); [reflexivity|exact IH].
Qed.

Lemma Map_get_delete_same {V} (k : JValue) (m : JSMap V) :
  Map_get k (Map_delete k m) = None.
Proof.
  unfold Map_delete. induction m as [|[k' w] m IH]; simpl; [reflexivity|].
  destruct (sameValueZero k' k) eqn:Hk; simpl; [exact IH|].
  rewrite Hk. exact IH.
Qed.

Lemma Map_get_delete_other {V} (id id' : string) (m : JSMap V) :
  id <> id' ->
  Map_get (JStr id') (Map_delete (JStr id) m) = Map_get (JStr id') m.
Proof.
  intros Hne. unfold Map_delete. induction m as [|[k w] m IH]; simpl; [reflexivity|].
  destruct (sameValueZero k (JStr id)) eqn:Hk; simpl.
  - destruct k; simpl in Hk; try discriminate.
    apply String.eqb_eq in Hk. subst s. simpl.
    apply String.eqb_neq in Hne. rewrite Hne. exact IH.
  - destruct (sameValueZero k (JStr id')); [reflexivity|exact IH].
Qed.

Lemma Map_has_delete {V} (k : JValue) (m : JSMap V) :
  Map_has k (Map_delete k m) = false.
Proof. unfold Map_has. rewrite Map_get_delete_same. reflexivity. Qed.

Lemma Map_delete_absent {V} (k : JValue) (m : JSMap V) :
  Map_get k m = None -> Map_delete k m = m.
Proof.
  unfold Map_delete. induction m as [|[k' w] m IH]; simpl; [reflexivity|].
  destruct (sameValueZero k' k); [discriminate|]. simpl.
  intros H. rewrite (IH H). reflexivity.
Qed.

Lemma Map_values_app {V} (m1 m2 : JSMap V) :
  Map_values (m1 ++ m2) = Map_values m1 ++ Map_values m2.
Proof. apply map_app. Qed.

Lemma elem_of_List_filter {A} (f : A -> bool) (l : list A) (x : A) :
  x ∈ List.filter f l <-> f x = true /\ x ∈ l.
Proof. rewrite !list_elem_of_In, filter_In. tauto. Qed.

(** ** The sort *)

Section Sorting.

Context {A : Type}.
Variable key : A -> Z.

Abbreviation newer_first := (Array_sort (Storage.newest_first key)).
Abbreviation place := (sort_insert (Storage.newest_first key)).
Abbreviation descending := (descending key).
Abbreviation newest := (newest key).

Lemma sort_insert_perm (x : A) (l : list A) : place x l ≡ₚ x :: l.
Proof.
  induction l as [|y l IH]; simpl; [reflexivity|].
  destruct (_ <=? 0)%Z; [reflexivity|].
  rewrite IH. apply Permutation_swap.
Qed.

Lemma Array_sort_perm (l : list A) : newer_first l ≡ₚ l.
Proof.
  induction l as [|x l IH]; simpl; [reflexivity|].
  rewrite sort_insert_perm, IH. reflexivity.
Qed.

Lemma sort_insert_descending (x : A) (l : list A) :
  descending l -> descending (place x l).
Proof.
  unfold descending. induction l as [|y l IH]; intros Hs; simpl.
  - constructor; [constructor|constructor].
  - apply StronglySorted_inv in Hs as [Hl Hy].
    unfold Storage.newest_first at 1.
    destruct (key y - key x <=? 0)%Z eqn:Hc.
    + apply Z.leb_le in Hc. constructor.
      * constructor; assumption.
      * constructor; [lia|]. eapply Forall_impl; [exact Hy|].
        intros b Hb. simpl in Hb. lia.
    + apply Z.leb_gt in Hc. constructor; [apply IH, Hl|].
      eapply Forall_forall. intros b Hb.
      rewrite (sort_insert_perm x l) in Hb.
      apply elem_of_cons in Hb as [->|Hb]; [lia|].
      rewrite Forall_forall in Hy. apply Hy, Hb.
Qed.

Lemma Array_sort_descending (l : list A) : descending (newer_first l).
Proof.
  induction l as [|x l IH]; simpl; [constructor|].
  apply sort_insert_descending, IH.
Qed.

(** The sort is stable: the elements of one date keep their order. *)
Lemma sort_insert_stable (t : Z) (x : A) (l : list A) :
  descending l ->
  List.filter (fun a => (key a =? t)%Z) (place x l)
  = List.filter (fun a => (key a =? t)%Z) (x :: l).
Proof.
  unfold descending. induction l as [|y l IH]; intros Hs; [reflexivity|].
  apply StronglySorted_inv in Hs as [Hl Hy].
  cbn [sort_insert]. unfold Storage.newest_first at 1.
  destruct (key y - key x <=? 0)%Z eqn:Hc; [reflexivity|].
  apply Z.leb_gt in Hc.
  cbn [List.filter]. rewrite (IH Hl). cbn [List.filter].
  destruct (key x =? t)%Z eqn:Hx, (key y =? t)%Z eqn:Hyt; try reflexivity.
  apply Z.eqb_eq in Hx. apply Z.eqb_eq in Hyt. lia.
Qed.

Lemma Array_sort_stable (t : Z) (l : list A) :
  List.filter (fun a => (key a =? t)%Z) (newer_first l)
  = List.filter (fun a => (key a =? t)%Z) l.
Proof.
  induction l as [|x l IH]; [reflexivity|].
  cbn [Array_sort foldr]. fold (newer_first l).
  rewrite sort_insert_stable by apply Array_sort_descending.
  simpl. rewrite IH. reflexivity.
Qed.

Lemma head_sort_insert (x : A) (l : list A) :
  head (place x l)
  = match head l with
    | Some y => if (key x <? key y)%Z then Some y else Some x
    | None => Some x
    end.
Proof.
  destruct l as [|y l]; [reflexivity|]. simpl. unfold Storage.newest_first.
  destruct (key y - key x <=? 0)%Z eqn:Hc.
  - apply Z.leb_le in Hc. rewrite (proj2 (Z.ltb_ge _ _)) by lia. reflexivity.
  - apply Z.leb_gt in Hc. rewrite (proj2 (Z.ltb_lt _ _)) by lia. reflexivity.
Qed.

Lemma head_Array_sort (l : list A) : head (newer_first l) = newest l.
Proof.
  induction l as [|x l IH]; [reflexivity|].
  cbn [Array_sort foldr]. fold (newer_first l).
  rewrite head_sort_insert, IH. reflexivity.
Qed.

Lemma newest_None (l : list A) : newest l = None <-> l = [].
Proof.
  destruct l as [|x l]; [split; reflexivity|]. simpl.
  split; [|discriminate].
  destruct (newest l) as [y|]; [destruct (key x <? key y)%Z|]; discriminate.
Qed.

Lemma newest_spec (l : list A) (x : A) :
  newest l = Some x ->
  x ∈ l
  /\ (forall y, y ∈ l -> (key y <= key x)%Z)
  /\ head (List.filter (fun a => (key a =? key x)%Z) l) = Some x.
Proof.
  revert x. induction l as [|a l IH]; intros x; [discriminate|]. simpl.
  destruct (newest l) as [y|] eqn:Hl.
  - destruct (IH y eq_refl) as (Hin & Hmax & Hfirst).
    destruct (key a <? key y)%Z eqn:Hc; intros [= <-].
    + apply Z.ltb_lt in Hc. split; [apply list_elem_of_further, Hin|]. split.
      * intros z Hz. apply elem_of_cons in Hz as [->|Hz]; [lia|apply Hmax, Hz].
      * rewrite (proj2 (Z.eqb_neq _ _)) by lia. exact Hfirst.
    + apply Z.ltb_ge in Hc. split; [apply list_elem_of_here|]. split.
      * intros z Hz. apply elem_of_cons in Hz as [->|Hz]; [lia|].
        specialize (Hmax z Hz). lia.
      * rewrite Z.eqb_refl. reflexivity.
  - apply newest_None in Hl. subst l. intros [= <-].
    split; [apply list_elem_of_here|]. split.
    + intros z Hz. apply elem_of_cons in Hz as [->|Hz]; [lia|inversion Hz].
    + rewrite Z.eqb_refl. reflexivity.
Qed.

Lemma newest_snoc (l : list A) (x : A) :
  newest (l ++ [x])
  = match newest l with
    | Some y => if (key y <? key x)%Z then Some x else Some y
    | None => Some x
    end.
Proof.
  induction l as [|a l IH]; [reflexivity|].
  change (newest ((a :: l) ++ [x]))
    with (match newest (l ++ [x]) with
          | Some y => if (key a <? key y)%Z then Some y else Some a
          | None => Some a
          end).
  rewrite IH. simpl.
  destruct (newest l) as [y|];
    repeat (match goal with
            | |- context [(?u <? ?v)%Z] => destruct (Z.ltb_spec u v)
            end; simpl);
    try reflexivity; lia.
Qed.

End Sorting.

Ltac by_decide_levels :=
  repeat first [apply list_elem_of_here | apply list_elem_of_further].

Section StoreProperties.

Variable randomUUID : nat -> string.
Variable Date_new : nat -> Z.
Variable toFixed1 : float -> string.

Import Storage.

Abbreviation createStaff := (Storage.createStaff randomUUID).
Abbreviation createPatient := (Storage.createPatient randomUUID).
Abbreviation createTemperatureLog := (Storage.createTemperatureLog randomUUID Date_new).
Abbreviation createAlertLog := (Storage.createAlertLog randomUUID Date_new).
Abbreviation sendSMS := (Storage.sendSMS randomUUID Date_new).
Abbreviation sendTemperatureAlert := (Storage.sendTemperatureAlert randomUUID Date_new toFixed1).
Abbreviation buildAlertMessage := (Storage.buildAlertMessage toFixed1).
Abbreviation api_staff_post := (Storage.api_staff_post randomUUID).
Abbreviation api_patients_post := (Storage.api_patients_post randomUUID).
Abbreviation api_temperature_post := (Storage.api_temperature_post randomUUID Date_new toFixed1).
Abbreviation fresh := (fresh_ids randomUUID).
Abbreviation logFor := (alertLogFor randomUUID Date_new).

(** ** Listings *)

(** X8. The three listings are newest first.  The logs of a patient are
    exactly the stored logs with that [patientId], in descending order of
    [createdAt], logs of the same date in the order they were stored.
    The list of all temperature logs and the list of all alert logs hold
    every stored log once, in descending order of [createdAt], each with
    the patient now stored under its [patientId], if there is one. *)
Theorem listings_are_newest_first (patientId : string) (st : MemStorage) :
  let logs := getTemperatureLogsByPatient patientId st in
  (logs ≡ₚ logsOf patientId st
   /\ descending TemperatureLog.createdAt logs
   /\ forall t, dated TemperatureLog.createdAt t logs
                = dated TemperatureLog.createdAt t (logsOf patientId st))
  /\ (map Listed.log (getTemperatureLogs st) ≡ₚ Map_values (temperatureLogs st)
      /\ descending TemperatureLog.createdAt (map Listed.log (getTemperatureLogs st))
      /\ forall l, l ∈ getTemperatureLogs st ->
           Listed.patient l = getPatient (TemperatureLog.patientId (Listed.log l)) st)
  /\ (map Listed.log (getAlertLogs st) ≡ₚ Map_values (alertLogs st)
      /\ descending AlertLog.createdAt (map Listed.log (getAlertLogs st))
      /\ forall l, l ∈ getAlertLogs st ->
           Listed.patient l = getPatient (AlertLog.patientId (Listed.log l)) st).
Proof.
  intros logs. split; [|split].
  - split; [apply Array_sort_perm|]. split; [apply Array_sort_descending|].
    intros t. apply Array_sort_stable.
  - unfold getTemperatureLogs. rewrite map_map. simpl. rewrite map_id.
    split; [apply Array_sort_perm|]. split; [apply Array_sort_descending|].
    intros l Hl. apply list_elem_of_fmap in Hl as (log & -> & _). reflexivity.
  - unfold getAlertLogs. rewrite map_map. simpl. rewrite map_id.
    split; [apply Array_sort_perm|]. split; [apply Array_sort_descending|].
    intros l Hl. apply list_elem_of_fmap in Hl as (log & -> & _). reflexivity.
Qed.

(** ** The latest reading *)

Lemma getLatestTemperature_newest (patientId : string) (st : MemStorage) :
  getLatestTemperature patientId st
  = newest TemperatureLog.createdAt (logsOf patientId st).
Proof. apply head_Array_sort. Qed.

(** X9. The latest reading of a patient is the stored reading of that patient
    with the greatest [createdAt], and of several with that date the one
    stored first; there is none exactly when no reading of the patient is
    stored. *)
Theorem latest_reading_is_the_newest (patientId : string) (st : MemStorage) :
  (getLatestTemperature patientId st = None <-> logsOf patientId st = [])
  /\ forall log,
       getLatestTemperature patientId st = Some log ->
       log ∈ Map_values (temperatureLogs st)
       /\ TemperatureLog.patientId log = patientId
       /\ (forall other, other ∈ logsOf patientId st ->
             (TemperatureLog.createdAt other <= TemperatureLog.createdAt log)%Z)
       /\ head (dated TemperatureLog.createdAt (TemperatureLog.createdAt log)
                      (logsOf patientId st)) = Some log.
Proof.
  rewrite getLatestTemperature_newest. split; [apply newest_None|].
  intros log Hlog. apply newest_spec in Hlog as (Hin & Hmax & Hfirst).
  unfold logsOf in Hin. apply elem_of_List_filter in Hin as [Hid Hin].
  apply String.eqb_eq in Hid.
  split; [exact Hin|]. split; [exact Hid|]. split; [exact Hmax|exact Hfirst].
Qed.

Lemma createTemperatureLog_effect (insertLog : InsertTemperatureLog.t) (st : MemStorage) :
  Map_get (JStr (randomUUID (uuids st))) (temperatureLogs st) = None ->
  let log := TemperatureLog.mk (randomUUID (uuids st))
               (InsertTemperatureLog.patientId insertLog)
               (InsertTemperatureLog.tempC insertLog)
               (InsertTemperatureLog.tempF insertLog)
               (InsertTemperatureLog.riskLevel insertLog)
               (Date_new (dates st)) in
  createTemperatureLog insertLog st
  = (log, mkMemStorage (staff st) (patients st)
                       (temperatureLogs st ++ [(JStr (randomUUID (uuids st)), log)])
                       (alertLogs st) (S (uuids st)) (S (dates st)) (console st)).
Proof.
  intros Hfresh log. unfold Storage.createTemperatureLog, draw_uuid, new_Date. simpl.
  rewrite Map_set_fresh by exact Hfresh. reflexivity.
Qed.

Lemma logsOf_snoc (patientId : string) (st st' : MemStorage)
      (id : JValue) (log : TemperatureLog.t) :
  temperatureLogs st' = temperatureLogs st ++ [(id, log)] ->
  logsOf patientId st'
  = logsOf patientId st
    ++ (if String.eqb (TemperatureLog.patientId log) patientId then [log] else []).
Proof.
  intros H. unfold logsOf. rewrite H, Map_values_app, List.filter_app. reflexivity.
Qed.

(** X10. A new reading becomes the latest reading of its patient only when it
    is strictly newer than the latest one so far: a reading stored with
    the same date as the latest, or an older one, leaves the latest as it
    was.  The latest reading of every other patient is left as it was. *)
Theorem new_reading_is_latest_if_newer
        (insertLog : InsertTemperatureLog.t) (st : MemStorage) :
  Map_get (JStr (randomUUID (uuids st))) (temperatureLogs st) = None ->
  let log := fst (createTemperatureLog insertLog st) in
  let st' := snd (createTemperatureLog insertLog st) in
  let patientId := InsertTemperatureLog.patientId insertLog in
  TemperatureLog.createdAt log = Date_new (dates st)
  /\ getLatestTemperature patientId st'
     = match getLatestTemperature patientId st with
       | Some latest =>
           if (TemperatureLog.createdAt latest <? TemperatureLog.createdAt log)%Z
           then Some log else Some latest
       | None => Some log
       end
  /\ forall other, other <> patientId ->
       getLatestTemperature other st' = getLatestTemperature other st.
Proof.
  intros Hfresh log st' patientId.
  pose proof (createTemperatureLog_effect insertLog st Hfresh) as Heff.
  simpl in Heff. unfold log, st'. rewrite Heff. simpl.
  split; [reflexivity|]. split.
  - rewrite !getLatestTemperature_newest.
    erewrite logsOf_snoc by reflexivity. simpl.
    fold patientId. rewrite String.eqb_refl.
    exact (newest_snoc TemperatureLog.createdAt _ _).
  - intros other Hother. rewrite !getLatestTemperature_newest.
    erewrite logsOf_snoc by reflexivity. simpl.
    fold patientId. apply not_eq_sym in Hother. apply String.eqb_neq in Hother.
    rewrite Hother, app_nil_r. reflexivity.
Qed.

(** ** Alerts *)

Lemma fresh_ids_tail {V} (from k : nat) (m : JSMap V) (v : V) :
  fresh from (S k) m ->
  Map_get (JStr (randomUUID from)) m = None
  /\ fresh (S from) k (m ++ [(JStr (randomUUID from), v)]).
Proof.
  intros [Hnd Hkeys]. cbn [seq map] in Hnd. apply NoDup_cons in Hnd as [Hhead Hnd].
  split; [apply Hkeys; lia|]. split; [exact Hnd|].
  intros i Hi. rewrite Map_get_app_fresh, Hkeys by lia.
  destruct (String.eqb_spec (randomUUID from) (randomUUID i)) as [Heq|]; [|reflexivity].
  exfalso. apply Hhead. rewrite Heq. apply list_elem_of_fmap.
  exists i. split; [reflexivity|]. apply list_elem_of_In, in_seq. lia.
Qed.

Lemma sendSMS_effect (patient : Patient.t) (recipient : AlertRecipient.t)
      (message riskLevel : string) (st : MemStorage) :
  Map_get (JStr (randomUUID (uuids st))) (alertLogs st) = None ->
  exists lines,
    length lines = 2
    /\ sendSMS patient recipient message riskLevel st
       = mkMemStorage (staff st) (patients st) (temperatureLogs st)
           (alertLogs st
            ++ [(JStr (randomUUID (uuids st)),
                 logFor (uuids st) (dates st) patient message 0 recipient)])
           (S (uuids st)) (S (dates st)) (console st ++ lines).
Proof.
  intros Hfresh. eexists [_; _]. split; [reflexivity|].
  unfold Storage.sendSMS, Storage.createAlertLog, draw_uuid, new_Date, console_log,
    alertLogFor. simpl.
  rewrite Map_set_fresh by exact Hfresh.
  rewrite <- app_assoc, !Nat.add_0_r. reflexivity.
Qed.

Lemma sendSMS_each (patient : Patient.t) (message riskLevel : string)
      (recipients : list AlertRecipient.t) :
  forall st,
    fresh (uuids st) (length recipients) (alertLogs st) ->
    let st' := fold_left (fun st recipient => sendSMS patient recipient message riskLevel st)
                         recipients st in
    Map_values (alertLogs st')
    = Map_values (alertLogs st)
      ++ imap (logFor (uuids st) (dates st) patient message) recipients
    /\ staff st' = staff st
    /\ patients st' = patients st
    /\ temperatureLogs st' = temperatureLogs st
    /\ uuids st' = uuids st + length recipients
    /\ dates st' = dates st + length recipients
    /\ length (console st') = length (console st) + 2 * length recipients.
Proof.
  induction recipients as [|r rest IH]; intros st Hfresh.
  - simpl. rewrite app_nil_r, !Nat.add_0_r. repeat split; reflexivity.
  - apply (fresh_ids_tail _ _ _ (logFor (uuids st) (dates st) patient message 0 r))
      in Hfresh as [Hhead Htail].
    destruct (sendSMS_effect patient r message riskLevel st Hhead) as (lines & Hlines & Heff).
    cbn [fold_left]. rewrite Heff.
    set (st1 := mkMemStorage _ _ _ _ _ _ _).
    destruct (IH st1 Htail) as (Hlogs & Hstaff & Hpatients & Htemp & Huuids & Hdates & Hcons).
    split; [|repeat split].
    + rewrite Hlogs. unfold st1. cbn [alertLogs uuids dates].
      rewrite Map_values_app, <- app_assoc. cbn [imap]. f_equal. simpl. f_equal.
      apply imap_ext. intros i x _. unfold alertLogFor. simpl.
      rewrite !Nat.add_succ_r. reflexivity.
    + exact Hstaff.
    + exact Hpatients.
    + exact Htemp.
    + rewrite Huuids. simpl. lia.
    + rewrite Hdates. simpl. lia.
    + rewrite Hcons. unfold st1. cbn [console]. rewrite length_app, Hlines. simpl. lia.
Qed.



(** ** Posting a reading *)

Lemma temperatureInputSchema_accepts (input : JValue) (data : TemperatureInput.t) :
  temperatureInputSchema input = Some data ->
  field "patientId" input = JStr (TemperatureInput.patientId data)
  /\ field "tempC" input = JNum (TemperatureInput.tempC data)
  /\ field "tempF" input = JNum (TemperatureInput.tempF data)
  /\ TemperatureInput.patientId data <> EmptyString
  /\ (30 <=? TemperatureInput.tempC data)%float = true
  /\ (TemperatureInput.tempC data <=? 45)%float = true
  /\ (86 <=? TemperatureInput.tempF data)%float = true
  /\ (TemperatureInput.tempF data <=? 113)%float = true.
Proof.
  unfold temperatureInputSchema, field. destruct input as [| | | | |items|props]; try discriminate.
  simpl.
  destruct (lookupProp "patientId" props) as [| | | |patientId| |]; try discriminate.
  destruct (lookupProp "tempC" props) as [| | |tempC| | |]; try discriminate.
  destruct (lookupProp "tempF" props) as [| | |tempF| | |]; try discriminate.
  destruct (negb (String.eqb patientId EmptyString)) eqn:Hid; [|discriminate].
  destruct (30 <=? tempC)%float eqn:H1; [|discriminate].
  destruct (tempC <=? 45)%float eqn:H2; [|discriminate].
  destruct (86 <=? tempF)%float eqn:H3; [|discriminate].
  destruct (tempF <=? 113)%float eqn:H4; [|discriminate].
  simpl. intros [= <-]. simpl. repeat split; try assumption.
  intros ->. discriminate Hid.
Qed.

(** X12. [POST /api/temperature].  A body the schema rejects is answered with
    400 and a reading for a patient that is not stored with 404, both
    without touching the store; what the schema accepts has a non-empty
    [patientId], a [tempC] from 30 to 45 and a [tempF] from 86 to 113.
    Otherwise the answer is 201: the
    reading is stored once, under a new id, with the date of the request
    and the risk level computed from the patient's thresholds; alerts
    are sent exactly when that level is not normal, one alert log per
    recipient, and the answer says so.  Staff and patients are left as
    they were. *)
Theorem reading_is_stored_and_alerted (req_body : JValue) (st : MemStorage) :
  (temperatureInputSchema req_body = None ->
   api_temperature_post req_body st = (Failure 400 "Invalid temperature data", st))
  /\ forall data,
       temperatureInputSchema req_body = Some data ->
       let patientId := TemperatureInput.patientId data in
       let tempC := TemperatureInput.tempC data in
       let tempF := TemperatureInput.tempF data in
       (field "patientId" req_body = JStr patientId
        /\ field "tempC" req_body = JNum tempC
        /\ field "tempF" req_body = JNum tempF
        /\ patientId <> EmptyString
        /\ (30 <=? tempC)%float = true /\ (tempC <=? 45)%float = true
        /\ (86 <=? tempF)%float = true /\ (tempF <=? 113)%float = true)
       /\ (getPatient patientId st = None ->
           api_temperature_post req_body st = (Failure 404 "Patient not found", st))
       /\ forall patient,
            getPatient patientId st = Some patient ->
            let riskLevel :=
              calculateRiskLevel tempC (ToNumber (Patient.thresholdMin patient))
                                 (ToNumber (Patient.thresholdMax patient)) in
            let recipients :=
              if String.eqb riskLevel "normal" then [] else recipientsOf patient st in
            let log := TemperatureLog.mk (randomUUID (uuids st)) patientId tempC tempF
                                         riskLevel (Date_new (dates st)) in
            let st' := snd (api_temperature_post req_body st) in
            riskLevel ∈ ["critical"; "warning"; "normal"]
            /\ (fresh (uuids st) 1 (temperatureLogs st) ->
                fresh (S (uuids st)) (length recipients) (alertLogs st) ->
                fst (api_temperature_post req_body st)
                = Json 201 (TemperatureCreated.mk log riskLevel
                              (negb (String.eqb riskLevel "normal")))
                /\ Map_values (temperatureLogs st') = Map_values (temperatureLogs st) ++ [log]
                /\ Map_values (alertLogs st')
                   = Map_values (alertLogs st)
                     ++ imap (logFor (S (uuids st)) (S (dates st)) patient
                                (buildAlertMessage patient tempC tempF riskLevel))
                             recipients
                /\ staff st' = staff st
                /\ patients st' = patients st).
Proof.
  split.
  - intros Hparse. unfold Storage.api_temperature_post. rewrite Hparse. reflexivity.
  - intros data Hparse patientId tempC tempF.
    split; [exact (temperatureInputSchema_accepts req_body data Hparse)|]. split.
    + intros Hnone. unfold Storage.api_temperature_post. rewrite Hparse.
      fold patientId. rewrite Hnone. reflexivity.
    + intros patient Hsome riskLevel recipients log st'. split.
      { unfold riskLevel, calculateRiskLevel.
        destruct (_ || _); [apply list_elem_of_here|].
        destruct (_ || _); [apply list_elem_of_further, list_elem_of_here|].
        apply list_elem_of_further, list_elem_of_further, list_elem_of_here. }
      intros [_ Hlog] Halerts.
      assert (Hfresh : Map_get (JStr (randomUUID (uuids st))) (temperatureLogs st) = None)
        by (apply Hlog; lia).
      pose proof (createTemperatureLog_effect
                    (InsertTemperatureLog.mk patientId tempC tempF riskLevel) st Hfresh)
        as Hcreate.
      cbn zeta in Hcreate. cbn [InsertTemperatureLog.patientId InsertTemperatureLog.tempC
        InsertTemperatureLog.tempF InsertTemperatureLog.riskLevel] in Hcreate.
      fold log in Hcreate.
      set (st1 := mkMemStorage _ _ _ _ _ _ _) in Hcreate.
      assert (Hrun : api_temperature_post req_body st
                     = (Json 201 (TemperatureCreated.mk log riskLevel
                                    (negb (String.eqb riskLevel "normal"))),
                        if negb (String.eqb riskLevel "normal")
                        then sendTemperatureAlert patient tempC tempF riskLevel st1
                        else st1)).
      { unfold Storage.api_temperature_post. rewrite Hparse.
        fold patientId tempC tempF. rewrite Hsome. fold riskLevel.
        rewrite Hcreate. reflexivity. }
      unfold st'. rewrite Hrun. cbn [fst snd]. split; [reflexivity|].
      unfold recipients in *. destruct (String.eqb riskLevel "normal") eqn:Hrisk; cbn [negb].
      * unfold st1. cbn [temperatureLogs alertLogs staff patients imap].
        rewrite Map_values_app, app_nil_r. repeat split; reflexivity.
      * unfold Storage.sendTemperatureAlert. rewrite Hrisk.
        assert (Hrec : recipientsOf patient st1 = recipientsOf patient st) by reflexivity.
        rewrite Hrec.
        destruct (sendSMS_each patient (buildAlertMessage patient tempC tempF riskLevel)
                    riskLevel (recipientsOf patient st) st1 Halerts)
          as (Hlogs & Hstaff & Hpat & Htemp & _).
        rewrite Hlogs, Htemp, Hstaff, Hpat. unfold st1.
        cbn [temperatureLogs alertLogs staff patients uuids dates].
        rewrite Map_values_app. repeat split; reflexivity.
Qed.

(** ** The dashboard *)

Lemma count_by_three {A} (p1 p2 p3 : A -> bool) (l : list A) :
  (forall x, x ∈ l -> Nat.b2n (p1 x) + Nat.b2n (p2 x) + Nat.b2n (p3 x) = 1) ->
  length l
  = length (List.filter p1 l) + length (List.filter p2 l) + length (List.filter p3 l).
Proof.
  induction l as [|x l IH]; intros Hone; [reflexivity|].
  specialize (IH (fun y Hy => Hone y (list_elem_of_further _ _ _ Hy))).
  specialize (Hone x (list_elem_of_here _ _)).
  cbn [List.filter].
  destruct (p1 x), (p2 x), (p3 x); simpl in *; lia.
Qed.

Lemma latest_is_stored (st : MemStorage) (patient : Patient.t) (log : TemperatureLog.t) :
  PatientWithDetails.latestTemperature (withDetails st patient) = Some log ->
  log ∈ Map_values (temperatureLogs st).
Proof.
  simpl. rewrite getLatestTemperature_newest. intros H.
  apply newest_spec in H as (Hin & _). apply elem_of_List_filter in Hin as [_ Hin].
  exact Hin.
Qed.

Lemma counts_partition (staffId role : option string) (st : MemStorage) :
  known_levels st ->
  let stats := getDashboardStats staffId role st in
  DashboardStats.totalPatients stats
  = DashboardStats.criticalAlerts stats + DashboardStats.warningAlerts stats
    + DashboardStats.normalRange stats.
Proof.
  intros Hlevels stats.
  assert (Hone : forall patient,
             let p := withDetails st patient in
             Nat.b2n (latestIs "critical" p) + Nat.b2n (latestIs "warning" p)
             + Nat.b2n (latestIs "normal" p
                        || match PatientWithDetails.latestTemperature p with
                           | Some _ => false | None => true end) = 1).
  { intros patient p. pose proof (latest_is_stored st patient) as Hstored.
    fold p in Hstored. unfold latestIs.
    destruct (PatientWithDetails.latestTemperature p) as [log|]; [|reflexivity].
    specialize (Hlevels log (Hstored log eq_refl)).
    repeat (apply elem_of_cons in Hlevels as [->|Hlevels]; [reflexivity|]).
    inversion Hlevels. }
  unfold stats, getDashboardStats. cbn [DashboardStats.totalPatients
    DashboardStats.criticalAlerts DashboardStats.warningAlerts DashboardStats.normalRange].
  apply count_by_three. intros p Hp.
  destruct (is_string role "admin" || negb (given staffId));
    unfold getAllPatientsWithDetails, getPatientsByStaff in Hp;
    apply list_elem_of_fmap in Hp as (patient & -> & _); apply Hone.
Qed.


(** ** The critical patients *)

Lemma filter_map_details {A B} (f : A -> B) (p : B -> bool) (l : list A) :
  List.filter p (map f l) = map f (List.filter (fun x => p (f x)) l).
Proof.
  induction l as [|x l IH]; [reflexivity|]. simpl.
  destruct (p (f x)); simpl; rewrite IH; reflexivity.
Qed.

Lemma filter_filter_swap {A} (p q : A -> bool) (l : list A) :
  List.filter p (List.filter q l) = List.filter q (List.filter p l).
Proof.
  induction l as [|x l IH]; [reflexivity|]. simpl.
  destruct (q x) eqn:Hq, (p x) eqn:Hp; simpl; rewrite ?Hq, ?Hp, IH; reflexivity.
Qed.

(** X14. The critical patients of a staff member are listed the same way round
    either route: [GET /api/patients/critical] answers with the patients
    of [GET /api/patients] whose latest reading is critical, in the same
    order, and unless the role is admin the critical count of the
    dashboard is the length of that list. *)
Theorem critical_views_agree (staffId role : option string) (st : MemStorage) :
  exists listed,
    api_patients staffId st = Json 200 listed
    /\ api_patients_critical staffId st
       = Json 200 (List.filter (latestIs "critical") listed)
    /\ (role <> Some "admin" ->
        DashboardStats.criticalAlerts (getDashboardStats staffId role st)
        = length (List.filter (latestIs "critical") listed)).
Proof.
  unfold api_patients, api_patients_critical, getDashboardStats, getCriticalPatients.
  assert (Hrole : role <> Some "admin" -> is_string role "admin" = false).
  { intros Hrole. destruct role as [r|]; [|reflexivity]. simpl.
    apply String.eqb_neq. congruence. }
  destruct (given staffId) eqn:Hgiven.
  - eexists. split; [reflexivity|]. split.
    + f_equal. unfold getPatientsByStaff, getAllPatientsWithDetails.
      rewrite (filter_map_details (withDetails st) (latestIs "critical")
                 (Map_values (patients st))).
      rewrite (filter_map_details (withDetails st)
                 (fun p => assignedTo _ (PatientWithDetails.patient p))).
      rewrite (filter_map_details (withDetails st) (latestIs "critical")
                 (List.filter _ _)).
      f_equal.
      exact (filter_filter_swap (assignedTo _)
               (fun x => latestIs "critical" (withDetails st x)) _).
    + intros H. rewrite (Hrole H). reflexivity.
  - eexists. split; [reflexivity|]. split; [reflexivity|].
    intros H. rewrite (Hrole H). reflexivity.
Qed.

(** ** Staff accounts *)

Lemma find_none_emails (email : string) (l : list Staff.t) :
  List.find (fun s => String.eqb (Staff.email s) email) l = None
  <-> email ∉ map Staff.email l.
Proof.
  induction l as [|x l IH]; simpl.
  - split; [intros _ H; inversion H|reflexivity].
  - rewrite not_elem_of_cons. destruct (String.eqb_spec (Staff.email x) email) as [He|He].
    + split; [discriminate|]. intros [Hne _]. congruence.
    + rewrite IH. split; [intros H; split; [congruence|exact H]|intros [_ H]; exact H].
Qed.

Lemma find_snoc_new (email : string) (l : list Staff.t) (x : Staff.t) :
  email ∉ map Staff.email l ->
  Staff.email x = email ->
  List.find (fun s => String.eqb (Staff.email s) email) (l ++ [x]) = Some x.
Proof.
  intros Hnew Hx. induction l as [|y l IH]; simpl.
  - rewrite Hx, String.eqb_refl. reflexivity.
  - simpl in Hnew. apply not_elem_of_cons in Hnew as [Hy Hnew].
    destruct (String.eqb_spec (Staff.email y) email) as [He|He]; [congruence|].
    apply IH, Hnew.
Qed.

(** X15. [POST /api/staff] keeps the emails of the staff distinct.  A request
    with an email that is taken is refused with 400 and changes nothing.
    A request with a new email is answered with 201 and the account
    without its password; the account is stored last, and from then on
    it is the account found under its id and under its email. *)
Theorem registration_keeps_emails_distinct (parsed : option InsertStaff.t) (st : MemStorage) :
  NoDup (map Staff.email (getAllStaff st)) ->
  Map_get (JStr (randomUUID (uuids st))) (staff st) = None ->
  let reply := fst (api_staff_post parsed st) in
  let st' := snd (api_staff_post parsed st) in
  NoDup (map Staff.email (getAllStaff st'))
  /\ (parsed = None -> reply = Failure 400 "Invalid staff data" /\ st' = st)
  /\ forall data,
       parsed = Some data ->
       (InsertStaff.email data ∈ map Staff.email (getAllStaff st) ->
        reply = Failure 400 "Email already exists" /\ st' = st)
       /\ ((InsertStaff.email data ∉ map Staff.email (getAllStaff st)) ->
           exists account,
             reply = Json 201 (omitPassword account)
             /\ Staff.id account = randomUUID (uuids st)
             /\ getAllStaff st' = getAllStaff st ++ [account]
             /\ getStaff (Staff.id account) st' = Some account
             /\ getStaffByEmail (InsertStaff.email data) st' = Some account).
Proof.
  intros Hnd Hfresh reply st'.
  destruct parsed as [data|].
  2:{ split; [exact Hnd|]. split; [intros _; split; reflexivity|discriminate]. }
  unfold reply, st', Storage.api_staff_post, getStaffByEmail.
  fold (getAllStaff st).
  destruct (List.find _ (getAllStaff st)) as [taken|] eqn:Hfind.
  - simpl. split; [exact Hnd|]. split; [discriminate|].
    intros data' [= <-]. split; [intros _; split; reflexivity|].
    intros Hnew. apply find_none_emails in Hnew. congruence.
  - apply find_none_emails in Hfind.
    unfold Storage.createStaff, draw_uuid. simpl.
    rewrite Map_set_fresh by exact Hfresh.
    set (account := Staff.mk _ _ _ _ _ _).
    assert (Hall : getAllStaff
                     (with_staff (staff st ++ [(JStr (randomUUID (uuids st)), account)])
                                 (with_uuids (S (uuids st)) st))
                   = getAllStaff st ++ [account]).
    { unfold getAllStaff. simpl. rewrite Map_values_app. reflexivity. }
    split; [|split; [discriminate|]].
    + rewrite Hall, map_app. apply NoDup_app. split; [exact Hnd|]. split.
      * intros e He Hin. apply list_elem_of_singleton in Hin. subst e. exact (Hfind He).
      * apply NoDup_singleton.
    + intros data' [= <-]. split.
      * intros Htaken. contradiction.
      * intros _. exists account. split; [reflexivity|]. split; [reflexivity|].
        split; [exact Hall|]. split.
        { unfold getStaff. simpl. rewrite Map_get_app_fresh, Hfresh, String.eqb_refl.
          reflexivity. }
        assert (Hlogin : getStaffByEmail (InsertStaff.email data)
                           (with_staff (staff st ++ [(JStr (randomUUID (uuids st)), account)])
                                       (with_uuids (S (uuids st)) st))
                         = Some account).
        { unfold getStaffByEmail. fold (getAllStaff
            (with_staff (staff st ++ [(JStr (randomUUID (uuids st)), account)])
                        (with_uuids (S (uuids st)) st))).
          rewrite Hall. apply find_snoc_new; [exact Hfind|reflexivity]. }
        exact Hlogin.
Qed.

(** ** Logging in *)

Lemma createStaff_found_by_email (data : InsertStaff.t) (st : MemStorage) :
  Map_get (JStr (randomUUID (uuids st))) (staff st) = None ->
  InsertStaff.email data ∉ map Staff.email (getAllStaff st) ->
  getStaffByEmail (InsertStaff.email data) (snd (createStaff data st))
  = Some (fst (createStaff data st)).
Proof.
  intros Hfresh Hnew.
  unfold Storage.createStaff, draw_uuid, getStaffByEmail. simpl.
  rewrite Map_set_fresh by exact Hfresh. rewrite Map_values_app.
  apply find_snoc_new; [exact Hnew|reflexivity].
Qed.

(** X24. [POST /api/auth/login] looks at the format of the body before it
    looks anything up.  [loginSchema] accepts exactly the objects whose
    [email] is a string that passes the address test and whose [password]
    is a string that is not empty, and hands on these two strings; any
    other body is answered with 400, whatever is stored, and no 400 is
    given to a body that is accepted.  After [POST /api/staff] has
    registered an account under a new email, a login with that email is
    answered with 400 when the email is not an address or the password is
    empty, with the account without its password when the password is
    the registered one, and with 401 for any other password. *)
Theorem login_checks_format_then_password
        (isEmail : string -> bool) (data : InsertStaff.t) (st : MemStorage) :
  Map_get (JStr (randomUUID (uuids st))) (staff st) = None ->
  (InsertStaff.email data ∉ map Staff.email (getAllStaff st)) ->
  let account := fst (createStaff data st) in
  let st' := snd (api_staff_post (Some data) st) in
  (forall body parsed,
     loginSchema isEmail body = Some parsed
     <-> exists props,
           body = JObj props
           /\ lookupProp "email" props = JStr (LoginCredentials.email parsed)
           /\ lookupProp "password" props = JStr (LoginCredentials.password parsed)
           /\ isEmail (LoginCredentials.email parsed) = true
           /\ LoginCredentials.password parsed <> EmptyString)
  /\ (forall body st0,
        Storage.api_auth_login isEmail body st0 = Failure 400 "Invalid credentials format"
        <-> loginSchema isEmail body = None)
  /\ fst (api_staff_post (Some data) st) = Json 201 (omitPassword account)
  /\ forall password,
       Storage.api_auth_login isEmail
         (JObj [("email", JStr (InsertStaff.email data)); ("password", JStr password)]) st'
       = if isEmail (InsertStaff.email data) && negb (String.eqb password EmptyString)
         then if String.eqb password (InsertStaff.password data)
              then Json 200 (omitPassword account)
              else Failure 401 "Invalid email or password"
         else Failure 400 "Invalid credentials format".
Proof.
  intros Hfresh Hnew account st'.
  assert (Hfound := createStaff_found_by_email data st Hfresh Hnew).
  assert (Hpost : api_staff_post (Some data) st
                  = (Json 201 (omitPassword account), snd (createStaff data st))).
  { unfold Storage.api_staff_post, account.
    destruct (find_none_emails (InsertStaff.email data) (getAllStaff st)) as [_ Hnone].
    unfold getStaffByEmail. fold (getAllStaff st). rewrite (Hnone Hnew).
    destruct (createStaff data st). reflexivity. }
  split; [|split; [|split]].
  - intros body [email password]. unfold loginSchema. simpl. split.
    + intros Hparsed. destruct body as [| | | | |items|props]; try discriminate Hparsed.
      exists props. split; [reflexivity|].
      destruct (lookupProp "email" props) as [| | | |e| |]; try discriminate Hparsed.
      destruct (lookupProp "password" props) as [| | | |p| |]; try discriminate Hparsed.
      destruct (isEmail e) eqn:He; [|discriminate Hparsed].
      destruct (String.eqb_spec p EmptyString) as [Hp|Hp]; [discriminate Hparsed|].
      simpl in Hparsed. injection Hparsed as <- <-. repeat split; assumption.
    + intros (props & -> & -> & -> & He & Hp).
      rewrite He. apply String.eqb_neq in Hp. rewrite Hp. reflexivity.
  - intros body st0. unfold Storage.api_auth_login.
    destruct (loginSchema isEmail body) as [parsed|]; [|split; reflexivity].
    split; [|discriminate].
    destruct (getStaffByEmail _ st0) as [user|]; [|discriminate].
    destruct (String.eqb _ _); discriminate.
  - rewrite Hpost. reflexivity.
  - intros password. unfold st'. rewrite Hpost. cbn [snd].
    unfold Storage.api_auth_login, loginSchema. cbn [lookupProp String.eqb Ascii.eqb Bool.eqb].
    simpl lookupProp.
    destruct (isEmail (InsertStaff.email data) && negb (String.eqb password EmptyString));
      [|reflexivity].
    cbn [LoginCredentials.email LoginCredentials.password]. rewrite Hfound.
    assert (Hpw : Staff.password (fst (createStaff data st)) = InsertStaff.password data)
      by reflexivity.
    rewrite Hpw, (String.eqb_sym (InsertStaff.password data) password).
    reflexivity.
Qed.

(** X16. [DELETE /api/staff/:id] answers 204 when a staff member was stored
    under the id and 404 otherwise; afterwards nobody is stored under
    the id, everyone else is, and a second request is answered with 404.
    The patients are not touched: one whose doctor was deleted keeps the
    [doctorId], is shown without a doctor, and its alerts have no doctor
    among the recipients. *)
Theorem deleted_staff_is_gone (id : string) (st : MemStorage) :
  let reply := fst (api_staff_delete id st) in
  let st' := snd (api_staff_delete id st) in
  (reply = match getStaff id st with
           | Some _ => NoContent
           | None => Failure 404 "Staff not found"
           end)
  /\ getStaff id st' = None
  /\ (forall other, other <> id -> getStaff other st' = getStaff other st)
  /\ fst (api_staff_delete id st') = Failure 404 "Staff not found"
  /\ snd (api_staff_delete id st') = st'
  /\ patients st' = patients st
  /\ forall patient,
       Patient.doctorId patient = Some id ->
       PatientWithDetails.doctor (withDetails st' patient) = None
       /\ forall r, r ∈ recipientsOf patient st' -> AlertRecipient.type r <> "doctor".
Proof.
  intros reply st'.
  assert (Hst' : st' = with_staff (Map_delete (JStr id) (staff st)) st).
  { unfold st', api_staff_delete, deleteStaff. simpl.
    destruct (Map_has (JStr id) (staff st)); reflexivity. }
  assert (Hgone : getStaff id st' = None).
  { rewrite Hst'. unfold getStaff. simpl. apply Map_get_delete_same. }
  split; [|split; [exact Hgone|split; [|split; [|split; [|split]]]]].
  - unfold reply, api_staff_delete, deleteStaff, getStaff, Map_has. simpl.
    destruct (Map_get (JStr id) (staff st)); reflexivity.
  - intros other Hother. rewrite Hst'. unfold getStaff. simpl.
    apply Map_get_delete_other. congruence.
  - unfold api_staff_delete, deleteStaff, Map_has. simpl.
    unfold getStaff in Hgone. rewrite Hgone. reflexivity.
  - unfold api_staff_delete, deleteStaff, Map_has. simpl.
    unfold getStaff in Hgone. rewrite Hgone. simpl.
    rewrite (Map_delete_absent _ _ Hgone). destruct st'; reflexivity.
  - rewrite Hst'. reflexivity.
  - intros patient Hdoctor. split.
    + simpl. rewrite Hdoctor. simpl. rewrite Hgone. destruct (negb _); reflexivity.
    + intros r Hr. unfold recipientsOf in Hr. rewrite Hdoctor in Hr. simpl in Hr.
      rewrite Hgone in Hr.
      assert (Hnone : (if negb (String.eqb id EmptyString)
                       then @nil AlertRecipient.t else []) = [])
        by (destruct (negb _); reflexivity).
      rewrite Hnone in Hr. simpl in Hr.
      apply elem_of_app in Hr as [Hr|Hr].
      * destruct (given (Patient.nurseId patient)); [|inversion Hr].
        match type of Hr with
        | context [match ?found with Some _ => _ | None => _ end] =>
            destruct found; [|inversion Hr]
        end.
        apply list_elem_of_singleton in Hr as ->. discriminate.
      * apply list_elem_of_singleton in Hr as ->. discriminate.
Qed.

(** X17. [DELETE /api/patients/:id] takes the patient out of the store and
    nothing else: the readings and alert logs of the patient stay, the
    listings still show them, now without a patient, and the patient's
    latest reading can still be read; a new reading for the patient is
    refused with 404. *)
Theorem deleted_patient_keeps_its_logs (id : string) (req_body : JValue) (st : MemStorage) :
  let reply := fst (api_patient_delete id st) in
  let st' := snd (api_patient_delete id st) in
  (reply = match getPatient id st with
           | Some _ => NoContent
           | None => Failure 404 "Patient not found"
           end)
  /\ getPatient id st' = None
  /\ (forall other, other <> id -> getPatient other st' = getPatient other st)
  /\ temperatureLogs st' = temperatureLogs st
  /\ alertLogs st' = alertLogs st
  /\ map Listed.log (getTemperatureLogs st') = map Listed.log (getTemperatureLogs st)
  /\ (forall l, l ∈ getTemperatureLogs st' ->
                TemperatureLog.patientId (Listed.log l) = id -> Listed.patient l = None)
  /\ getLatestTemperature id st' = getLatestTemperature id st
  /\ (forall data, temperatureInputSchema req_body = Some data ->
                   TemperatureInput.patientId data = id ->
                   api_temperature_post req_body st'
                   = (Failure 404 "Patient not found", st')).
Proof.
  intros reply st'.
  assert (Hst' : st' = with_patients (Map_delete (JStr id) (patients st)) st).
  { unfold st', api_patient_delete, deletePatient. simpl.
    destruct (Map_has (JStr id) (patients st)); reflexivity. }
  assert (Hgone : getPatient id st' = None).
  { rewrite Hst'. unfold getPatient. simpl. apply Map_get_delete_same. }
  split; [|split; [exact Hgone|split; [|split; [|split; [|split; [|split; [|split]]]]]]].
  - unfold reply, api_patient_delete, deletePatient, getPatient, Map_has. simpl.
    destruct (Map_get (JStr id) (patients st)); reflexivity.
  - intros other Hother. rewrite Hst'. unfold getPatient. simpl.
    apply Map_get_delete_other. congruence.
  - rewrite Hst'. reflexivity.
  - rewrite Hst'. reflexivity.
  - rewrite Hst'. unfold getTemperatureLogs. rewrite !map_map. reflexivity.
  - intros l Hl Hid. unfold getTemperatureLogs in Hl.
    apply list_elem_of_fmap in Hl as (log & -> & _). simpl in *. rewrite Hid.
    exact Hgone.
  - rewrite Hst'. reflexivity.
  - intros data Hparse Hid. unfold Storage.api_temperature_post.
    rewrite Hparse, Hid, Hgone. reflexivity.
Qed.

(** ** Thresholds *)

Lemma assoc_string_None {V} (k : string) (l : list (string * V)) :
  k ∉ map fst l -> assoc_string k l = None.
Proof.
  unfold assoc_string. induction l as [|[k' v] l IH]; [reflexivity|]. simpl.
  rewrite not_elem_of_cons. intros [Hne Hout].
  apply not_eq_sym in Hne. apply String.eqb_neq in Hne. rewrite Hne. apply IH, Hout.
Qed.

Lemma existsb_eqb (k : string) (l : list string) :
  existsb (String.eqb k) l = bool_decide (k ∈ l).
Proof.
  induction l as [|x l IH]; [reflexivity|]. simpl. rewrite IH.
  destruct (String.eqb_spec k x) as [->|Hne].
  - symmetry. apply bool_decide_eq_true. apply list_elem_of_here.
  - simpl. apply bool_decide_ext. rewrite elem_of_cons. tauto.
Qed.

Lemma ltb_nan_r (x : float) : (x <? nan)%float = false.
Proof.
  rewrite ltb_spec. change (Prim2SF nan) with S754_nan.
  unfold SFltb. destruct (Prim2SF x) as [[]|[]| |[] m e]; reflexivity.
Qed.

Lemma ltb_nan_l (x : float) : (nan <? x)%float = false.
Proof.
  rewrite ltb_spec. change (Prim2SF nan) with S754_nan. reflexivity.
Qed.

(** X18. The thresholds a new patient gets.  Thresholds given in the request
    are kept.  A missing one is taken from the table entry of the
    disease, and from the entry of Normal, 36.5 and 37.5, when the
    disease is neither in the table nor the name of a member of
    [Object.prototype].  Under such a name the missing thresholds stay
    undefined, and then every reading of the patient is classified
    normal, whatever the temperature. *)
Theorem thresholds_of_a_new_patient (insertPatient : InsertPatient.t) (st : MemStorage) :
  let patient := fst (createPatient insertPatient st) in
  let disease := InsertPatient.disease insertPatient in
  let missing_min := InsertPatient.thresholdMin insertPatient = None in
  let missing_max := InsertPatient.thresholdMax insertPatient = None in
  ((forall x, InsertPatient.thresholdMin insertPatient = Some x ->
              Patient.thresholdMin patient = Some x)
   /\ (forall x, InsertPatient.thresholdMax insertPatient = Some x ->
                 Patient.thresholdMax patient = Some x))
  /\ (forall min max,
        (disease, (min, max)) ∈ diseaseThresholds_table ->
        (missing_min -> Patient.thresholdMin patient = Some min)
        /\ (missing_max -> Patient.thresholdMax patient = Some max))
  /\ ((disease ∉ map fst diseaseThresholds_table) ->
      (disease ∉ Object_prototype_names) ->
      (missing_min -> Patient.thresholdMin patient = Some 36.5%float)
      /\ (missing_max -> Patient.thresholdMax patient = Some 37.5%float))
  /\ (disease ∈ Object_prototype_names ->
      missing_min -> missing_max ->
      Patient.thresholdMin patient = None
      /\ Patient.thresholdMax patient = None
      /\ forall tempC,
           calculateRiskLevel tempC (ToNumber (Patient.thresholdMin patient))
                              (ToNumber (Patient.thresholdMax patient))
           = "normal").
Proof.
  intros patient disease missing_min missing_max.
  unfold patient, Storage.createPatient, draw_uuid. simpl. fold disease.
  split; [|split; [|split]].
  - split; intros x ->; reflexivity.
  - intros min max Hin. unfold missing_min, missing_max.
    repeat (apply elem_of_cons in Hin as [Hin|Hin];
            [injection Hin as -> -> ->; split; intros ->; reflexivity|]).
    inversion Hin.
  - intros Htable Hproto.
    change (disease ∉ map fst diseaseThresholds_table) in Htable.
    unfold diseaseThresholds at 1 3.
    rewrite (assoc_string_None _ _ Htable), existsb_eqb, bool_decide_eq_false_2 by exact Hproto.
    split; intros ->; reflexivity.
  - intros Hproto Hmin Hmax. unfold missing_min in Hmin. unfold missing_max in Hmax.
    rewrite Hmin, Hmax.
    assert (Hlookup : diseaseThresholds disease = Inherited).
    { repeat (apply elem_of_cons in Hproto as [->|Hproto]; [reflexivity|]).
      inversion Hproto. }
    rewrite Hlookup. split; [reflexivity|]. split; [reflexivity|].
    intros tempC. unfold calculateRiskLevel, ToNumber.
    change (nan - 1)%float with nan. change (nan + 1)%float with nan.
    rewrite ltb_nan_r, ltb_nan_l. reflexivity.
Qed.

(** ** Every state the server reaches *)

Lemma Map_values_set {V} (k : JValue) (v x : V) (m : JSMap V) :
  x ∈ Map_values (Map_set k v m) -> x ∈ Map_values m \/ x = v.
Proof.
  unfold Map_values. intros Hx. apply list_elem_of_fmap in Hx as ([k0 v0] & -> & Hin).
  destruct (Map_set_elem _ _ _ _ _ Hin) as [Hold|[-> _]]; [left|right; reflexivity].
  apply list_elem_of_fmap. exists (k0, v0). split; [reflexivity|exact Hold].
Qed.

Lemma sendSMS_keeps_readings (patient : Patient.t) (recipient : AlertRecipient.t)
      (message riskLevel : string) (st : MemStorage) :
  temperatureLogs (sendSMS patient recipient message riskLevel st) = temperatureLogs st.
Proof. reflexivity. Qed.

Lemma sendTemperatureAlert_keeps_readings
      (patient : Patient.t) (tempC tempF : float) (riskLevel : string) (st : MemStorage) :
  temperatureLogs (sendTemperatureAlert patient tempC tempF riskLevel st)
  = temperatureLogs st.
Proof.
  unfold Storage.sendTemperatureAlert. destruct (String.eqb riskLevel "normal"); [reflexivity|].
  generalize (buildAlertMessage patient tempC tempF riskLevel) as message.
  generalize (recipientsOf patient st) as recipients. intros recipients message.
  revert st. induction recipients as [|r rest IH]; intros st; [reflexivity|].
  cbn [fold_left]. rewrite IH. apply sendSMS_keeps_readings.
Qed.

Lemma handle_readings (request : Rest.Request) (st : MemStorage) :
  temperatureLogs (Rest.handle randomUUID Date_new toFixed1 request st) = temperatureLogs st
  \/ exists data stored,
       request = Rest.PostTemperature data
       /\ (exists input,
             temperatureInputSchema data = Some input
             /\ TemperatureInput.tempC input = TemperatureLog.tempC stored
             /\ TemperatureInput.tempF input = TemperatureLog.tempF stored)
       /\ TemperatureLog.riskLevel stored ∈ ["normal"; "warning"; "critical"]
       /\ forall log, log ∈ Map_values
                              (temperatureLogs
                                 (Rest.handle randomUUID Date_new toFixed1 request st)) ->
                      log ∈ Map_values (temperatureLogs st) \/ log = stored.
Proof.
  destruct request as [data|parsed|id|parsed|id]; simpl.
  - unfold Storage.api_temperature_post.
    destruct (temperatureInputSchema data) as [input|] eqn:Hparse; [|left; reflexivity].
    destruct (getPatient (TemperatureInput.patientId input) st) as [patient|];
      [|left; reflexivity].
    right. unfold Storage.createTemperatureLog, draw_uuid, new_Date. cbn [fst snd].
    set (riskLevel := calculateRiskLevel _ _ _).
    set (log := TemperatureLog.mk _ _ _ _ _ _).
    exists data, log. split; [reflexivity|]. split; [|split].
    + exists input. split; [exact Hparse|split; reflexivity].
    + unfold log, riskLevel, calculateRiskLevel. simpl.
      destruct (_ || _); [by_decide_levels|]. destruct (_ || _); by_decide_levels.
    + intros x Hx.
      destruct (negb (String.eqb riskLevel "normal"));
        [rewrite sendTemperatureAlert_keeps_readings in Hx|];
        simpl in Hx; apply Map_values_set in Hx; exact Hx.
  - left. unfold Storage.api_staff_post. destruct parsed as [d|]; [|reflexivity].
    destruct (getStaffByEmail _ st); reflexivity.
  - left. unfold api_staff_delete, deleteStaff. simpl.
    destruct (Map_has _ _); reflexivity.
  - left. unfold Storage.api_patients_post. destruct parsed as [d|]; reflexivity.
  - left. unfold api_patient_delete, deletePatient. simpl.
    destruct (Map_has _ _); reflexivity.
Qed.

Lemma handle_keeps_readings_sound (request : Rest.Request) (st : MemStorage) :
  known_levels st /\ within_bounds st ->
  known_levels (Rest.handle randomUUID Date_new toFixed1 request st)
  /\ within_bounds (Rest.handle randomUUID Date_new toFixed1 request st).
Proof.
  intros [Hlevels Hbounds].
  destruct (handle_readings request st)
    as [Hsame|(data & stored & _ & (input & Hparse & HC & HF) & Hlevel & Hin)].
  - unfold known_levels, within_bounds. rewrite Hsame. split; assumption.
  - destruct (temperatureInputSchema_accepts data input Hparse)
      as (_ & _ & _ & _ & H1 & H2 & H3 & H4).
    rewrite HC in H1, H2. rewrite HF in H3, H4.
    split; intros log Hlog; destruct (Hin log Hlog) as [Hold| ->]; auto.
Qed.

Lemma storage_readings_sound :
  known_levels (storage randomUUID Date_new) /\ within_bounds (storage randomUUID Date_new).
Proof.
  split; intros log Hlog; unfold storage, seedData, draw_uuid, new_Date in Hlog;
    simpl in Hlog; apply list_elem_of_singleton in Hlog as ->; simpl.
  - apply list_elem_of_here.
  - repeat split; reflexivity.
Qed.

(** X23. Whatever requests the server has handled since it started, of those
    that post a reading, add or delete staff, and add or delete a
    patient: every stored reading carries one of the three risk levels
    and lies within the bounds of the input schema, and the counts of
    the dashboard add up to its total, for every staff id and role. *)
Theorem dashboard_adds_up_in_every_reachable_state
        (requests : list Rest.Request) (staffId role : option string) :
  let st := Rest.serve randomUUID Date_new toFixed1 requests (storage randomUUID Date_new) in
  let stats := getDashboardStats staffId role st in
  known_levels st
  /\ within_bounds st
  /\ DashboardStats.totalPatients stats
     = DashboardStats.criticalAlerts stats + DashboardStats.warningAlerts stats
       + DashboardStats.normalRange stats.
Proof.
  intros st stats.
  assert (Hsound : known_levels st /\ within_bounds st).
  { unfold st. generalize storage_readings_sound.
    generalize (storage randomUUID Date_new) as s.
    induction requests as [|request rest IH]; intros s Hs; [exact Hs|].
    cbn [Rest.serve fold_left]. apply IH, handle_keeps_readings_sound, Hs. }
  destruct Hsound as [Hlevels Hbounds].
  split; [exact Hlevels|]. split; [exact Hbounds|].
  exact (counts_partition staffId role st Hlevels).
Qed.

End StoreProperties.



(** * Properties of the live dashboard *)

Section DashboardProperties.

Variable JSON_parse : string -> option JValue.
Variable JSON_stringify : JValue -> string.
Variable Date_now : nat -> float.

Abbreviation onmessage := (Dashboard.onmessage JSON_parse).
Abbreviation receive := (Dashboard.receive JSON_parse).
Abbreviation is_frame := (frame_type JSON_parse).
Abbreviation onMessage := (Gateway.onMessage JSON_parse JSON_stringify Date_now).

Lemma slice_last_length {A} (n : nat) (l : list A) :
  length (Dashboard.slice_last n l) = Nat.min n (length l).
Proof.
  unfold Dashboard.slice_last. rewrite length_drop.
  destruct (Nat.min_spec n (length l)) as [[? ->]|[? ->]]; lia.
Qed.

Lemma slice_last_snoc {A} (n : nat) (l : list A) (x : A) :
  last (Dashboard.slice_last (S n) (l ++ [x])) = Some x.
Proof.
  unfold Dashboard.slice_last. rewrite length_app. simpl.
  rewrite drop_app_le by lia. apply last_snoc.
Qed.

Lemma onmessage_update (data : string) (message : JValue) (v : Dashboard.View) :
  JSON_parse data = Some message ->
  has_type "temperature-update" message = true ->
  onmessage data v
  = Dashboard.mkView (field "data" message) (Dashboard.isConnected v)
      (Some (field "timestamp" message))
      (Dashboard.slice_last 5
         (Dashboard.alerts v
          ++ [JObj [("type", JStr "temperature-update");
                    ("timestamp", field "timestamp" message);
                    ("data", field "data" message)]]))
      (Dashboard.errors v).
Proof.
  intros Hparse Hty. destruct (has_type_object _ _ Hty) as (props & -> & Htype).
  unfold Dashboard.onmessage. rewrite Hparse. simpl. rewrite Htype. reflexivity.
Qed.

Lemma onmessage_other (data : string) (v : Dashboard.View) :
  is_frame "temperature-update" data = false ->
  Dashboard.temperatureData (onmessage data v) = Dashboard.temperatureData v
  /\ Dashboard.lastUpdate (onmessage data v) = Dashboard.lastUpdate v
  /\ exists added,
       Dashboard.alerts (onmessage data v) = Dashboard.alerts v ++ added
       /\ length added = Nat.b2n (is_frame "alert" data).
Proof.
  unfold frame_type, has_type, Dashboard.onmessage.
  destruct (JSON_parse data) as [message|];
    [|intros _; repeat split; exists []; rewrite app_nil_r; split; reflexivity].
  destruct message as [| | | | | |props]; simpl;
    try (intros _; repeat split; exists []; rewrite app_nil_r; split; reflexivity).
  intros ->. destruct (strictEqStr (lookupProp "type" props) "alert").
  - repeat split. eexists [_]. split; reflexivity.
  - repeat split. exists []. rewrite app_nil_r. split; reflexivity.
Qed.

(** X19. The activity list of the dashboard is trimmed by temperature updates
    only.  A temperature-update frame shows its [data] as the current
    reading and leaves the last five entries, the newest one its own.
    Over frames none of which is a temperature update the reading shown
    stays, nothing is dropped from the list, and it grows by one entry
    for every alert frame, without a bound. *)
Theorem activity_list_is_trimmed_by_updates_only
        (data : string) (frames : list string) (v : Dashboard.View) :
  (forall message,
     JSON_parse data = Some message ->
     has_type "temperature-update" message = true ->
     let v' := onmessage data v in
     Dashboard.temperatureData v' = field "data" message
     /\ Dashboard.lastUpdate v' = Some (field "timestamp" message)
     /\ length (Dashboard.alerts v') = Nat.min 5 (S (length (Dashboard.alerts v)))
     /\ exists entry,
          last (Dashboard.alerts v') = Some entry
          /\ field "data" entry = field "data" message
          /\ Dashboard.alerts v'
             = Dashboard.slice_last 5 (Dashboard.alerts v ++ [entry]))
  /\ (forallb (fun d => negb (is_frame "temperature-update" d)) frames = true ->
      let v' := receive frames v in
      Dashboard.temperatureData v' = Dashboard.temperatureData v
      /\ length (Dashboard.alerts v')
         = length (Dashboard.alerts v) + length (List.filter (is_frame "alert") frames)
      /\ exists added, Dashboard.alerts v' = Dashboard.alerts v ++ added).
Proof.
  split.
  - intros message Hparse Hty v'. unfold v'.
    rewrite (onmessage_update data message v Hparse Hty). simpl.
    split; [reflexivity|]. split; [reflexivity|]. split.
    + rewrite slice_last_length, length_app. cbn [length].
      rewrite Nat.add_1_r. reflexivity.
    + eexists. split; [apply (slice_last_snoc 4)|]. split; reflexivity.
  - revert v. induction frames as [|d frames IH]; intros v Hnone v'.
    + unfold v'. simpl. split; [reflexivity|]. split; [lia|].
      exists []. rewrite app_nil_r. reflexivity.
    + simpl in Hnone. apply andb_prop in Hnone as [Hd Hnone].
      apply negb_true_iff in Hd.
      destruct (onmessage_other d v Hd) as (Hdata & _ & added & Hadded & Hlen).
      destruct (IH (onmessage d v) Hnone) as (Hdata' & Hlen' & added' & Hadded').
      unfold v'. cbn [Dashboard.receive fold_left].
      fold (receive frames (onmessage d v)).
      split; [rewrite Hdata', Hdata; reflexivity|]. split.
      * rewrite Hlen', Hadded, length_app, Hlen. cbn [List.filter].
        destruct (is_frame "alert" d); simpl; lia.
      * exists (added ++ added'). rewrite Hadded', Hadded, app_assoc. reflexivity.
Qed.

(** X20. From the sensor to the screen.  A temperature frame the gateway
    accepts reaches every open subscriber as one frame; a dashboard that
    parses that frame back to the event shows exactly the reading the
    gateway stored, the one a registry read for the device returns, and
    files it as the newest entry of its activity list. *)
Theorem dashboard_shows_the_stored_reading
        (sensor c : Conn) (data : string) (message : JValue)
        (st : State) (v : Dashboard.View) :
  JSON_parse data = Some message ->
  has_type "temperature" message = true ->
  loggable message = true ->
  NoDup (connectedClients st) ->
  sends_return st (connectedClients st) = true ->
  c ∈ connectedClients st ->
  isOpen st c = true ->
  onSend (sockets st c) = Delivers ->
  let stored := readingAt message (Date_now (clock st)) in
  let event := temperature_update stored (broadcastTime Date_now message st) in
  JSON_parse (JSON_stringify event) = Some event ->
  let st' := exec (onMessage sensor data) st in
  exists frame,
    inbox (sockets st' c) = inbox (sockets st c) ++ [frame]
    /\ let v' := onmessage frame v in
       Dashboard.temperatureData v' = DeviceData_toJS stored
       /\ (forall id, field "deviceId" message = JStr id ->
                      DeviceData_toJS <$> GetLatest id st'
                      = Some (Dashboard.temperatureData v'))
       /\ Dashboard.lastUpdate v' = Some (JNum (broadcastTime Date_now message st))
       /\ length (Dashboard.alerts v') <= 5
       /\ exists entry, last (Dashboard.alerts v') = Some entry
                        /\ field "data" entry = DeviceData_toJS stored.
Proof.
  intros Hparse Hty Hlog Hnd Hret Hin Hopen Hdel stored event Hround st'.
  destruct (temperature_frame_delivered JSON_parse JSON_stringify Date_now
              sensor data message st Hparse Hty Hlog Hnd Hret) as (_ & _ & Hs).
  exists (JSON_stringify event). split.
  - unfold st'. rewrite Hs, decide_True by exact Hin.
    unfold sent. unfold isOpen in Hopen. rewrite Hopen, Hdel. reflexivity.
  - intros v'. unfold v'.
    rewrite (onmessage_update _ event v Hround eq_refl). simpl.
    split; [reflexivity|]. split; [|split; [reflexivity|split]].
    + intros id Hid. unfold st'.
      rewrite (GetLatest_after_temperature JSON_parse JSON_stringify Date_now
                 sensor data message id st Hparse Hty Hid).
      reflexivity.
    + rewrite slice_last_length. apply Nat.le_min_l.
    + eexists. split; [apply (slice_last_snoc 4)|]. reflexivity.
Qed.

End DashboardProperties.

(** * Properties of the SMS service *)

Section SmsProperties.

Variable randomUUID : nat -> string.
Variable Date_new : nat -> Z.
Variable toFixed1 : float -> string.
Variable toLocaleString : Z -> string.
Variable fetch : nat -> Sms.FetchOutcome.

Abbreviation sendSms := (Sms.sendSms fetch).
Abbreviation sendSMS2 := (Sms.sendSMS randomUUID Date_new fetch).
Abbreviation sendTemperatureAlert2 :=
  (Sms.sendTemperatureAlert randomUUID Date_new toFixed1 toLocaleString fetch).
Abbreviation logVia := (alertLogVia randomUUID Date_new).
Abbreviation fresh := (fresh_ids randomUUID).

Lemma sendSms_effect (provider : Sms.SmsProvider) (to message : string) (w : Sms.World) :
  let result := fst (sendSms provider to message w) in
  let w' := snd (sendSms provider to message w) in
  Sms.success result = delivered provider fetch (length (Sms.requests w))
  /\ Sms.requests w'
     = Sms.requests w ++ requestsFor provider message [AlertRecipient.mk EmptyString EmptyString to]
  /\ Storage.staff (Sms.store w') = Storage.staff (Sms.store w)
  /\ Storage.patients (Sms.store w') = Storage.patients (Sms.store w)
  /\ Storage.temperatureLogs (Sms.store w') = Storage.temperatureLogs (Sms.store w)
  /\ Storage.alertLogs (Sms.store w') = Storage.alertLogs (Sms.store w)
  /\ Storage.uuids (Sms.store w') = Storage.uuids (Sms.store w)
  /\ Storage.dates (Sms.store w') = Storage.dates (Sms.store w).
Proof.
  destruct provider as [|sid token number]; simpl.
  - rewrite app_nil_r. repeat split; reflexivity.
  - destruct (fetch (length (Sms.requests w))) as [[|] text|msg|msg]; simpl;
      repeat split; reflexivity.
Qed.

Lemma sendSMS2_effect (provider : Sms.SmsProvider) (patient : Patient.t)
      (recipient : AlertRecipient.t) (message riskLevel : string) (w : Sms.World) :
  Map_get (JStr (randomUUID (Storage.uuids (Sms.store w)))) (Storage.alertLogs (Sms.store w))
  = None ->
  let w' := sendSMS2 provider patient recipient message riskLevel w in
  Storage.alertLogs (Sms.store w')
  = Storage.alertLogs (Sms.store w)
    ++ [(JStr (randomUUID (Storage.uuids (Sms.store w))),
         logVia provider fetch (Storage.uuids (Sms.store w)) (Storage.dates (Sms.store w))
                (length (Sms.requests w)) patient message 0 recipient)]
  /\ Sms.requests w' = Sms.requests w ++ requestsFor provider message [recipient]
  /\ Storage.staff (Sms.store w') = Storage.staff (Sms.store w)
  /\ Storage.patients (Sms.store w') = Storage.patients (Sms.store w)
  /\ Storage.temperatureLogs (Sms.store w') = Storage.temperatureLogs (Sms.store w)
  /\ Storage.uuids (Sms.store w') = S (Storage.uuids (Sms.store w))
  /\ Storage.dates (Sms.store w') = S (Storage.dates (Sms.store w)).
Proof.
  intros Hfresh w'. unfold w', Sms.sendSMS.
  set (w0 := Sms.console_log _ w).
  pose proof (sendSms_effect provider (AlertRecipient.phone recipient) message w0)
    as (Hok & Hreq & Hstaff & Hpat & Htemp & Hlogs & Huuids & Hdates).
  destruct (sendSms provider (AlertRecipient.phone recipient) message w0) as [result w1].
  cbn [fst snd] in *.
  assert (Hsame : forall w2, w2 = w1 \/ (exists l d, w2 = Sms.console_error l d w1) ->
                             Storage.alertLogs (Sms.store w2) = Storage.alertLogs (Sms.store w)
                             /\ Storage.uuids (Sms.store w2) = Storage.uuids (Sms.store w)
                             /\ Storage.dates (Sms.store w2) = Storage.dates (Sms.store w)
                             /\ Storage.staff (Sms.store w2) = Storage.staff (Sms.store w)
                             /\ Storage.patients (Sms.store w2) = Storage.patients (Sms.store w)
                             /\ Storage.temperatureLogs (Sms.store w2)
                                = Storage.temperatureLogs (Sms.store w)
                             /\ Sms.requests w2 = Sms.requests w1).
  { intros w2 [->|(l & d & ->)]; simpl; rewrite ?Hlogs, ?Huuids, ?Hdates, ?Hstaff, ?Hpat, ?Htemp;
      repeat split; reflexivity. }
  match goal with
  | |- context [Sms.on_store _ ?w2] =>
      destruct (Hsame w2) as (Hl & Hu & Hd & Hs & Hp & Ht & Hr);
        [destruct (Sms.success result); [left; reflexivity|right; eauto]|];
        set (w3 := w2) in *
  end.
  unfold Sms.on_store, Storage.createAlertLog, Storage.draw_uuid, Storage.new_Date. simpl.
  rewrite Hl, Hu, Hd, Hs, Hp, Ht, Hr, Hreq, Hok.
  rewrite Map_set_fresh by exact Hfresh.
  unfold alertLogVia. rewrite !Nat.add_0_r.
  destruct provider; repeat split; reflexivity.
Qed.

Lemma requestsFor_length (provider : Sms.SmsProvider) (message : string)
      (recipients : list AlertRecipient.t) :
  length (requestsFor provider message recipients)
  = match provider with
    | Sms.ConsoleSmsProvider => 0
    | Sms.TwilioSmsProvider _ _ _ => length recipients
    end.
Proof. destruct provider; [reflexivity|apply length_map]. Qed.

Lemma requestsFor_cons (provider : Sms.SmsProvider) (message : string)
      (r : AlertRecipient.t) (recipients : list AlertRecipient.t) :
  requestsFor provider message (r :: recipients)
  = requestsFor provider message [r] ++ requestsFor provider message recipients.
Proof. destruct provider; reflexivity. Qed.

Lemma delivered_console (request request' : nat) :
  delivered Sms.ConsoleSmsProvider fetch request
  = delivered Sms.ConsoleSmsProvider fetch request'.
Proof. reflexivity. Qed.

Lemma sendSMS2_each (provider : Sms.SmsProvider) (patient : Patient.t)
      (message riskLevel : string) (recipients : list AlertRecipient.t) :
  forall w,
    fresh (Storage.uuids (Sms.store w)) (length recipients)
          (Storage.alertLogs (Sms.store w)) ->
    let w' := fold_left (fun w recipient =>
                           sendSMS2 provider patient recipient message riskLevel w)
                        recipients w in
    Map_values (Storage.alertLogs (Sms.store w'))
    = Map_values (Storage.alertLogs (Sms.store w))
      ++ imap (logVia provider fetch (Storage.uuids (Sms.store w))
                      (Storage.dates (Sms.store w)) (length (Sms.requests w))
                      patient message)
              recipients
    /\ Sms.requests w' = Sms.requests w ++ requestsFor provider message recipients
    /\ Storage.staff (Sms.store w') = Storage.staff (Sms.store w)
    /\ Storage.patients (Sms.store w') = Storage.patients (Sms.store w)
    /\ Storage.temperatureLogs (Sms.store w') = Storage.temperatureLogs (Sms.store w).
Proof.
  induction recipients as [|r rest IH]; intros w Hfresh.
  - simpl. destruct provider; rewrite !app_nil_r; repeat split; reflexivity.
  - apply (fresh_ids_tail randomUUID _ _ _
             (logVia provider fetch (Storage.uuids (Sms.store w))
                     (Storage.dates (Sms.store w)) (length (Sms.requests w))
                     patient message 0 r))
      in Hfresh as [Hhead Htail].
    destruct (sendSMS2_effect provider patient r message riskLevel w Hhead)
      as (Hlogs & Hreq & Hstaff & Hpat & Htemp & Huuids & Hdates).
    cbn [fold_left].
    set (w1 := sendSMS2 provider patient r message riskLevel w) in *.
    rewrite <- Hlogs, <- Huuids in Htail.
    destruct (IH w1 Htail) as (Hlogs' & Hreq' & Hstaff' & Hpat' & Htemp').
    split; [|split; [|split; [|split]]].
    + rewrite Hlogs', Hlogs, Map_values_app, <- app_assoc. cbn [imap]. f_equal.
      simpl. f_equal. rewrite Huuids, Hdates, Hreq, length_app, requestsFor_length.
      apply imap_ext. intros i x _. unfold alertLogVia. simpl.
      rewrite !Nat.add_succ_r.
      destruct provider; [reflexivity|]. simpl.
      rewrite <- Nat.add_assoc. simpl. rewrite Nat.add_succ_r. reflexivity.
    + rewrite Hreq', Hreq, <- app_assoc, <- requestsFor_cons. reflexivity.
    + rewrite Hstaff'. exact Hstaff.
    + rewrite Hpat'. exact Hpat.
    + rewrite Htemp'. exact Htemp.
Qed.

(** X21. An alert sent through the SMS provider is logged for every
    recipient, whether or not the SMS went out: one alert log each, in
    the order of the recipients, with the same message, and with the
    status sent when the provider reported success and failed when it
    did not.  Unless all three Twilio variables are set and non-empty
    the console provider is used: nothing is fetched and every status is
    sent.  With them, one request per recipient goes to the Messages
    endpoint of the account, to the recipient's phone, from the
    configured number, with the message as body, and the status is sent
    exactly when that request was answered with an ok response. *)
Theorem alert_status_follows_the_provider
        (env : Sms.Env) (patient : Patient.t) (tempC tempF : float) (riskLevel : string)
        (w : Sms.World) :
  let provider := fst (Sms.getSmsProvider env) in
  let recipients := Storage.recipientsOf patient (Sms.store w) in
  let w' := sendTemperatureAlert2 provider patient tempC tempF riskLevel w in
  let message :=
    Sms.formatAlertMessage toFixed1 patient
      (Sms.staffOf (Patient.doctorId patient) (Sms.store w))
      (Sms.staffOf (Patient.nurseId patient) (Sms.store w))
      tempC tempF riskLevel (toLocaleString (Date_new (Storage.dates (Sms.store w)))) in
  riskLevel <> "normal" ->
  fresh (Storage.uuids (Sms.store w)) (length recipients) (Storage.alertLogs (Sms.store w)) ->
  (Map_values (Storage.alertLogs (Sms.store w'))
   = Map_values (Storage.alertLogs (Sms.store w))
     ++ imap (logVia provider fetch (Storage.uuids (Sms.store w))
                     (S (Storage.dates (Sms.store w))) (length (Sms.requests w))
                     patient message)
             recipients
   /\ Sms.requests w' = Sms.requests w ++ requestsFor provider message recipients)
  /\ (given (Sms.TWILIO_ACCOUNT_SID env) && given (Sms.TWILIO_AUTH_TOKEN env)
      && given (Sms.TWILIO_PHONE_NUMBER env) = false ->
      provider = Sms.ConsoleSmsProvider
      /\ Sms.requests w' = Sms.requests w
      /\ forall i, delivered provider fetch i = true)
  /\ (forall accountSid authToken fromNumber,
        env = Sms.mkEnv (Some accountSid) (Some authToken) (Some fromNumber) ->
        accountSid <> EmptyString -> authToken <> EmptyString -> fromNumber <> EmptyString ->
        provider = Sms.TwilioSmsProvider accountSid authToken fromNumber
        /\ (forall i, delivered provider fetch i = true
                      <-> exists text, fetch i = Sms.Responds true text)
        /\ map (fun q => (Sms.To q, Sms.From q))
               (drop (length (Sms.requests w)) (Sms.requests w'))
           = map (fun r => (AlertRecipient.phone r, fromNumber)) recipients)
  /\ Storage.staff (Sms.store w') = Storage.staff (Sms.store w)
  /\ Storage.patients (Sms.store w') = Storage.patients (Sms.store w)
  /\ Storage.temperatureLogs (Sms.store w') = Storage.temperatureLogs (Sms.store w).
Proof.
  intros provider recipients w' message Hrisk Hfresh.
  apply String.eqb_neq in Hrisk.
  unfold w', Sms.sendTemperatureAlert. rewrite Hrisk.
  unfold Storage.new_Date. cbn [fst snd]. fold message.
  set (w0 := Sms.mkWorld _ _).
  destruct (sendSMS2_each provider patient message riskLevel recipients w0 Hfresh)
    as (Hlogs & Hreq & Hstaff & Hpat & Htemp).
  fold recipients. split; [|split; [|split; [|repeat split; assumption]]].
  - split; [exact Hlogs|exact Hreq].
  - intros Hnone.
    assert (Hprovider : provider = Sms.ConsoleSmsProvider).
    { unfold provider, Sms.getSmsProvider. rewrite Hnone. reflexivity. }
    split; [exact Hprovider|]. split; [|rewrite Hprovider; reflexivity].
    rewrite Hreq, Hprovider. apply app_nil_r.
  - intros sid token number -> Hsid Htoken Hnumber.
    assert (Hprovider : provider = Sms.TwilioSmsProvider sid token number).
    { unfold provider, Sms.getSmsProvider. simpl.
      apply String.eqb_neq in Hsid, Htoken, Hnumber.
      rewrite Hsid, Htoken, Hnumber. reflexivity. }
    split; [exact Hprovider|]. split.
    + intros i. rewrite Hprovider. simpl.
      destruct (fetch i) as [[|] text|msg|msg]; split; try discriminate; eauto.
      all: intros [text' H]; discriminate H.
    + rewrite Hreq, drop_app_length, Hprovider. simpl. rewrite map_map. reflexivity.
Qed.

End SmsProperties.


(** * The order of the device list *)

Lemma Map_set_in_place {V} (id : string) (v old : V) (m : JSMap V) :
  Map_get (JStr id) m = Some old ->
  exists before after,
    Map_values m = before ++ old :: after
    /\ Map_values (Map_set (JStr id) v m) = before ++ v :: after.
Proof.
  induction m as [|[k w] m IH]; [discriminate|]. cbn [Map_get Map_set].
  destruct (sameValueZero k (JStr id)).
  - intros [= ->]. exists [], (Map_values m). split; reflexivity.
  - intros H. destruct (IH H) as (before & after & Hm & Hset).
    exists (w :: before), after. unfold Map_values in *. cbn [map snd].
    rewrite Hm, Hset. split; reflexivity.
Qed.

Section DeviceList.

Variable JSON_parse : string -> option JValue.
Variable JSON_stringify : JValue -> string.
Variable Date_now : nat -> float.

Abbreviation onMessage := (Gateway.onMessage JSON_parse JSON_stringify Date_now).

(** X22. The list of all readings keeps the order in which the devices were
    first heard of.  A temperature frame of a device that has a reading
    puts the new reading in the place of the old one and moves no other;
    the first frame of a device adds its reading at the end.  The list
    request, the one without a device id or with an empty one, answers
    with the readings in that order. *)
Theorem device_list_keeps_its_order
        (c : Conn) (data : string) (message : JValue) (id : string) (st : State) :
  JSON_parse data = Some message ->
  has_type "temperature" message = true ->
  field "deviceId" message = JStr id ->
  let st' := exec (onMessage c data) st in
  let reading := readingAt message (Date_now (clock st)) in
  (GetLatest id st = None -> GetAll st' = GetAll st ++ [reading])
  /\ (forall old, GetLatest id st = Some old ->
        exists before after,
          GetAll st = before ++ old :: after
          /\ GetAll st' = before ++ reading :: after)
  /\ (forall q, truthy q = false ->
        api_temperature_latest q st'
        = (Normal (mkResponse 200 (JArr (map DeviceData_toJS (GetAll st')))), st')).
Proof.
  intros Hparse Hty Hid st' reading.
  destruct (temperature_frame JSON_parse JSON_stringify Date_now c data message st Hparse Hty)
    as (t & tail & Hreg & _).
  fold st' reading in Hreg. rewrite Hid in Hreg.
  unfold GetAll, GetLatest. rewrite Hreg. split; [|split].
  - intros Hnew. rewrite (Map_set_fresh id reading _ Hnew), Map_values_app. reflexivity.
  - intros old Hold. apply Map_set_in_place, Hold.
  - intros q Hq. unfold api_temperature_latest, GetAll. rewrite Hq, Hreg. reflexivity.
Qed.

End DeviceList.

(** * The properties of the store on concrete runs *)

Lemma fresh_ids_sample {V} (from k : nat) (m : JSMap V) :
  forallb (fun i => negb (Map_has (JStr (sample_uuid i)) m)) (seq from k) = true ->
  NoDup (map sample_uuid (seq from k)) ->
  fresh_ids sample_uuid from k m.
Proof.
  intros Hkeys Hnd. split; [exact Hnd|]. intros i Hi.
  rewrite forallb_forall in Hkeys. specialize (Hkeys i).
  unfold Map_has in Hkeys. destruct (Map_get _ m); [|reflexivity].
  discriminate Hkeys. apply in_seq. lia.
Qed.

Lemma listings_are_newest_first_witness :
  let st := snd (sample_post (reading "uuid-3" 39.2 102.56) seeded) in
  map TemperatureLog.id (Storage.getTemperatureLogsByPatient "uuid-3" st)
  = ["uuid-5"; "uuid-4"]
  /\ descending TemperatureLog.createdAt (Storage.getTemperatureLogsByPatient "uuid-3" st)
  /\ descending AlertLog.createdAt (map Listed.log (Storage.getAlertLogs st))
  /\ map (fun l => AlertLog.recipientType (Listed.log l)) (Storage.getAlertLogs st)
     = ["guardian"; "nurse"; "doctor"].
Proof.
  intros st.
  destruct (listings_are_newest_first "uuid-3" st) as ((_ & Hmine & _) & _ & (_ & Halerts & _)).
  split; [reflexivity|]. split; [exact Hmine|]. split; [exact Halerts|reflexivity].
Defined.

Lemma latest_reading_is_the_newest_witness :
  let st := snd (sample_post (reading "uuid-3" 39.2 102.56) seeded) in
  exists log,
    Storage.getLatestTemperature "uuid-3" st = Some log
    /\ TemperatureLog.id log = "uuid-5"
    /\ log ∈ Map_values (Storage.temperatureLogs st)
    /\ TemperatureLog.patientId log = "uuid-3"
    /\ Storage.getLatestTemperature "nobody" st = None.
Proof.
  intros st.
  destruct (latest_reading_is_the_newest "uuid-3" st) as (_ & Hlatest).
  destruct (latest_reading_is_the_newest "nobody" st) as (Hnone & _).
  eexists. split; [reflexivity|]. split; [reflexivity|].
  destruct (Hlatest _ eq_refl) as (Hin & Hid & _).
  split; [exact Hin|]. split; [exact Hid|]. apply Hnone. reflexivity.
Defined.

Lemma new_reading_is_latest_if_newer_witness :
  let insertLog := InsertTemperatureLog.mk "uuid-3" 39.2 102.56 "critical" in
  let ticking := Storage.createTemperatureLog sample_uuid sample_date insertLog seeded in
  let frozen := Storage.createTemperatureLog sample_uuid frozen_date insertLog seeded_frozen in
  (Map_get (JStr (sample_uuid (Storage.uuids seeded))) (Storage.temperatureLogs seeded) = None
   /\ Map_get (JStr (sample_uuid (Storage.uuids seeded_frozen)))
              (Storage.temperatureLogs seeded_frozen) = None)
  /\ Storage.getLatestTemperature "uuid-3" (snd ticking) = Some (fst ticking)
  /\ TemperatureLog.id <$> Storage.getLatestTemperature "uuid-3" (snd frozen) = Some "uuid-4"
  /\ map TemperatureLog.id (Map_values (Storage.temperatureLogs (snd frozen)))
     = ["uuid-4"; "uuid-5"].
Proof.
  intros insertLog ticking frozen.
  assert (H1 : Map_get (JStr (sample_uuid (Storage.uuids seeded)))
                       (Storage.temperatureLogs seeded) = None) by reflexivity.
  assert (H2 : Map_get (JStr (sample_uuid (Storage.uuids seeded_frozen)))
                       (Storage.temperatureLogs seeded_frozen) = None) by reflexivity.
  destruct (new_reading_is_latest_if_newer sample_uuid sample_date insertLog seeded H1)
    as (_ & Hticking & _).
  destruct (new_reading_is_latest_if_newer sample_uuid frozen_date insertLog seeded_frozen H2)
    as (_ & Hfrozen & _).
  split; [split; assumption|]. split; [|split].
  - etransitivity; [exact Hticking|reflexivity].
  - etransitivity; [exact (f_equal (fmap TemperatureLog.id) Hfrozen)|reflexivity].
  - reflexivity.
Defined.


Lemma reading_is_stored_and_alerted_witness :
  let fever := reading "uuid-3" 39.2 102.56 in
  let st' := snd (sample_post fever seeded) in
  (temperatureInputSchema (reading "uuid-3" 46 114.8) = None
   /\ temperatureInputSchema fever = Some (TemperatureInput.mk "uuid-3" 39.2 102.56)
   /\ Storage.getPatient "uuid-9" seeded = None
   /\ Storage.getPatient "uuid-3" seeded = Some seeded_patient
   /\ fresh_ids sample_uuid 5 1 (Storage.temperatureLogs seeded)
   /\ fresh_ids sample_uuid 6 3 (Storage.alertLogs seeded))
  /\ sample_post (reading "uuid-3" 46 114.8) seeded
     = (Failure 400 "Invalid temperature data", seeded)
  /\ sample_post (reading "uuid-9" 39.2 102.56) seeded
     = (Failure 404 "Patient not found", seeded)
  /\ fst (sample_post fever seeded)
     = Json 201 (TemperatureCreated.mk
                   (TemperatureLog.mk "uuid-5" "uuid-3" 39.2 102.56 "critical" 1700000000001)
                   "critical" true)
  /\ map AlertLog.recipientType (Map_values (Storage.alertLogs st'))
     = ["doctor"; "nurse"; "guardian"]
  /\ Storage.staff st' = Storage.staff seeded.
Proof.
  intros fever st'.
  assert (Hlog : fresh_ids sample_uuid 5 1 (Storage.temperatureLogs seeded))
    by (apply fresh_ids_sample; [reflexivity|by_decide]).
  assert (Halerts : fresh_ids sample_uuid 6 3 (Storage.alertLogs seeded))
    by (apply fresh_ids_sample; [reflexivity|by_decide]).
  destruct (reading_is_stored_and_alerted sample_uuid sample_date sample_toFixed1
              (reading "uuid-3" 46 114.8) seeded) as [H400 _].
  destruct (reading_is_stored_and_alerted sample_uuid sample_date sample_toFixed1
              (reading "uuid-9" 39.2 102.56) seeded) as [_ Hunknown].
  destruct (Hunknown (TemperatureInput.mk "uuid-9" 39.2 102.56) eq_refl) as (_ & H404 & _).
  destruct (reading_is_stored_and_alerted sample_uuid sample_date sample_toFixed1
              fever seeded) as [_ Hknown].
  destruct (Hknown (TemperatureInput.mk "uuid-3" 39.2 102.56) eq_refl) as (_ & _ & H201).
  destruct (H201 seeded_patient eq_refl) as (_ & Hstored).
  destruct (Hstored Hlog Halerts) as (Hreply & _ & Hlogs & Hstaff & _).
  split; [do 4 (split; [reflexivity|]); split; assumption|].
  split; [exact (H400 eq_refl)|]. split; [exact (H404 eq_refl)|].
  split; [etransitivity; [exact Hreply|reflexivity]|].
  split; [|exact Hstaff].
  etransitivity; [exact (f_equal (map AlertLog.recipientType) Hlogs)|reflexivity].
Defined.


Lemma critical_views_agree_witness :
  let st := snd (sample_post (reading "uuid-3" 39.2 102.56) seeded) in
  exists listed,
    Storage.api_patients (Some "uuid-1") st = Json 200 listed
    /\ length listed = 1
    /\ Storage.api_patients_critical (Some "uuid-1") st = Json 200 listed
    /\ Some "doctor" <> Some "admin"
    /\ DashboardStats.criticalAlerts (Storage.getDashboardStats (Some "uuid-1") (Some "doctor") st)
       = 1.
Proof.
  intros st.
  destruct (critical_views_agree (Some "uuid-1") (Some "doctor") st)
    as (listed & Hlisted & Hcritical & Hcount).
  assert (Hrole : Some "doctor" <> Some "admin") by discriminate.
  exists listed. split; [exact Hlisted|].
  assert (Hlen : length (List.filter (Storage.latestIs "critical") listed) = 1)
    by (rewrite <- (Hcount Hrole); reflexivity).
  injection Hlisted as <-.
  split; [reflexivity|]. split; [exact Hcritical|]. split; [exact Hrole|].
  rewrite (Hcount Hrole). exact Hlen.
Defined.

Lemma registration_keeps_emails_distinct_witness :
  let st' := snd (Storage.api_staff_post sample_uuid (Some new_nurse) seeded) in
  (NoDup (map Staff.email (Storage.getAllStaff seeded))
   /\ Map_get (JStr (sample_uuid (Storage.uuids seeded))) (Storage.staff seeded) = None
   /\ (InsertStaff.email new_nurse ∉ map Staff.email (Storage.getAllStaff seeded)))
  /\ NoDup (map Staff.email (Storage.getAllStaff st'))
  /\ length (Storage.getAllStaff st') = 4
  /\ option_map Staff.id (Storage.getStaffByEmail "anita@hospital.com" st') = Some "uuid-5".
Proof.
  intros st'.
  assert (Hnd : NoDup (map Staff.email (Storage.getAllStaff seeded))) by by_decide.
  assert (Hfresh : Map_get (JStr (sample_uuid (Storage.uuids seeded)))
                           (Storage.staff seeded) = None) by reflexivity.
  assert (Hnew : InsertStaff.email new_nurse ∉ map Staff.email (Storage.getAllStaff seeded))
    by by_decide.
  destruct (registration_keeps_emails_distinct sample_uuid (Some new_nurse) seeded Hnd Hfresh)
    as (Hnd' & _ & Hdata).
  destruct (Hdata new_nurse eq_refl) as (_ & Hcreated).
  destruct (Hcreated Hnew) as (account & _ & Hid & Hall & _ & Hfound).
  split; [repeat split; assumption|]. split; [exact Hnd'|].
  split; [reflexivity|].
  refine (eq_trans (f_equal (option_map Staff.id) Hfound) _).
  simpl. f_equal. exact Hid.
Defined.

Lemma login_checks_format_then_password_witness :
  let st' := snd (Storage.api_staff_post sample_uuid (Some new_nurse) seeded) in
  let st'' := snd (Storage.api_staff_post sample_uuid (Some nurse_without_address) seeded) in
  let account := SafeStaff.mk "uuid-5" "Nurse Anita Rao" "anita@hospital.com" "nurse"
                              "+919876543214" in
  (Map_get (JStr (sample_uuid (Storage.uuids seeded))) (Storage.staff seeded) = None
   /\ (InsertStaff.email new_nurse ∉ map Staff.email (Storage.getAllStaff seeded))
   /\ (InsertStaff.email nurse_without_address
       ∉ map Staff.email (Storage.getAllStaff seeded)))
  /\ Storage.api_auth_login sample_isEmail (credentials "anita@hospital.com" "anita123") st'
     = Json 200 account
  /\ Storage.api_auth_login sample_isEmail (credentials "anita@hospital.com" "admin123") st'
     = Failure 401 "Invalid email or password"
  /\ Storage.api_auth_login sample_isEmail (credentials "anita@hospital.com" EmptyString) st'
     = Failure 400 "Invalid credentials format"
  /\ Storage.api_auth_login sample_isEmail (credentials "anita" "anita123") st''
     = Failure 400 "Invalid credentials format".
Proof.
  intros st' st'' account.
  assert (Hfresh : Map_get (JStr (sample_uuid (Storage.uuids seeded)))
                           (Storage.staff seeded) = None) by reflexivity.
  assert (Hnew : InsertStaff.email new_nurse ∉ map Staff.email (Storage.getAllStaff seeded))
    by by_decide.
  assert (Hnew' : InsertStaff.email nurse_without_address
                  ∉ map Staff.email (Storage.getAllStaff seeded)) by by_decide.
  destruct (login_checks_format_then_password sample_uuid sample_isEmail new_nurse seeded
              Hfresh Hnew) as (_ & _ & _ & Hlogin).
  destruct (login_checks_format_then_password sample_uuid sample_isEmail
              nurse_without_address seeded Hfresh Hnew') as (_ & _ & _ & Hlogin').
  split; [repeat split; assumption|]. split; [|split; [|split]].
  - refine (eq_trans (Hlogin "anita123") _). vm_compute. reflexivity.
  - refine (eq_trans (Hlogin "admin123") _). vm_compute. reflexivity.
  - refine (eq_trans (Hlogin EmptyString) _). vm_compute. reflexivity.
  - refine (eq_trans (Hlogin' "anita123") _). vm_compute. reflexivity.
Defined.

Lemma deleted_staff_is_gone_witness :
  let st' := snd (Storage.api_staff_delete "uuid-1" seeded) in
  Patient.doctorId seeded_patient = Some "uuid-1"
  /\ fst (Storage.api_staff_delete "uuid-1" seeded) = NoContent
  /\ fst (Storage.api_staff_delete "uuid-1" st') = Failure 404 "Staff not found"
  /\ PatientWithDetails.doctor (Storage.withDetails st' seeded_patient) = None
  /\ map AlertRecipient.type (Storage.recipientsOf seeded_patient st') = ["nurse"; "guardian"].
Proof.
  intros st'.
  destruct (deleted_staff_is_gone "uuid-1" seeded) as (Hreply & _ & _ & Hagain & _ & _ & Hp).
  destruct (Hp seeded_patient eq_refl) as (Hdoctor & _).
  split; [reflexivity|]. split; [exact Hreply|]. split; [exact Hagain|].
  split; [exact Hdoctor|reflexivity].
Defined.

Lemma deleted_patient_keeps_its_logs_witness :
  let body := reading "uuid-3" 39.2 102.56 in
  let st' := snd (Storage.api_patient_delete "uuid-3" seeded) in
  (temperatureInputSchema body = Some (TemperatureInput.mk "uuid-3" 39.2 102.56))
  /\ fst (Storage.api_patient_delete "uuid-3" seeded) = NoContent
  /\ Storage.getPatient "uuid-3" st' = None
  /\ TemperatureLog.id <$> Storage.getLatestTemperature "uuid-3" st' = Some "uuid-4"
  /\ map Listed.patient (Storage.getTemperatureLogs st') = [None]
  /\ sample_post body st' = (Failure 404 "Patient not found", st').
Proof.
  intros body st'.
  destruct (deleted_patient_keeps_its_logs sample_uuid sample_date sample_toFixed1
              "uuid-3" body seeded)
    as (Hreply & Hgone & _ & _ & _ & _ & _ & Hlatest & Hpost).
  split; [reflexivity|]. split; [exact Hreply|]. split; [exact Hgone|].
  split; [etransitivity; [exact (f_equal (fmap TemperatureLog.id) Hlatest)|reflexivity]|].
  split; [reflexivity|].
  apply (Hpost (TemperatureInput.mk "uuid-3" 39.2 102.56)); reflexivity.
Defined.

Lemma thresholds_of_a_new_patient_witness :
  let created disease := fst (Storage.createPatient sample_uuid (new_patient disease) seeded) in
  (("ICU", (36.8, 37.0)%float) ∈ diseaseThresholds_table
   /\ ("Measles" ∉ map fst diseaseThresholds_table)
   /\ ("Measles" ∉ Object_prototype_names)
   /\ "constructor" ∈ Object_prototype_names)
  /\ (Patient.thresholdMin (created "ICU") = Some 36.8%float
      /\ Patient.thresholdMax (created "ICU") = Some 37.0%float)
  /\ (Patient.thresholdMin (created "Measles") = Some 36.5%float
      /\ Patient.thresholdMax (created "Measles") = Some 37.5%float)
  /\ Patient.thresholdMin (created "constructor") = None
  /\ calculateRiskLevel 44.5 (ToNumber (Patient.thresholdMin (created "constructor")))
                         (ToNumber (Patient.thresholdMax (created "constructor")))
     = "normal".
Proof.
  intros created.
  assert (Hicu : ("ICU", (36.8, 37.0)%float) ∈ diseaseThresholds_table).
  { unfold diseaseThresholds_table. do 3 apply list_elem_of_further. apply list_elem_of_here. }
  assert (Hother : "Measles" ∉ map fst diseaseThresholds_table) by by_decide.
  assert (Hplain : "Measles" ∉ Object_prototype_names) by by_decide.
  assert (Hproto : "constructor" ∈ Object_prototype_names) by by_decide.
  destruct (thresholds_of_a_new_patient sample_uuid (new_patient "ICU") seeded)
    as (_ & Htable & _).
  destruct (Htable _ _ Hicu) as (Hmin & Hmax).
  destruct (thresholds_of_a_new_patient sample_uuid (new_patient "Measles") seeded)
    as (_ & _ & Hdefault & _).
  destruct (Hdefault Hother Hplain) as (Hmin' & Hmax').
  destruct (thresholds_of_a_new_patient sample_uuid (new_patient "constructor") seeded)
    as (_ & _ & _ & Hinherited).
  destruct (Hinherited Hproto eq_refl eq_refl) as (Hnone & _ & Hnormal).
  split; [repeat split; assumption|].
  split; [split; [exact (Hmin eq_refl)|exact (Hmax eq_refl)]|].
  split; [split; [exact (Hmin' eq_refl)|exact (Hmax' eq_refl)]|].
  split; [exact Hnone|exact (Hnormal 44.5%float)].
Defined.

(** * The properties of the dashboard on concrete runs *)

Lemma activity_list_is_trimmed_by_updates_only_witness :
  let alert := sample_stringify sample_alert in
  let update := sample_stringify sample_update in
  let flooded := Dashboard.receive browser_parse (repeat alert 7) Dashboard.mounted in
  (browser_parse update = Some sample_update
   /\ has_type "temperature-update" sample_update = true
   /\ forallb (fun d => negb (frame_type browser_parse "temperature-update" d))
              (repeat alert 7) = true)
  /\ length (Dashboard.alerts flooded) = 7
  /\ length (Dashboard.alerts (Dashboard.onmessage browser_parse update flooded)) = 5
  /\ Dashboard.temperatureData (Dashboard.onmessage browser_parse update flooded)
     = JObj [("deviceId", JStr "D1"); ("ambientTemp", JNum 24.5);
             ("objectTemp", JNum 32.1); ("timestamp", JNum 1700000000002)].
Proof.
  intros alert update flooded.
  assert (Hparse : browser_parse update = Some sample_update) by (vm_compute; reflexivity).
  assert (Hty : has_type "temperature-update" sample_update = true) by reflexivity.
  assert (Hnone : forallb (fun d => negb (frame_type browser_parse "temperature-update" d))
                          (repeat alert 7) = true) by (vm_compute; reflexivity).
  destruct (activity_list_is_trimmed_by_updates_only browser_parse update (repeat alert 7)
              Dashboard.mounted) as [_ Hgrow].
  destruct (Hgrow Hnone) as (_ & Hlen & _).
  destruct (activity_list_is_trimmed_by_updates_only browser_parse update [] flooded)
    as [Htrim _].
  destruct (Htrim sample_update Hparse Hty) as (Hshown & _ & Hfive & _).
  assert (Hseven : length (Dashboard.alerts flooded) = 7)
    by (etransitivity; [exact Hlen|reflexivity]).
  split; [repeat split; assumption|]. split; [exact Hseven|]. split.
  - etransitivity; [exact Hfive|]. rewrite Hseven. reflexivity.
  - etransitivity; [exact Hshown|reflexivity].
Defined.

Lemma dashboard_shows_the_stored_reading_witness :
  let st := two_subscribers in
  let st' := exec (onMessage browser_parse sample_stringify sample_clock 1 frame_D1) st in
  let message := JObj [("type", JStr "temperature"); ("deviceId", JStr "D1");
                       ("ambientTemp", JNum 24.5); ("objectTemp", JNum 32.1)] in
  (browser_parse frame_D1 = Some message
   /\ NoDup (connectedClients st)
   /\ sends_return st (connectedClients st) = true
   /\ 2 ∈ connectedClients st
   /\ browser_parse (sample_stringify sample_update) = Some sample_update)
  /\ exists frame,
       inbox (sockets st' 2) = [frame]
       /\ DeviceData_toJS <$> GetLatest "D1" st'
          = Some (Dashboard.temperatureData
                    (Dashboard.onmessage browser_parse frame Dashboard.mounted)).
Proof.
  intros st st' message.
  assert (Hparse : browser_parse frame_D1 = Some message) by (vm_compute; reflexivity).
  assert (Hnd : NoDup (connectedClients st)) by by_decide.
  assert (Hret : sends_return st (connectedClients st) = true) by (vm_compute; reflexivity).
  assert (Hin : 2 ∈ connectedClients st) by by_decide.
  assert (Hround : browser_parse (sample_stringify sample_update) = Some sample_update)
    by (vm_compute; reflexivity).
  destruct (dashboard_shows_the_stored_reading browser_parse sample_stringify sample_clock
              1 2 frame_D1 message st Dashboard.mounted
              Hparse eq_refl eq_refl Hnd Hret Hin eq_refl eq_refl)
    as (frame & Hinbox & _ & Hsame & _).
  - vm_compute. reflexivity.
  - split; [repeat split; assumption|].
    exists frame. split; [exact Hinbox|]. apply (Hsame "D1"). reflexivity.
Defined.

(** * The properties of the SMS service on concrete runs *)

Lemma alert_status_follows_the_provider_witness :
  let statuses w := map AlertLog.status (Map_values (Storage.alertLogs (Sms.store w))) in
  ("critical" <> "normal"
   /\ fresh_ids sample_uuid (Storage.uuids seeded)
                (length (Storage.recipientsOf seeded_patient seeded))
                (Storage.alertLogs seeded))
  /\ statuses (sample_alert_via env_partial) = ["sent"; "sent"; "sent"]
  /\ Sms.requests (sample_alert_via env_partial) = []
  /\ statuses (sample_alert_via env_twilio) = ["sent"; "failed"; "sent"]
  /\ map (fun q => (Sms.To q, Sms.From q)) (Sms.requests (sample_alert_via env_twilio))
     = [("+919876543211", "+15550000000"); ("+919876543212", "+15550000000");
        ("+919876543213", "+15550000000")].
Proof.
  intros statuses.
  assert (Hrisk : "critical" <> "normal") by discriminate.
  assert (Hfresh : fresh_ids sample_uuid (Storage.uuids seeded)
                     (length (Storage.recipientsOf seeded_patient seeded))
                     (Storage.alertLogs seeded))
    by (apply fresh_ids_sample; [reflexivity|by_decide]).
  destruct (alert_status_follows_the_provider sample_uuid sample_date sample_toFixed1
              sample_toLocaleString sample_fetch env_partial seeded_patient
              39.2 102.56 "critical" (Sms.mkWorld seeded []) Hrisk Hfresh)
    as ((Hlogs & _) & Hconsole & _).
  destruct (Hconsole ltac:(vm_compute; reflexivity)) as (_ & Hnone & _).
  destruct (alert_status_follows_the_provider sample_uuid sample_date sample_toFixed1
              sample_toLocaleString sample_fetch env_twilio seeded_patient
              39.2 102.56 "critical" (Sms.mkWorld seeded []) Hrisk Hfresh)
    as ((Hlogs' & _) & _ & Htwilio & _).
  assert (Henv : env_twilio = Sms.mkEnv (Some "AC123") (Some "token") (Some "+15550000000"))
    by reflexivity.
  destruct (Htwilio "AC123" "token" "+15550000000" Henv
              ltac:(discriminate) ltac:(discriminate) ltac:(discriminate))
    as (_ & _ & Hsent).
  split; [split; assumption|]. split; [|split; [|split]].
  - refine (eq_trans _ (eq_trans (f_equal (map AlertLog.status) Hlogs) _));
      vm_compute; reflexivity.
  - refine (eq_trans _ (eq_trans Hnone _)); vm_compute; reflexivity.
  - refine (eq_trans _ (eq_trans (f_equal (map AlertLog.status) Hlogs') _));
      vm_compute; reflexivity.
  - refine (eq_trans _ (eq_trans Hsent _)); vm_compute; reflexivity.
Defined.

(** * The order of the device list on a concrete run *)

Lemma device_list_keeps_its_order_witness :
  let st := sample_run [Connected 1; Frame 1 frame_D1_t1000; Frame 1 frame_D2_missing] initial in
  let st' := exec (sample_onMessage 1 frame_D1_t2000) st in
  (sample_parse frame_D1_t2000 = Some frame_D1_later
   /\ has_type "temperature" frame_D1_later = true
   /\ field "deviceId" frame_D1_later = JStr "D1")
  /\ map deviceId (GetAll st) = [JStr "D1"; JStr "D2"]
  /\ map deviceId (GetAll st') = [JStr "D1"; JStr "D2"]
  /\ map ambientTemp (GetAll st') = [JNum 25; JUndefined]
  /\ length (GetAll st') = length (GetAll st).
Proof.
  intros st st'.
  destruct (device_list_keeps_its_order sample_parse sample_stringify sample_clock
              1 frame_D1_t2000 frame_D1_later "D1" st eq_refl eq_refl eq_refl)
    as (_ & Hplace & _).
  destruct (Hplace (readingAt (frame_D1_at 1000) (sample_clock 0)) eq_refl)
    as (before & after & Hold & Hnew).
  split; [repeat split; reflexivity|]. split; [reflexivity|]. split; [reflexivity|].
  split; [reflexivity|].
  etransitivity; [exact (f_equal (fun l => length l) Hnew)|].
  etransitivity; [|symmetry; exact (f_equal (fun l => length l) Hold)].
  rewrite !length_app. reflexivity.
Defined.

(** * The server on a concrete run *)

Lemma dashboard_adds_up_in_every_reachable_state_witness :
  let requests := [Rest.PostTemperature (reading "uuid-3" 39.2 102.56);
                   Rest.PostPatient (Some (new_patient "ICU"));
                   Rest.DeleteStaff "uuid-2";
                   Rest.PostTemperature (reading "uuid-3" 36.9 98.42)] in
  let st := Rest.serve sample_uuid sample_date sample_toFixed1 requests seeded in
  known_levels st
  /\ within_bounds st
  /\ Storage.getDashboardStats None None st = DashboardStats.mk 2 0 0 2
  /\ map TemperatureLog.riskLevel (Map_values (Storage.temperatureLogs st))
     = ["normal"; "critical"; "normal"].
Proof.
  intros requests st.
  destruct (dashboard_adds_up_in_every_reachable_state sample_uuid sample_date sample_toFixed1
              requests None None) as (Hlevels & Hbounds & _).
  split; [exact Hlevels|]. split; [exact Hbounds|]. split; reflexivity.
Defined.
